(** * cwltool: the CommandLineTool core ([cwltool/command_line_tool.py])

    A shallow embedding of the job preparer and the output collector of
    [command_line_tool.py], and the properties of it that the specification
    states.  Python objects are embedded as a small universe of values;
    dictionaries keep their insertion order; exceptions are the error side of
    a res monad; the collaborators that live in other modules (the
    expression evaluator, the filesystem access object, [os.path], [urllib],
    [schema_salad], [shellescape], [hashlib]) are parameters. *)

From Stdlib Require Import ZArith List String Ascii Bool Lia DecimalString Sorted.
From stdpp Require Import base gmap sets strings.
Import ListNotations.

#[local] Set Warnings "-register-all".
#[local] Open Scope string_scope.
#[local] Open Scope list_scope.

(** ** Python values *)

(** The JSON-like objects the tool manipulates ([CWLObjectType],
    [CWLOutputType]).  A dictionary is an association list in insertion
    order, as Python dictionaries and ruamel's [CommentedMap] are.  Floats do
    not occur in the parts modelled here. *)
Inductive value : Type :=
| VNone
| VBool (b : bool)
| VInt (z : Z)
| VStr (s : string)
| VList (l : list value)
| VDict (d : list (string * value)).

Definition dict : Type := list (string * value).

(** Python truthiness ([if x:], [not x], [x and y]). *)
Definition truthy (v : value) : bool :=
  match v with
  | VNone => false
  | VBool b => b
  | VInt z => negb (Z.eqb z 0)
  | VStr s => negb (String.eqb s "")
  | VList l => match l with [] => false | _ => true end
  | VDict d => match d with [] => false | _ => true end
  end.

(** [v == s] for a string literal [s]. *)
Definition eq_str (v : value) (s : string) : bool :=
  match v with VStr s' => String.eqb s' s | _ => false end.

(** [v == z] for an integer literal [z]; in Python [False == 0] and
    [True == 1]. *)
Definition eq_int (v : value) (z : Z) : bool :=
  match v with
  | VInt z' => Z.eqb z' z
  | VBool b => Z.eqb (Z.b2z b) z
  | _ => false
  end.

(** [s in l] for a string literal [s] and a list [l]. *)
Definition str_in (s : string) (l : list value) : bool :=
  existsb (fun v => eq_str v s) l.

(** Modelled from the spec: [utils.aslist] ([cwltool/utils.py] is not among
    the sources); a list is returned as it is, anything else is wrapped in a
    list. *)
Definition aslist (v : value) : list value :=
  match v with VList l => l | _ => [v] end.

Definition is_mapping (v : value) : bool :=
  match v with VDict _ => true | _ => false end.

(** ** Dictionaries *)

Fixpoint dict_get {V : Type} (k : string) (d : list (string * V)) : option V :=
  match d with
  | [] => None
  | (k', v) :: d' => if String.eqb k k' then Some v else dict_get k d'
  end.

(** [k in d] *)
Definition dict_has {V : Type} (k : string) (d : list (string * V)) : bool :=
  match dict_get k d with Some _ => true | None => false end.

(** [d[k] = v]: an existing key keeps its place, a new one goes last. *)
Fixpoint dict_set {V : Type} (k : string) (v : V) (d : list (string * V))
  : list (string * V) :=
  match d with
  | [] => [(k, v)]
  | (k', v') :: d' =>
      if String.eqb k k' then (k, v) :: d' else (k', v') :: dict_set k v d'
  end.

(** [del d[k]] *)
Definition dict_del {V : Type} (k : string) (d : list (string * V))
  : list (string * V) :=
  List.filter (fun kv => negb (String.eqb k (fst kv))) d.

(** [d.get(k, dflt)] *)
Definition dict_get_default (k : string) (dflt : value) (d : dict) : value :=
  match dict_get k d with Some v => v | None => dflt end.

(** [d.values()] *)
Definition dict_values {V : Type} (d : list (string * V)) : list V := map snd d.

Definition dict_keys {V : Type} (d : list (string * V)) : list string := map fst d.

(** ** Python strings *)

(** [s.startswith(p)] *)
Definition startswith (s p : string) : bool := String.prefix p s.

(** [s[n:]] *)
Fixpoint str_from (n : nat) (s : string) : string :=
  match n, s with
  | O, _ => s
  | S n', String _ s' => str_from n' s'
  | S _, EmptyString => EmptyString
  end.

(** [s[0:n]] *)
Fixpoint str_upto (n : nat) (s : string) : string :=
  match n, s with
  | O, _ => EmptyString
  | S n', String c s' => String c (str_upto n' s')
  | S _, EmptyString => EmptyString
  end.

(** [s.rindex(c)] for a one-character [c]: the last position of [c], or
    nothing, where Python raises [ValueError]. *)
Fixpoint rindex (c : ascii) (s : string) : option nat :=
  match s with
  | EmptyString => None
  | String a s' =>
      match rindex c s' with
      | Some i => Some (S i)
      | None => if Ascii.eqb a c then Some O else None
      end
  end.

(** [p in s] for strings *)
Definition str_contains (p s : string) : bool :=
  match String.index 0 p s with Some _ => true | None => false end.

(** [sep.join(l)] *)
Definition join (sep : string) (l : list string) : string := String.concat sep l.

(** ** Exceptions and results *)

Inductive exn : Type :=
| WorkflowException (msg : string)
| ParameterOutputWorkflowException (msg : string)
| UnsupportedRequirement (msg : string)
| ValidationException (msg : string)
| ValueError (msg : string)
| KeyError (key : string)
| IndexError
| TypeError
| AttributeError
| UnboundLocalError
| RecursionError
| OSError (msg : string)
| OtherException (msg : string).

Inductive res (A : Type) : Type :=
| Ok (a : A)
| Raise (e : exn).
Arguments Ok {A} a.
Arguments Raise {A} e.

Definition bind {A B : Type} (m : res A) (k : A -> res B) : res B :=
  match m with Ok a => k a | Raise e => Raise e end.

Notation "'let*' x ':=' m 'in' k" := (bind m (fun x => k))
  (at level 10, x pattern, m at level 100, k at level 200).

(** Run [f] over a list, left to right, stopping at the first exception. *)
Fixpoint mapM {A B : Type} (f : A -> res B) (l : list A) : res (list B) :=
  match l with
  | [] => Ok []
  | a :: l' => let* b := f a in let* bs := mapM f l' in Ok (b :: bs)
  end.

(** A [for] loop that threads an accumulator. *)
Fixpoint foldM {A St : Type} (f : St -> A -> res St) (s : St) (l : list A)
  : res St :=
  match l with
  | [] => Ok s
  | a :: l' => let* s' := f s a in foldM f s' l'
  end.

(** [d[k]], which raises [KeyError] on a missing key. *)
Definition getitem (k : string) (d : dict) : res value :=
  match dict_get k d with Some v => Ok v | None => Raise (KeyError k) end.

(** A value used as a string: calling a [str] method on anything else raises
    [AttributeError]. *)
Definition as_str (v : value) : res string :=
  match v with VStr s => Ok s | _ => Raise AttributeError end.

(** ** Library functions *)

(** The functions of [os.path], [urllib.parse], [schema_salad.ref_resolver]
    and [cwltool.utils] the module calls, and Python's [str()] of an object
    as [%s] formats it. *)
Class OsLib : Type := {
  os_sep : string;
  os_path_basename : string -> string;
  os_path_isabs : string -> bool;
  os_path_join : string -> string -> string;
  os_path_split : string -> string * string;
  os_path_splitext : string -> string * string;
  urlsplit_scheme : string -> string;
  file_uri : string -> string;
  uri_file_path : string -> string;
  convert_pathsep_to_unix : string -> string;
  docker_windows_path_adjust : string -> string;
  str_of : value -> string
}.

(** [StdFsAccess]: the filesystem capability. *)
Module StdFsAccess.
Record t : Type := {
  exists_ : string -> bool;
  isfile : string -> bool;
  isdir : string -> bool;
  glob : string -> res (list string);
  join : string -> string -> string;
  size : string -> res Z
}.
End StdFsAccess.

(** ** The path mapper *)

Record MapperEnt : Type := {
  resolved : string;
  target : string;
  type : string;
  staged : bool
}.

(** Modelled from the spec: the [PathMapper] class ([cwltool/pathmapper.py]
    is not among the sources).  The mapper is keyed by location and iterates
    in insertion order; [mapper(location)] is the lookup, which fails on an
    absent key; [reversemap(target)] is the inverse lookup, which yields the
    pair (location, host path) of the entry staged at [target], or nothing. *)
Definition PathMapper : Type := list (string * MapperEnt).

Definition mapper (pm : PathMapper) (location : string) : res MapperEnt :=
  match dict_get location pm with
  | Some e => Ok e
  | None => Raise (KeyError location)
  end.

Fixpoint reversemap (pm : PathMapper) (tgt : string) : option (string * string) :=
  match pm with
  | [] => None
  | (k, v) :: pm' =>
      if String.eqb (target v) tgt then Some (k, resolved v)
      else reversemap pm' tgt
  end.

(** [pathmapper.items()] *)
Definition items (pm : PathMapper) : list (string * MapperEnt) := pm.

(** ** The builder *)

Module Builder.
Record t : Type := {
  job : dict;
  files : list dict;
  bindings : list dict;
  pathmapper : option PathMapper;
  fs_access : StdFsAccess.t;
  outdir : string;
  tmpdir : string;
  stagedir : string;
  resources : dict;
  loadListing : value;
  mutation_manager : bool
}.
Definition set_pathmapper (pm : option PathMapper) (b : t) : t :=
  {| job := job b; files := files b; bindings := bindings b; pathmapper := pm;
     fs_access := fs_access b; outdir := outdir b; tmpdir := tmpdir b;
     stagedir := stagedir b; resources := resources b;
     loadListing := loadListing b; mutation_manager := mutation_manager b |}.
Definition set_outdir (o : string) (b : t) : t :=
  {| job := job b; files := files b; bindings := bindings b;
     pathmapper := pathmapper b; fs_access := fs_access b; outdir := o;
     tmpdir := tmpdir b; stagedir := stagedir b; resources := resources b;
     loadListing := loadListing b; mutation_manager := mutation_manager b |}.
Definition set_resources (r : dict) (b : t) : t :=
  {| job := job b; files := files b; bindings := bindings b;
     pathmapper := pathmapper b; fs_access := fs_access b; outdir := outdir b;
     tmpdir := tmpdir b; stagedir := stagedir b; resources := r;
     loadListing := loadListing b; mutation_manager := mutation_manager b |}.
Definition set_files (fs bs : list dict) (b : t) : t :=
  {| job := job b; files := fs; bindings := bs;
     pathmapper := pathmapper b; fs_access := fs_access b; outdir := outdir b;
     tmpdir := tmpdir b; stagedir := stagedir b; resources := resources b;
     loadListing := loadListing b; mutation_manager := mutation_manager b |}.
End Builder.

(** ** The tool, the runtime context, the jobs *)

(** An entry of [requirements] or [hints]: a mapping with its [class] and
    the other fields. *)
Record requirement : Type := {
  class : string;
  fields : dict
}.

(** The entry as the mapping it is. *)
Definition req_dict (r : requirement) : dict := ("class", VStr (class r)) :: fields r.

(** [r.get(k)] *)
Definition req_get (k : string) (r : requirement) : value :=
  dict_get_default k VNone (req_dict r).

Module CommandLineTool.
Record t : Type := {
  tool : dict;
  requirements : list requirement;
  hints : list requirement;
  original_requirements : list requirement;
  original_hints : list requirement;
  metadata : dict
}.
Definition set_requirements (reqs : list requirement) (self : t) : t :=
  {| tool := tool self; requirements := reqs; hints := hints self;
     original_requirements := original_requirements self;
     original_hints := original_hints self; metadata := metadata self |}.
End CommandLineTool.

Module RuntimeContext.
Record t : Type := {
  name : string;
  cachedir : option string;
  use_container : bool;
  find_default_container : option (CommandLineTool.t -> option string);
  default_container : option string;
  singularity : bool;
  user_space_docker_cmd : option string;
  docker_outdir : string;
  basedir : string;
  outdir : option string;
  tmpdir : option string;
  stagedir : option string;
  compute_checksum : option bool
}.
Definition set_dirs (o tm st : option string) (rc : t) : t :=
  {| name := name rc; cachedir := cachedir rc; use_container := use_container rc;
     find_default_container := find_default_container rc;
     default_container := default_container rc; singularity := singularity rc;
     user_space_docker_cmd := user_space_docker_cmd rc;
     docker_outdir := docker_outdir rc; basedir := basedir rc;
     outdir := o; tmpdir := tm; stagedir := st;
     compute_checksum := compute_checksum rc |}.
End RuntimeContext.

(** Truthiness of an [Optional[str]]. *)
Definition truthy_opt (o : option string) : bool :=
  match o with Some s => negb (String.eqb s "") | None => false end.

(** Modelled from the spec: [context.getdefault(val, default)]
    ([cwltool/context.py] is not among the sources), the default for
    [None]. *)
Definition getdefault {A : Type} (val : option A) (default : A) : A :=
  match val with Some a => a | None => default end.

(** The job classes [make_job_runner] chooses from. *)
Inductive JobRunner : Type :=
| SingularityCommandLineJob
| UDockerCommandLineJob
| DockerCommandLineJob
| CommandLineJob.

(** An output callback: one the caller passed in, or the wrapper
    [partial(update_status_output_callback, output_callbacks, jobcachelock)]
    the cache installs around it. *)
Inductive OutputCallback : Type :=
| Callback (id : string)
| update_status_output_callback (output_callbacks : option OutputCallback)
    (jobcachelock : string).

(** ** The mutation manager *)

(** [obj["location"]] of a File or Directory, a string. *)
Definition location_of (obj : dict) : res string :=
  match dict_get "location" obj with
  | Some (VStr loc) => Ok loc
  | Some _ => Raise TypeError
  | None => Raise (KeyError "location")
  end.

(** Modelled from the spec: the [MutationManager] ([cwltool/mutation.py] is
    not among the sources).  It tracks, keyed by file location, a set of
    active readers (job names) and at most one active mutator.
    [register_reader] adds the job to the readers and fails if the file has
    a mutator; [register_mutation] sets the job as mutator, fails if any
    reader or mutator exists and bumps the generation; [release_reader]
    removes the job from the readers; [set_generation] stamps the
    descriptor with the current generation. *)
Module MutationManager.
Record MutationState : Type := {
  generation : nat;
  readers : gset string;
  mutator : option string
}.

Definition state (mm : gmap string MutationState) (loc : string) : MutationState :=
  match mm !! loc with
  | Some st => st
  | None => {| generation := 0; readers := ∅; mutator := None |}
  end.

Definition register_reader (mm : gmap string MutationState) (stepname : string)
    (obj : dict) : res (gmap string MutationState) :=
  let* loc := location_of obj in
  let current := state mm loc in
  match mutator current with
  | Some _ =>
      Raise (WorkflowException ("Cannot read '" +:+ loc +:+ "': it has a mutator"))
  | None =>
      Ok (<[loc := {| generation := generation current;
                      readers := {[stepname]} ∪ readers current;
                      mutator := None |}]> mm)
  end.

Definition register_mutation (mm : gmap string MutationState) (stepname : string)
    (obj : dict) : res (gmap string MutationState) :=
  let* loc := location_of obj in
  let current := state mm loc in
  if bool_decide (readers current = ∅) && negb (bool_decide (is_Some (mutator current))) then
    Ok (<[loc := {| generation := S (generation current);
                    readers := readers current;
                    mutator := Some stepname |}]> mm)
  else
    Raise (WorkflowException
      ("Cannot mutate '" +:+ loc +:+ "': it has readers or a mutator")).

Definition release_reader (mm : gmap string MutationState) (stepname : string)
    (obj : dict) : res (gmap string MutationState) :=
  let* loc := location_of obj in
  let current := state mm loc in
  Ok (<[loc := {| generation := generation current;
                  readers := readers current ∖ {[stepname]};
                  mutator := mutator current |}]> mm).

Definition set_generation (mm : gmap string MutationState) (obj : dict)
  : res dict :=
  let* loc := location_of obj in
  Ok (dict_set "http://commonwl.org/cwltool#generation"
        (VInt (Z.of_nat (generation (state mm loc)))) obj).
End MutationManager.

(** ** Traversal of descriptors *)

Section Visit.
Context {St : Type}.
Variable visit : St -> value -> res (St * value).

Fixpoint visit_items (s : St) (l : list value) : res (St * list value) :=
  match l with
  | [] => Ok (s, [])
  | v :: l' =>
      let* (s1, v1) := visit s v in
      let* (s2, l1) := visit_items s1 l' in
      Ok (s2, v1 :: l1)
  end.

Fixpoint visit_entries (s : St) (d : dict) : res (St * dict) :=
  match d with
  | [] => Ok (s, [])
  | (k, v) :: d' =>
      let* (s1, v1) := visit s v in
      let* (s2, d1) := visit_entries s1 d' in
      Ok (s2, (k, v1) :: d1)
  end.
End Visit.

(** ["class" in rec and rec.get("class") in cls] *)
Definition class_in (cls : list string) (rec : dict) : bool :=
  match dict_get "class" rec with
  | Some v => existsb (eq_str v) cls
  | None => false
  end.

(** Modelled from the spec: [utils.visit_class(rec, cls, op)]
    ([cwltool/utils.py] is not among the sources), the traversal that
    applies [op] to each File or Directory descriptor: to every mapping
    whose [class] is in [cls], a descriptor before the descriptors nested in
    it, in the order of the entries.  [op] works on the descriptor in place
    and may have effects, which are threaded as a state. *)
Definition visit_mapping {St : Type} (visit : St -> value -> res (St * value))
    (cls : list string) (op : St -> dict -> res (St * dict)) (s : St) (d : dict)
  : res (St * dict) :=
  let* (s1, d1) := if class_in cls d then op s d else Ok (s, d) in
  visit_entries visit s1 d1.

Fixpoint visit_class_rec {St : Type} (fuel : nat) (cls : list string)
    (op : St -> dict -> res (St * dict)) (s : St) (rec : value)
  : res (St * value) :=
  match fuel with
  | O => Raise RecursionError
  | S fuel' =>
      match rec with
      | VDict d =>
          let* (s2, d2) := visit_mapping (visit_class_rec fuel' cls op) cls op s d in
          Ok (s2, VDict d2)
      | VList l =>
          let* (s1, l1) := visit_items (visit_class_rec fuel' cls op) s l in
          Ok (s1, VList l1)
      | _ => Ok (s, rec)
      end
  end.

(** The mappings of a list. *)
Definition dicts_of (l : list value) : list dict :=
  flat_map (fun v => match v with VDict d => [d] | _ => [] end) l.

(** An [op] with no effect but on the descriptor. *)
Definition pure_op (op : dict -> res dict) (s : unit) (d : dict)
  : res (unit * dict) :=
  let* d' := op d in Ok (s, d').

(** An [op] that leaves the descriptor as it is. *)
Definition effect_op {St : Type} (op : St -> dict -> res St) (s : St) (d : dict)
  : res (St * dict) :=
  let* s' := op s d in Ok (s', d).

(** ** Jobs and the world they run in *)

(** [CallbackJob] *)
Module CallbackJob.
Record t : Type := {
  job : CommandLineTool.t;
  output_callback : option OutputCallback;
  cachebuilder : Builder.t;
  outdir : string
}.
End CallbackJob.

(** What [collect_outputs] is bound to (lines 811-818). *)
Record collect_outputs_closure : Type := {
  co_ports : value;
  co_builder : Builder.t;
  co_compute_checksum : bool;
  co_jobname : string;
  co_readers : list (string * dict)
}.

(** Modelled from the spec: the backend job ([cwltool/job.py] is not among
    the sources), with the settable fields of the backend interface that
    the preparer fills in. *)
Module JobBase.
Record t : Type := {
  runner : JobRunner;
  builder : Builder.t;
  joborder : dict;
  requirements : list requirement;
  hints : list requirement;
  name : string;
  successCodes : value;
  temporaryFailCodes : value;
  permanentFailCodes : value;
  generatefiles : dict;
  inplace_update : value;
  outdir : string;
  command_line : list string;
  pathmapper : option PathMapper;
  collect_outputs : option collect_outputs_closure;
  output_callback : option OutputCallback
}.
End JobBase.

(** [ExpressionJob] *)
Module ExpressionJob.
Record t : Type := {
  builder : Builder.t;
  script : value;
  output_callback : option OutputCallback;
  requirements : list requirement;
  hints : list requirement;
  outdir : option string;
  tmpdir : option string
}.
End ExpressionJob.

(** What the generator [job] yields. *)
Inductive yielded : Type :=
| YieldCallbackJob (j : CallbackJob.t)
| YieldJob (j : JobBase.t).

(** What happens to the cache's lock file and directory, and the calls of
    the output callbacks. *)
Inductive event : Type :=
| Open (path mode : string)
| SharedLock (path : string)
| UpgradeLock (path : string)
| Truncate (path : string)
| Write (path data : string)
| Close (path : string)
| Rmtree (path : string)
| Makedirs (path : string)
| Called (callback : string) (outputs : value) (processStatus : string).

(** The files and directories of the cache, the mutation manager, and the
    events so far. *)
Record World : Type := {
  file_contents : gmap string string;
  directories : gset string;
  manager : gmap string MutationManager.MutationState;
  events : list event
}.

Definition log (e : event) (w : World) : World :=
  {| file_contents := file_contents w; directories := directories w;
     manager := manager w; events := events w ++ [e] |}.

Definition set_file (path data : string) (w : World) : World :=
  {| file_contents := <[path := data]> (file_contents w);
     directories := directories w; manager := manager w; events := events w |}.

Definition set_directories (ds : gset string) (w : World) : World :=
  {| file_contents := file_contents w; directories := ds;
     manager := manager w; events := events w |}.

Definition set_manager (m : gmap string MutationManager.MutationState) (w : World)
  : World :=
  {| file_contents := file_contents w; directories := directories w;
     manager := m; events := events w |}.

(** [open(path, "a+")]: the file is created empty when it is absent. *)
Definition open_append (path : string) (w : World) : World :=
  log (Open path "a+")
    (match file_contents w !! path with
     | Some _ => w
     | None => set_file path "" w
     end).

(** [f.seek(0); f.read()] *)
Definition read_file (path : string) (w : World) : string :=
  match file_contents w !! path with Some data => data | None => "" end.

(** [shutil.rmtree(path, True)] and [os.makedirs(path)] on the cache
    directory. *)
Definition rmtree (path : string) (w : World) : World :=
  log (Rmtree path) (set_directories (directories w ∖ {[path]}) w).

Definition makedirs (path : string) (w : World) : res World :=
  if bool_decide (path ∈ directories w) then Raise (OSError "File exists")
  else Ok (log (Makedirs path) (set_directories ({[path]} ∪ directories w) w)).

(** A call of an output callback.  The wrapper of the cache saves the status
    to the lock file, closes it, and calls the callback it wraps. *)
Fixpoint call (cb : OutputCallback) (outputs : value) (processStatus : string)
    (w : World) : res World :=
  match cb with
  | Callback id => Ok (log (Called id outputs processStatus) w)
  | update_status_output_callback output_callbacks jobcachelock =>
      let w := log (Truncate jobcachelock) w in
      let w := log (Write jobcachelock processStatus)
                 (set_file jobcachelock processStatus w) in
      let w := log (Close jobcachelock) w in
      match output_callbacks with
      | Some cb' => call cb' outputs processStatus w
      | None => Raise TypeError
      end
  end.

(** A line feed. *)
Definition newline : string := String (ascii_of_nat 10) EmptyString.

(** ** The collaborators *)

Section Tool.
Context `{OsLib}.

(** [Process.get_requirement], [Process._init_job], [process.shortname] and
    [process.uniquename]. *)
Variable get_requirement :
  CommandLineTool.t -> string -> option requirement * option bool.
Variable _init_job :
  CommandLineTool.t -> dict -> RuntimeContext.t -> res Builder.t.
Variable shortname : string -> string.
Variable uniquename : string -> string.

(** [Builder.generate_arg] and [Builder.do_eval(ex, context)]. *)
Variable generate_arg : Builder.t -> dict -> res (list string).
Variable do_eval : Builder.t -> value -> option value -> res value.
Variable make_fs_access : Builder.t -> string -> StdFsAccess.t.

(** [PathMapper(referenced_files, basedir, stagedir, separateDirs)]. *)
Variable new_PathMapper :
  list dict -> string -> string -> bool -> res (list (string * MapperEnt)).

(** [os.stat]: the size, and the modification time as
    [int(st_mtime * 1000)]. *)
Variable os_stat : string -> res (Z * Z).

(** [schema_salad.utils.json_dumps(obj, separators, sort_keys)] of a
    mapping, and [hashlib.md5(s.encode("utf-8")).hexdigest()]. *)
Variable json_dumps : gmap string value -> string * string -> bool -> string.
Variable md5_hexdigest : string -> string.

(** [shellescape.quote], [locale.strcoll], [builder.substitute] and
    [utils.random_outdir()]. *)
Variable shellescape_quote : string -> string.
Variable strcoll : string -> string -> Z.
Variable substitute : string -> string -> string.
Variable random_outdir : string.

(** The depth of nested calls that Python's stack leaves to a recursive
    traversal beyond its first call; past it, [RecursionError] is raised. *)
Variable recursion_limit : nat.

Definition visit_class {St : Type} (rec : value) (cls : list string)
    (op : St -> dict -> res (St * dict)) (s : St) : res (St * value) :=
  visit_class_rec (S recursion_limit) cls op s rec.

(** Modelled from the spec: [utils.adjustFileObjs] and
    [utils.adjustDirObjs] ([cwltool/utils.py] is not among the sources),
    which are [visit_class] for the classes [File] and [Directory]. *)
Definition adjustFileObjs {St : Type} (rec : value)
    (op : St -> dict -> res (St * dict)) (s : St) : res (St * value) :=
  visit_class rec ["File"] op s.

Definition adjustDirObjs {St : Type} (rec : value)
    (op : St -> dict -> res (St * dict)) (s : St) : res (St * value) :=
  visit_class rec ["Directory"] op s.


(** ** Reverse mapping: [revmap_file] *)

(** [x == dir or x.startswith(dir + os.sep) or x.startswith(dir + "/")] *)
Definition within (x dir : string) : bool :=
  String.eqb x dir || startswith x (dir +:+ os_sep) || startswith x (dir +:+ "/").

(** The part of [revmap_file] that runs once the descriptor has a [path]. *)
Definition revmap_path (builder : Builder.t) (outdir : string) (f : dict)
  : res dict :=
  match dict_get "path" f with
  | Some p =>
      let* path := as_str p in
      let uripath := file_uri path in
      let f := dict_del "path" f in
      let f :=
        if dict_has "basename" f then f
        else dict_set "basename" (VStr (os_path_basename path)) f in
      match Builder.pathmapper builder with
      | None =>
          Raise (ValueError
            "Do not call revmap_file using a builder that doesn't have a pathmapper.")
      | Some pm =>
          let revmap_f := reversemap pm path in
          let* passthrough :=
            match revmap_f with
            | Some (loc, _) =>
                let* e := mapper pm loc in
                Ok (negb (startswith (type e) "Writable"))
            | None => Ok false
            end in
          match revmap_f, passthrough with
          | Some (_, host), true => Ok (dict_set "location" (VStr host) f)
          | _, _ =>
              if within uripath outdir then
                Ok (dict_set "location" (VStr (file_uri path)) f)
              else if within path (Builder.outdir builder) then
                Ok (dict_set "location"
                      (VStr (StdFsAccess.join (Builder.fs_access builder) outdir
                               (str_from (String.length (Builder.outdir builder) + 1) path)))
                      f)
              else if negb (os_path_isabs path) then
                Ok (dict_set "location"
                      (VStr (StdFsAccess.join (Builder.fs_access builder) outdir path)) f)
              else
                Raise (WorkflowException
                  ("Output file path " +:+ path +:+
                   " must be within designated output directory (" +:+
                   Builder.outdir builder +:+ ") or an input file pass through."))
          end
      end
  | None =>
      Raise (WorkflowException
        ("Output File object is missing both 'location' and 'path' fields: "
         +:+ str_of (VDict f)))
  end.

(** The host output directory as a URI: [outdir] itself when it has a
    scheme, [file_uri(outdir)] otherwise. *)
Definition outdir_uri (outdir : string) : string :=
  if String.eqb (urlsplit_scheme outdir) "" then file_uri outdir else outdir.

Definition revmap_file (builder : Builder.t) (outdir : string) (f : dict)
  : res dict :=
  let outdir := outdir_uri outdir in
  if dict_has "location" f && negb (dict_has "path" f) then
    let* l := getitem "location" f in
    let* location := as_str l in
    if startswith location "file://" then
      revmap_path builder outdir
        (dict_set "path" (VStr (convert_pathsep_to_unix (uri_file_path location))) f)
    else Ok f
  else revmap_path builder outdir f.

(** [remove_path] *)
Definition remove_path (f : dict) : dict :=
  if dict_has "path" f then dict_del "path" f else f.

(** ** Path adjustment: [check_adjust] *)

(** [ACCEPTLIST_EN_STRICT_RE.match]: [^[a-zA-Z0-9._+-]+$], where [$] also
    matches before a final newline. *)
Definition acceptlist_char (c : ascii) : bool :=
  let n := nat_of_ascii c in
  (Nat.leb 97 n && Nat.leb n 122) || (Nat.leb 65 n && Nat.leb n 90)
  || (Nat.leb 48 n && Nat.leb n 57)
  || Nat.eqb n 46 || Nat.eqb n 95 || Nat.eqb n 43 || Nat.eqb n 45.

Fixpoint ACCEPTLIST_RE_match (s : string) : bool :=
  match s with
  | EmptyString => false
  | String c s' =>
      acceptlist_char c &&
      match s' with
      | EmptyString => true
      | String c' EmptyString =>
          Nat.eqb (nat_of_ascii c') 10 || ACCEPTLIST_RE_match s'
      | _ => ACCEPTLIST_RE_match s'
      end
  end.

(** [if file_o.get(k) != s: file_o[k] = str(s)] *)
Definition set_if_differs (k s : string) (file_o : dict) : dict :=
  if eq_str (dict_get_default k VNone file_o) s then file_o
  else dict_set k (VStr s) file_o.

Definition check_adjust (builder : Builder.t) (file_o : dict) : res dict :=
  match Builder.pathmapper builder with
  | None =>
      Raise (ValueError
        "Do not call check_adjust using a builder that doesn't have a pathmapper.")
  | Some pm =>
      let* e :=
        match dict_get "location" file_o with
        | Some (VStr location) => mapper pm location
        | Some v => Raise (KeyError (str_of v))
        | None => Raise (KeyError "location")
        end in
      let path := docker_windows_path_adjust (target e) in
      let file_o := dict_set "path" (VStr path) file_o in
      let '(dn, bn) := os_path_split path in
      let file_o := set_if_differs "dirname" dn file_o in
      let file_o := set_if_differs "basename" bn file_o in
      let basename := bn in
      let* c := getitem "class" file_o in
      let file_o :=
        if eq_str c "File" then
          let '(nr, ne) := os_path_splitext basename in
          set_if_differs "nameext" ne (set_if_differs "nameroot" nr file_o)
        else file_o in
      if ACCEPTLIST_RE_match basename then Ok file_o
      else
        Raise (WorkflowException
          ("Invalid filename: '" +:+ basename +:+ "' contains illegal characters"))
  end.

(** [check_valid_locations] *)
Definition check_valid_locations (fs_access : StdFsAccess.t) (ob : dict)
  : res dict :=
  let* l := getitem "location" ob in
  let* location := as_str l in
  let* c := getitem "class" ob in
  if eq_str c "File" && negb (StdFsAccess.isfile fs_access location) then
    Raise (ValidationException
      ("Does not exist or is not a File: '" +:+ location +:+ "'"))
  else if eq_str c "Directory" && negb (StdFsAccess.isdir fs_access location) then
    Raise (ValidationException
      ("Does not exist or is not a Directory: '" +:+ location +:+ "'"))
  else Ok ob.

(** ** Runner selection: [make_job_runner] *)

(** The loop over [reversed(self.requirements)]. *)
Fixpoint refuse_DockerRequirement (reqs : list requirement) : res unit :=
  match reqs with
  | [] => Ok tt
  | t :: reqs' =>
      if String.eqb (class t) "DockerRequirement" then
        Raise (UnsupportedRequirement
          "--no-container, but this CommandLineTool has DockerRequirement under 'requirements'.")
      else refuse_DockerRequirement reqs'
  end.

(** [make_job_runner]; it may put a DockerRequirement for the default
    container in front of [self.requirements], so the tool is returned with
    the runner. *)
Definition make_job_runner (self : CommandLineTool.t) (runtimeContext : RuntimeContext.t)
  : res (JobRunner * CommandLineTool.t) :=
  let dockerReq := fst (get_requirement self "DockerRequirement") in
  let default :=
    if negb (bool_decide (is_Some dockerReq)) && RuntimeContext.use_container runtimeContext
    then
      match RuntimeContext.find_default_container runtimeContext with
      | Some find => find self
      | None => None
      end
    else None in
  let '(self, dockerReq) :=
    match default with
    | Some default_container =>
        let r := {| class := "DockerRequirement";
                    fields := [("dockerPull", VStr default_container)] |} in
        (CommandLineTool.set_requirements (r :: CommandLineTool.requirements self) self,
         Some r)
    | None => (self, dockerReq)
    end in
  if bool_decide (is_Some dockerReq) && RuntimeContext.use_container runtimeContext then
    if RuntimeContext.singularity runtimeContext then
      Ok (SingularityCommandLineJob, self)
    else if truthy_opt (RuntimeContext.user_space_docker_cmd runtimeContext) then
      Ok (UDockerCommandLineJob, self)
    else Ok (DockerCommandLineJob, self)
  else
    let* _ := refuse_DockerRequirement (rev (CommandLineTool.requirements self)) in
    Ok (CommandLineJob, self).

(** ** The cache key *)

(** Modelled from the spec: [flatten] ([cwltool/flatten.py] is not among the
    sources), which flattens the lists of tokens [generate_arg] returns for
    the bindings into a plain argv. *)
Definition flatten (l : list (list string)) : list string := concat l.

(** [a or b] *)
Definition py_or (a b : value) : value := if truthy a then a else b.

(** Lines 451-462: the container image that is hashed with the command
    line, or [None]. *)
Definition cache_dockerimg (self : CommandLineTool.t)
    (runtimeContext : RuntimeContext.t) : value :=
  let docker_req := fst (get_requirement self "DockerRequirement") in
  match docker_req, RuntimeContext.use_container runtimeContext with
  | Some r, true => py_or (req_get "dockerImageId" r) (req_get "dockerPull" r)
  | _, _ =>
      match RuntimeContext.default_container runtimeContext,
            RuntimeContext.use_container runtimeContext with
      | Some c, true => VStr c
      | _, _ => VNone
      end
  end.

(** Lines 464-466: [docker run] and the image go before the command line
    when there is an image. *)
Definition docker_run (dockerimg : value) (cmdline : list value) : list value :=
  match dockerimg with
  | VNone => cmdline
  | _ => VStr "docker" :: VStr "run" :: dockerimg :: cmdline
  end.

(** Lines 448-466: the command line that is hashed. *)
Definition cache_cmdline (self : CommandLineTool.t)
    (runtimeContext : RuntimeContext.t) (cachebuilder : Builder.t)
  : res (list value) :=
  let* args := mapM (generate_arg cachebuilder) (Builder.bindings cachebuilder) in
  let cmdline := map VStr (flatten args) in
  Ok (docker_run (cache_dockerimg self runtimeContext) cmdline).

(** Lines 472-474. *)
Definition keydict_shortcuts (tool : dict) (keydict : gmap string value)
  : gmap string value :=
  fold_left
    (fun kd shortcut =>
       match dict_get shortcut tool with
       | Some v => <[shortcut := v]> kd
       | None => kd
       end)
    ["stdin"; "stdout"; "stderr"] keydict.

(** [calc_checksum] *)
Fixpoint calc_checksum (files : list dict) (location : string) : value :=
  match files with
  | [] => VNone
  | e :: files' =>
      match dict_get "location" e, dict_get "checksum" e with
      | Some l, Some c =>
          if eq_str l location && negb (eq_str c "sha1$hash") then c
          else calc_checksum files' location
      | _, _ => calc_checksum files' location
      end
  end.

(** Lines 487-497: one entry of the path mapper. *)
Definition keydict_file (files : list dict) (keydict : gmap string value)
    (item : string * MapperEnt) : res (gmap string value) :=
  let '(location, fobj) := item in
  if String.eqb (type fobj) "File" then
    let checksum := calc_checksum files location in
    let* (st_size, st_mtime_ms) := os_stat (resolved fobj) in
    match checksum with
    | VNone => Ok (<[resolved fobj := VList [VInt st_size; VInt st_mtime_ms]]> keydict)
    | _ => Ok (<[resolved fobj := VList [VInt st_size; checksum]]> keydict)
    end
  else Ok keydict.

Definition interesting : list string :=
  ["DockerRequirement"; "EnvVarRequirement"; "InitialWorkDirRequirement";
   "ShellCommandRequirement"; "NetworkAccess"].

(** [cls in interesting] *)
Definition is_interesting (cls : string) : bool := existsb (String.eqb cls) interesting.
Arguments is_interesting : simpl never.

(** Lines 507-510: [for r in reversed(rh)]. *)
Definition keydict_requirements (rh : list requirement)
    (keydict : gmap string value) : gmap string value :=
  fold_left
    (fun kd r =>
       let cls := class r in
       if is_interesting cls && negb (bool_decide (is_Some (kd !! cls)))
       then <[cls := VDict (req_dict r)]> kd
       else kd)
    (rev rh) keydict.

(** Lines 448-510. *)
Definition cache_keydict (self : CommandLineTool.t)
    (runtimeContext : RuntimeContext.t) (cachebuilder : Builder.t)
  : res (gmap string value) :=
  let* cmdline := cache_cmdline self runtimeContext cachebuilder in
  let keydict : gmap string value := {["cmdline" := VList cmdline]} in
  let keydict := keydict_shortcuts (CommandLineTool.tool self) keydict in
  let* pm :=
    match Builder.pathmapper cachebuilder with
    | Some pm => Ok pm
    | None => Raise AttributeError
    end in
  let* keydict := foldM (keydict_file (Builder.files cachebuilder)) keydict (items pm) in
  let keydict := keydict_requirements (CommandLineTool.original_requirements self) keydict in
  let keydict := keydict_requirements (CommandLineTool.original_hints self) keydict in
  Ok keydict.

(** Lines 512-513. *)
Definition cachekey_of (keydict : gmap string value) : string :=
  md5_hexdigest (json_dumps keydict (",", ":") true).

(** ** The command line *)

(** Lines 802-805: one binding of the shell command. *)
Definition shell_arg (builder : Builder.t) (cmd : list string) (b : dict)
  : res (list string) :=
  let* arg := generate_arg builder b in
  let arg :=
    if truthy (dict_get_default "shellQuote" (VBool true) b)
    then map shellescape_quote arg else arg in
  Ok (cmd ++ arg).

(** Lines 798-808. *)
Definition command_line (self : CommandLineTool.t) (builder : Builder.t)
  : res (list string) :=
  match fst (get_requirement self "ShellCommandRequirement") with
  | Some _ =>
      let* cmd := foldM (shell_arg builder) [] (Builder.bindings builder) in
      Ok ["/bin/sh"; "-c"; join " " cmd]
  | None =>
      let* args := mapM (generate_arg builder) (Builder.bindings builder) in
      Ok (flatten args)
  end.

(** ** Mutation registration *)

(** What lines 741-768 build: the manager's state, the locations
    registered as mutations and the snapshots of the readers by location. *)
Record registry : Type := {
  mm : gmap string MutationManager.MutationState;
  muts : gset string;
  readers : list (string * dict)
}.

Definition register_mut (j_name : string) (reg : registry) (f : dict)
  : res registry :=
  let* location := location_of f in
  let muts' := {[location]} ∪ muts reg in
  let* mm' := MutationManager.register_mutation (mm reg) j_name f in
  Ok {| mm := mm'; muts := muts'; readers := readers reg |}.

Definition register_reader (j_name : string) (reg : registry) (f : dict)
  : res registry :=
  let* location := location_of f in
  if bool_decide (location ∈ muts reg) then Ok reg
  else
    let* mm' := MutationManager.register_reader (mm reg) j_name f in
    Ok {| mm := mm'; muts := muts reg; readers := dict_set location f (readers reg) |}.

(** A traversal whose [op] has effects only: the descriptors stay. *)
Definition visit_for {St : Type} (rec : value) (cls : list string)
    (op : St -> dict -> res St) (s : St) : res St :=
  let* (s', _) := visit_class rec cls (effect_op op) s in Ok s'.

(** Lines 757-763: one entry of the listing. *)
Definition register_listing_entry (j_name : string) (inplace_update : value)
    (reg : registry) (li : value) : res registry :=
  let* writable :=
    match li with
    | VDict d => Ok (dict_get_default "writable" VNone d)
    | _ => Raise AttributeError
    end in
  let op := if truthy writable && truthy inplace_update
            then register_mut j_name else register_reader j_name in
  let* reg := visit_for li ["File"] op reg in
  visit_for li ["Directory"] op reg.

(** Lines 741-768. *)
Definition register_files (j_name : string) (inplace_update : value)
    (generatefiles : dict) (builder : Builder.t)
    (mm0 : gmap string MutationManager.MutationState) : res registry :=
  let reg := {| mm := mm0; muts := ∅; readers := [] |} in
  if Builder.mutation_manager builder then
    let* listing := getitem "listing" generatefiles in
    let* listing := match listing with VList l => Ok l | _ => Raise TypeError end in
    let* reg := foldM (register_listing_entry j_name inplace_update) reg listing in
    let files := VList (map VDict (Builder.files builder)) in
    let bindings := VList (map VDict (Builder.bindings builder)) in
    let* reg := visit_for files ["File"] (register_reader j_name) reg in
    let* reg := visit_for bindings ["File"] (register_reader j_name) reg in
    let* reg := visit_for files ["Directory"] (register_reader j_name) reg in
    visit_for bindings ["Directory"] (register_reader j_name) reg
  else Ok reg.

(** Lines 902-904: the release of the readers once the outputs are
    collected; the manager's state, and the locations released, in order. *)
Definition release_readers (has_manager : bool) (jobname : string)
    (readers : option (list (string * dict)))
    (mm0 : gmap string MutationManager.MutationState)
  : res (gmap string MutationManager.MutationState * list string) :=
  match readers with
  | Some rs =>
      if has_manager && match rs with [] => false | _ => true end then
        foldM
          (fun '(mm, released) r =>
             let* mm' := MutationManager.release_reader mm jobname r in
             let* location := location_of r in
             Ok (mm', released ++ [location]))
          (mm0, []) (dict_values rs)
      else Ok (mm0, [])
  | None => Ok (mm0, [])
  end.

(** ** Output collection: [collect_output] *)

(** More collaborators: [SourceLine(item, key).makeError], the message of a
    built-in exception, [utils.get_listing], the reading of a file's
    contents ([content_limit_respected_read_bytes]) and of its SHA-1 digest
    through [fs_access.open], [json.load] of the manifest,
    [utils.trim_listing], [utils.normalizeFilesDirs],
    [process.compute_checksums], [validate_ex] against the output record
    schema and [json_dumps(ret, indent=4)]. *)
Variable makeError : value -> value -> string -> string.
Variable builtin_str : exn -> string.
Variable get_listing : StdFsAccess.t -> dict -> bool -> res dict.
Variable load_contents : StdFsAccess.t -> string -> res string.
Variable sha1_hexdigest : StdFsAccess.t -> string -> res string.
Variable load_json : StdFsAccess.t -> string -> res value.
Variable trim_listing : dict -> res dict.
Variable normalizeFilesDirs : value -> res value.
Variable compute_checksums : StdFsAccess.t -> dict -> res dict.
Variable validate_ex : CommandLineTool.t -> value -> res unit.
Variable json_dumps_indent : value -> string.

(** [str(e)] *)
Definition exn_str (e : exn) : string :=
  match e with
  | WorkflowException msg | ParameterOutputWorkflowException msg
  | UnsupportedRequirement msg | ValidationException msg | ValueError msg
  | OSError msg | OtherException msg => msg
  | _ => builtin_str e
  end.

(** [with SourceLine(item, key, raise_type, debug): body]: an exception that
    leaves the body is raised again as a [raise_type], its message put
    after the source position of [item[key]]. *)
Definition SourceLine {A : Type} (item key : value) (raise_type : string -> exn)
    (body : res A) : res A :=
  match body with
  | Ok a => Ok a
  | Raise e => Raise (raise_type (makeError item key (exn_str e)))
  end.

(** Lines 925-928. *)
Definition eval_globs (builder : Builder.t) (binding : dict) : res (list value) :=
  let* g := getitem "glob" binding in
  foldM
    (fun globpatterns gb =>
       let* gb := do_eval builder gb None in
       if truthy gb then Ok (globpatterns ++ aslist gb) else Ok globpatterns)
    [] (aslist g).

(** Lines 931-938: the pattern that is globbed for [gb]. *)
Definition glob_pattern (builder : Builder.t) (outdir : string) (gb : value)
  : res string :=
  let* gb := as_str gb in
  if startswith gb (Builder.outdir builder) then
    Ok (str_from (String.length (Builder.outdir builder) + 1) gb)
  else if String.eqb gb "." then Ok outdir
  else if startswith gb "/" then
    Raise (WorkflowException "glob patterns must not start with '/'")
  else Ok gb.

(** [sorted(l, key=cmp_to_key(cmp))]: a stable sort, here by insertion; an
    element goes before the first one that is not smaller than it. *)
Fixpoint insert_sorted (cmp : string -> string -> Z) (x : string) (l : list string)
  : list string :=
  match l with
  | [] => [x]
  | y :: l' => if Z.ltb (cmp y x) 0 then y :: insert_sorted cmp x l' else x :: y :: l'
  end.

Definition sorted (cmp : string -> string -> Z) (l : list string) : list string :=
  fold_right (insert_sorted cmp) [] l.

(** Lines 943-958: the descriptor of a hit [g]. *)
Definition glob_hit (builder : Builder.t) (fs_access : StdFsAccess.t)
    (prefix : list string) (g : string) : res dict :=
  let* p0 := match prefix with p :: _ => Ok p | [] => Raise IndexError end in
  Ok [("location", VStr g);
      ("path", VStr (StdFsAccess.join fs_access (Builder.outdir builder)
                       (str_from (String.length p0 + 1) g)));
      ("basename", VStr (os_path_basename g));
      ("nameroot", VStr (fst (os_path_splitext (os_path_basename g))));
      ("nameext", VStr (snd (os_path_splitext (os_path_basename g))));
      ("class", VStr (if StdFsAccess.isfile fs_access g then "File" else "Directory"))].

(** Lines 930-976: one pattern. *)
Definition glob_step (builder : Builder.t) (outdir : string)
    (fs_access : StdFsAccess.t) (r : list dict) (gb : value) : res (list dict) :=
  let* gb := glob_pattern builder outdir gb in
  let found :=
    let* prefix := StdFsAccess.glob fs_access outdir in
    let* hits := StdFsAccess.glob fs_access (StdFsAccess.join fs_access outdir gb) in
    mapM (glob_hit builder fs_access prefix) (sorted strcoll hits) in
  match found with
  | Ok hits => Ok (r ++ hits)
  | Raise (OSError _) => Ok r
  | Raise e => Raise e
  end.

(** Lines 978-1003: one hit. *)
Definition load_hit (schema binding : dict) (builder : Builder.t) (outdir : string)
    (fs_access : StdFsAccess.t) (compute_checksum : bool) (files : dict)
  : res dict :=
  let* rfile := revmap_file builder outdir files in
  let* c := getitem "class" files in
  if eq_str c "Directory" then
    let ll := py_or (dict_get_default "loadListing" VNone schema)
                (Builder.loadListing builder) in
    if truthy ll && negb (eq_str ll "no_listing")
    then get_listing fs_access files (eq_str ll "deep_listing")
    else Ok files
  else
    let* l := getitem "location" rfile in
    let* location := as_str l in
    let* files :=
      if truthy (dict_get_default "loadContents" VNone binding) then
        let* contents := load_contents fs_access location in
        Ok (dict_set "contents" (VStr contents) files)
      else Ok files in
    let* files :=
      if compute_checksum then
        let* digest := sha1_hexdigest fs_access location in
        Ok (dict_set "checksum" (VStr ("sha1$" +:+ digest)) files)
      else Ok files in
    let* sz := StdFsAccess.size fs_access location in
    Ok (dict_set "size" (VInt sz) files).

(** Lines 1005-1013. *)
Definition port_optional (ty : value) : bool :=
  match ty with VList l => str_in "null" l | _ => false end.

Definition port_single (ty : value) : bool :=
  match ty with
  | VList l => str_in "File" l || str_in "Directory" l
  | _ => eq_str ty "File" || eq_str ty "Directory"
  end.

(** Lines 1023-1039, for a port that is single. *)
Definition single_result (binding : dict) (globpatterns : list value)
    (optional : bool) (result : value) : res value :=
  if negb (truthy result) && negb optional then
    SourceLine (VDict binding) (VStr "glob") WorkflowException
      (Raise (WorkflowException
         ("Did not find output file with glob pattern: '" +:+
          str_of (VList globpatterns) +:+ "'")))
  else if negb (truthy result) && optional then Ok result
  else
    match result with
    | VList l =>
        if Nat.ltb 1 (List.length l) then
          Raise (WorkflowException
            "Multiple matches for output item that is a single file.")
        else match l with x :: _ => Ok x | [] => Raise IndexError end
    | _ => Ok result
    end.

(** [primary["secondaryFiles"].append(sfitem)] *)
Definition append_secondary (primary : dict) (sfitem : dict) : res dict :=
  match dict_get "secondaryFiles" primary with
  | Some (VList l) => Ok (dict_set "secondaryFiles" (VList (l ++ [VDict sfitem])) primary)
  | Some _ => Raise AttributeError
  | None => Raise (KeyError "secondaryFiles")
  end.

(** A value used as a path by [fs_access]. *)
Definition as_path (v : value) : res string :=
  match v with VStr s => Ok s | _ => Raise TypeError end.

(** Lines 1066-1086: one item of the evaluated pattern. *)
Definition secondary_item (builder : Builder.t) (outdir : string)
    (fs_access : StdFsAccess.t) (pathprefix : string) (sf_required : value)
    (primary : dict) (sfitem : value) : res dict :=
  if negb (truthy sfitem) then Ok primary
  else
    let* sfitem :=
      match sfitem with
      | VStr s => Ok [("path", VStr (pathprefix +:+ s))]
      | VDict d => Ok d
      | _ => Raise TypeError
      end in
    let* p := getitem "path" sfitem in
    let* path := as_path p in
    if negb (StdFsAccess.exists_ fs_access path) && truthy sf_required then
      Raise (WorkflowException ("Missing required secondary file '" +:+ path +:+ "'"))
    else
      let* sfitem :=
        if dict_has "path" sfitem && negb (dict_has "location" sfitem)
        then revmap_file builder outdir sfitem else Ok sfitem in
      let* l := getitem "location" sfitem in
      let* location := as_path l in
      if StdFsAccess.isfile fs_access location then
        append_secondary primary (dict_set "class" (VStr "File") sfitem)
      else if StdFsAccess.isdir fs_access location then
        append_secondary primary (dict_set "class" (VStr "Directory") sfitem)
      else Ok primary.

(** Lines 1049-1086: one declared secondary-file descriptor. *)
Definition secondary_pattern (builder : Builder.t) (outdir : string)
    (fs_access : StdFsAccess.t) (pathprefix : string) (primary : dict)
    (sf : value) : res dict :=
  let* sf := match sf with VDict d => Ok d | _ => Raise TypeError end in
  let* sf_required :=
    match dict_get "required" sf with
    | Some ex => do_eval builder ex (Some (VDict primary))
    | None => Ok (VBool false)
    end in
  let* pat := getitem "pattern" sf in
  let* pattern := as_path pat in
  let* sfpath :=
    if str_contains "$(" pattern || str_contains "${" pattern then
      do_eval builder (VStr pattern) (Some (VDict primary))
    else
      let* b := getitem "basename" primary in
      let* basename := as_path b in
      Ok (VStr (substitute basename pattern)) in
  foldM (secondary_item builder outdir fs_access pathprefix sf_required)
    primary (aslist sfpath).

(** Lines 1043-1086: one primary. *)
Definition secondary_files_of (schema : dict) (builder : Builder.t)
    (outdir : string) (fs_access : StdFsAccess.t) (primary : value)
  : res value :=
  match primary with
  | VDict p =>
      let p := if dict_has "secondaryFiles" p then p
               else dict_set "secondaryFiles" (VList []) p in
      let* pa := getitem "path" p in
      let* path := as_str pa in
      let* i := match rindex "/" path with
                | Some i => Ok i
                | None => Raise (ValueError "substring not found")
                end in
      let pathprefix := str_upto (i + 1) path in
      let* sfs := getitem "secondaryFiles" schema in
      let* p := foldM (secondary_pattern builder outdir fs_access pathprefix)
                  p (aslist sfs) in
      Ok (VDict p)
  | _ => Ok primary
  end.

(** [for x in aslist(result): body], the body working on [x] in place. *)
Definition for_aslist (body : value -> res value) (result : value)
  : res value :=
  match result with
  | VList l => let* l' := mapM body l in Ok (VList l')
  | _ => body result
  end.

(** Lines 1041-1086. *)
Definition secondary_files (schema : dict) (builder : Builder.t)
    (outdir : string) (fs_access : StdFsAccess.t) (result : value)
  : res value :=
  if dict_has "secondaryFiles" schema then
    SourceLine (VDict schema) (VStr "secondaryFiles") WorkflowException
      (for_aslist (secondary_files_of schema builder outdir fs_access) result)
  else Ok result.

(** Lines 1088-1092. *)
Definition set_format (schema : dict) (builder : Builder.t) (result : value)
  : res value :=
  match dict_get "format" schema with
  | Some fmt =>
      for_aslist
        (fun primary =>
           let* v := do_eval builder fmt (Some primary) in
           match primary with
           | VDict p => Ok (VDict (dict_set "format" v p))
           | _ => Raise TypeError
           end)
        result
  | None => Ok result
  end.

(** Lines 1097-1103: what is returned for a falsy result of an optional
    port. *)
Definition optional_result (result : value) : value :=
  if eq_int result 0 || eq_str result "" then result else VNone.

(** How the [outputBinding] part ends: with a [return], or with [result]
    bound (or not) for the lines after it. *)
Inductive flow : Type :=
| Return (v : value)
| Fallthrough (result : option value).

(** Lines 1023-1103: what becomes of [result] once [outputEval] is
    applied. *)
Definition finish_binding (schema binding : dict) (builder : Builder.t)
    (outdir : string) (fs_access : StdFsAccess.t) (globpatterns : list value)
    (optional single : bool) (result : value) : res flow :=
  let* result :=
    if single then single_result binding globpatterns optional result
    else Ok result in
  let* result := secondary_files schema builder outdir fs_access result in
  let* result := set_format schema builder result in
  let* (_, result) :=
    adjustFileObjs result (pure_op (revmap_file builder outdir)) tt in
  if negb (truthy result) && optional then Ok (Return (optional_result result))
  else Ok (Fallthrough (Some result)).

(** Lines 917-1103. *)
Definition collect_binding (schema : dict) (builder : Builder.t)
    (outdir : string) (fs_access : StdFsAccess.t) (compute_checksum : bool)
  : res flow :=
  let* b := getitem "outputBinding" schema in
  let* binding := match b with VDict d => Ok d | _ => Raise TypeError end in
  let* (globpatterns, r) :=
    if dict_has "glob" binding then
      let* (globpatterns, r) :=
        SourceLine (VDict binding) (VStr "glob") WorkflowException
          (let* globpatterns := eval_globs builder binding in
           let* r := foldM (glob_step builder outdir fs_access) [] globpatterns in
           Ok (globpatterns, r)) in
      let* r := mapM (load_hit schema binding builder outdir fs_access compute_checksum) r in
      Ok (globpatterns, r)
    else Ok ([], []) in
  let* ty := getitem "type" schema in
  let optional := port_optional ty in
  let single := port_single ty in
  let* result :=
    match dict_get "outputEval" binding with
    | Some ex =>
        SourceLine (VDict binding) (VStr "outputEval") WorkflowException
          (do_eval builder ex (Some (VList (map VDict r))))
    | None => Ok (VList (map VDict r))
    end in
  finish_binding schema binding builder outdir fs_access globpatterns
    optional single result.

(** [collect_output]; [fuel] bounds the nesting of record types. *)
Fixpoint collect_output_rec (fuel : nat) (schema : dict) (builder : Builder.t)
    (outdir : string) (fs_access : StdFsAccess.t) (compute_checksum : bool)
  : res value :=
  match fuel with
  | O => Raise RecursionError
  | S fuel' =>
      let* fl :=
        if dict_has "outputBinding" schema
        then collect_binding schema builder outdir fs_access compute_checksum
        else Ok (Fallthrough None) in
      match fl with
      | Return v => Ok v
      | Fallthrough result =>
          let* ty := getitem "type" schema in
          let* is_record :=
            match ty with
            | VDict t => let* kind := getitem "type" t in Ok (eq_str kind "record")
            | _ => Ok false
            end in
          if is_record then
            let* fields :=
              match ty with
              | VDict t => getitem "fields" t
              | _ => Raise TypeError
              end in
            let* fields := match fields with VList l => Ok l | _ => Raise TypeError end in
            let* out :=
              foldM
                (fun out field =>
                   let* field := match field with VDict f => Ok f | _ => Raise TypeError end in
                   let* n := getitem "name" field in
                   let* name := as_str n in
                   let* v := collect_output_rec fuel' field builder outdir fs_access
                               compute_checksum in
                   Ok (dict_set (shortname name) v out))
                [] fields in
            Ok (VDict out)
          else
            match result with
            | Some v => Ok v
            | None => Raise UnboundLocalError
            end
      end
  end.

Definition collect_output (schema : dict) (builder : Builder.t) (outdir : string)
    (fs_access : StdFsAccess.t) (compute_checksum : bool) : res value :=
  collect_output_rec (S recursion_limit) schema builder outdir fs_access
    compute_checksum.

(** ** Output collection: [collect_output_ports] *)

(** [ParameterOutputWorkflowException(msg, port)] *)
Definition parameter_output_error (port : dict) (msg : string) : exn :=
  match dict_get "id" port with
  | Some (VStr id) =>
      ParameterOutputWorkflowException
        ("Error collecting output for parameter '" +:+ shortname id +:+ "':"
         +:+ newline +:+ msg)
  | Some _ => AttributeError
  | None => KeyError "id"
  end.

(** Lines 853-868: one port. *)
Definition collect_port (ports : value) (builder : Builder.t) (outdir : string)
    (fs_access : StdFsAccess.t) (compute_checksum : bool)
    (acc : nat * dict) (port : value) : res (nat * dict) :=
  let '(i, ret) := acc in
  let* port := match port with VDict d => Ok d | _ => Raise TypeError end in
  let* ret :=
    SourceLine ports (VInt (Z.of_nat i)) (parameter_output_error port)
      (let* id := getitem "id" port in
       let* id := as_str id in
       let fragment := shortname id in
       let* v := collect_output port builder outdir fs_access compute_checksum in
       Ok (dict_set fragment v ret)) in
  Ok (S i, ret).

(** [except ValidationException as e], for a step that works on [ret]. *)
Definition reraise_validation {A : Type} (ret : value) (step : res A) : res A :=
  match step with
  | Raise (ValidationException msg) =>
      Raise (WorkflowException
        ("Error validating output record. " +:+ msg +:+ newline +:+ " in "
         +:+ json_dumps_indent ret))
  | _ => step
  end.

Definition file_or_directory : list string := ["File"; "Directory"].

(** Lines 869-884. *)
Definition postprocess (builder : Builder.t) (outdir : string)
    (fs_access : StdFsAccess.t) (compute_checksum : bool) (ret : value)
  : res value :=
  let* (_, ret) := adjustDirObjs ret (pure_op trim_listing) tt in
  let* (_, ret) :=
    visit_class ret file_or_directory (pure_op (revmap_file builder outdir)) tt in
  let* (_, ret) :=
    visit_class ret file_or_directory (pure_op (fun f => Ok (remove_path f))) tt in
  let* ret := reraise_validation ret (normalizeFilesDirs ret) in
  let* (_, ret) :=
    reraise_validation ret
      (visit_class ret file_or_directory
         (pure_op (check_valid_locations fs_access)) tt) in
  if compute_checksum then
    let* (_, ret) :=
      reraise_validation ret
        (adjustFileObjs ret (pure_op (compute_checksums fs_access)) tt) in
    Ok ret
  else Ok ret.

(** Lines 841-893: the body of the [try]. *)
Definition collect_output_ports_body (self : CommandLineTool.t) (ports : value)
    (builder : Builder.t) (outdir : string) (compute_checksum : bool)
    (mm : gmap string MutationManager.MutationState) : res value :=
  let fs_access := make_fs_access builder outdir in
  let custom_output := StdFsAccess.join fs_access outdir "cwl.output.json" in
  let* ret :=
    if StdFsAccess.exists_ fs_access custom_output then
      reraise_validation (VDict []) (load_json fs_access custom_output)
    else
      let* ports_list := match ports with VList l => Ok l | _ => Raise TypeError end in
      let* (_, ret) :=
        foldM (collect_port ports builder outdir fs_access compute_checksum)
          (O, []) ports_list in
      Ok (VDict ret) in
  let* ret :=
    if truthy ret then postprocess builder outdir fs_access compute_checksum ret
    else Ok ret in
  let* _ := reraise_validation ret (validate_ex self ret) in
  let* ret :=
    match ret with
    | VNone => Ok ret
    | _ =>
        if Builder.mutation_manager builder then
          let* (_, ret) :=
            reraise_validation ret
              (adjustFileObjs ret (pure_op (MutationManager.set_generation mm)) tt) in
          Ok ret
        else Ok ret
    end in
  Ok (match ret with VNone => VDict [] | _ => ret end).

(** [collect_output_ports]: the outputs or the exception, and the mutation
    manager after the [finally] clause. *)
Definition collect_output_ports (self : CommandLineTool.t) (ports : value)
    (builder : Builder.t) (outdir : string) (rcode : value)
    (compute_checksum : bool) (jobname : string)
    (readers : option (list (string * dict)))
    (mm : gmap string MutationManager.MutationState)
  : res value * gmap string MutationManager.MutationState :=
  let cwl_version :=
    dict_get_default "http://commonwl.org/cwltool#original_cwlVersion" VNone
      (CommandLineTool.metadata self) in
  let builder :=
    if eq_str cwl_version "v1.0" then builder
    else Builder.set_resources
           (dict_set "exitCode" rcode (Builder.resources builder)) builder in
  let ret := collect_output_ports_body self ports builder outdir compute_checksum mm in
  match release_readers (Builder.mutation_manager builder) jobname readers mm with
  | Ok (mm', _) => (ret, mm')
  | Raise e => (Raise e, mm)
  end.

(** ** The cached job: [CallbackJob.run] *)

Definition CallbackJob_run (self : CallbackJob.t) (runtimeContext : RuntimeContext.t)
    (w : World) : res World :=
  match CallbackJob.output_callback self with
  | Some output_callback =>
      let* ports := getitem "outputs" (CommandLineTool.tool (CallbackJob.job self)) in
      let '(outputs, mm) :=
        collect_output_ports (CallbackJob.job self) ports
          (CallbackJob.cachebuilder self) (CallbackJob.outdir self)
          (VBool (getdefault (RuntimeContext.compute_checksum runtimeContext) true))
          true "" None (manager w) in
      let* outputs := outputs in
      call output_callback outputs "success" (set_manager mm w)
  | None => Ok w
  end.

(** ** The preparer: [CommandLineTool.job] *)

(** Lines 621-739 (initial work directory, streams, directories, in-place
    update) and lines 770-796 (time limit, network access, environment)
    fill in fields of the job that the properties below do not depend on. *)
Variable prepare_workdir_and_streams :
  CommandLineTool.t -> RuntimeContext.t -> Builder.t -> JobBase.t ->
  res (Builder.t * JobBase.t).
Variable prepare_limits_and_environment :
  CommandLineTool.t -> Builder.t -> JobBase.t -> res JobBase.t.

(** [visit_class([builder.files, builder.bindings], ("File", "Directory"),
    partial(check_adjust, builder))] *)
Definition adjust_files (builder : Builder.t) : res Builder.t :=
  let rec := VList [VList (map VDict (Builder.files builder));
                    VList (map VDict (Builder.bindings builder))] in
  let* (_, rec) :=
    visit_class rec file_or_directory (pure_op (check_adjust builder)) tt in
  match rec with
  | VList [VList files; VList bindings] =>
      Ok (Builder.set_files (dicts_of files) (dicts_of bindings) builder)
  | _ => Ok builder
  end.

(** Lines 430-446. *)
Definition make_cachebuilder (self : CommandLineTool.t) (job_order : dict)
    (runtimeContext : RuntimeContext.t) : res Builder.t :=
  let cachecontext :=
    RuntimeContext.set_dirs (Some "/out") (Some "/tmp") (Some "/stage") runtimeContext in
  let* cachebuilder := _init_job self job_order cachecontext in
  let* pm := new_PathMapper (Builder.files cachebuilder)
               (RuntimeContext.basedir runtimeContext)
               (Builder.stagedir cachebuilder) false in
  adjust_files (Builder.set_pathmapper (Some pm) cachebuilder).

(** Lines 423-424. *)
Definition enableReuse (self : CommandLineTool.t) : value :=
  match fst (get_requirement self "WorkReuse") with
  | Some workReuse => dict_get_default "enableReuse" (VBool true) (req_dict workReuse)
  | None => VBool true
  end.

(** Lines 426-428. *)
Definition jobname_of (self : CommandLineTool.t) (runtimeContext : RuntimeContext.t)
  : res string :=
  if negb (String.eqb (RuntimeContext.name runtimeContext) "") then
    Ok (uniquename (RuntimeContext.name runtimeContext))
  else
    let* id := as_str (dict_get_default "id" (VStr "job") (CommandLineTool.tool self)) in
    Ok (uniquename (shortname id)).

(** How the cache lookup of lines 429-577 ends. *)
Inductive cache_lookup : Type :=
| CacheHit (j : CallbackJob.t) (jobcachelock : string)
| CacheMiss (runtimeContext : RuntimeContext.t) (output_callbacks : option OutputCallback).

Definition lookup_cache (self : CommandLineTool.t) (job_order : dict)
    (output_callbacks : option OutputCallback)
    (runtimeContext : RuntimeContext.t) (cachedir : string) (w : World)
  : res (cache_lookup * World) :=
  let* cachebuilder := make_cachebuilder self job_order runtimeContext in
  let* keydict := cache_keydict self runtimeContext cachebuilder in
  let cachekey := cachekey_of keydict in
  let jobcache := os_path_join cachedir cachekey in
  let jobcachepending := jobcache +:+ ".status" in
  let w := open_append jobcachepending w in
  let w := log (SharedLock jobcachepending) w in
  let jobstatus := read_file jobcachepending w in
  if bool_decide (jobcache ∈ directories w) && String.eqb jobstatus "success" then
    let docker_req := fst (get_requirement self "DockerRequirement") in
    let cachebuilder :=
      if bool_decide (is_Some docker_req) && RuntimeContext.use_container runtimeContext
      then
        Builder.set_outdir
          (if negb (String.eqb (RuntimeContext.docker_outdir runtimeContext) "")
           then RuntimeContext.docker_outdir runtimeContext else random_outdir)
          cachebuilder
      else Builder.set_outdir jobcache cachebuilder in
    Ok (CacheHit
          {| CallbackJob.job := self;
             CallbackJob.output_callback := output_callbacks;
             CallbackJob.cachebuilder := cachebuilder;
             CallbackJob.outdir := jobcache |}
          jobcachepending, w)
  else
    let w := log (UpgradeLock jobcachepending) w in
    let w := rmtree jobcache w in
    let* w := makedirs jobcache w in
    let runtimeContext :=
      RuntimeContext.set_dirs (Some jobcache)
        (RuntimeContext.tmpdir runtimeContext)
        (RuntimeContext.stagedir runtimeContext) runtimeContext in
    Ok (CacheMiss runtimeContext
          (Some (update_status_output_callback output_callbacks jobcachepending)), w).

(** Lines 579-821: the real job. *)
Definition construct_job (self : CommandLineTool.t) (job_order : dict)
    (output_callbacks : option OutputCallback)
    (runtimeContext : RuntimeContext.t) (jobname : string) (w : World)
  : res (JobBase.t * World) :=
  let* builder := _init_job self job_order runtimeContext in
  let reffiles := Builder.files builder in
  let* (runner, self) := make_job_runner self runtimeContext in
  let tool := CommandLineTool.tool self in
  let j :=
    {| JobBase.runner := runner; JobBase.builder := builder;
       JobBase.joborder := Builder.job builder;
       JobBase.requirements := CommandLineTool.requirements self;
       JobBase.hints := CommandLineTool.hints self;
       JobBase.name := jobname;
       JobBase.successCodes := dict_get_default "successCodes" (VList []) tool;
       JobBase.temporaryFailCodes := dict_get_default "temporaryFailCodes" (VList []) tool;
       JobBase.permanentFailCodes := dict_get_default "permanentFailCodes" (VList []) tool;
       JobBase.generatefiles :=
         [("class", VStr "Directory"); ("listing", VList []); ("basename", VStr "")];
       JobBase.inplace_update := VBool false;
       JobBase.outdir := Builder.outdir builder;
       JobBase.command_line := [];
       JobBase.pathmapper := None;
       JobBase.collect_outputs := None;
       JobBase.output_callback := None |} in
  let* pm := new_PathMapper reffiles (RuntimeContext.basedir runtimeContext)
               (Builder.stagedir builder) true in
  let* builder := adjust_files (Builder.set_pathmapper (Some pm) builder) in
  let* (builder, j) := prepare_workdir_and_streams self runtimeContext builder j in
  let* reg :=
    register_files (JobBase.name j) (JobBase.inplace_update j)
      (JobBase.generatefiles j) builder (manager w) in
  let* j := prepare_limits_and_environment self builder j in
  let* cmd := command_line self builder in
  let* ports := getitem "outputs" tool in
  let j :=
    {| JobBase.runner := JobBase.runner j; JobBase.builder := builder;
       JobBase.joborder := JobBase.joborder j;
       JobBase.requirements := JobBase.requirements j;
       JobBase.hints := JobBase.hints j; JobBase.name := JobBase.name j;
       JobBase.successCodes := JobBase.successCodes j;
       JobBase.temporaryFailCodes := JobBase.temporaryFailCodes j;
       JobBase.permanentFailCodes := JobBase.permanentFailCodes j;
       JobBase.generatefiles := JobBase.generatefiles j;
       JobBase.inplace_update := JobBase.inplace_update j;
       JobBase.outdir := JobBase.outdir j;
       JobBase.command_line := cmd;
       JobBase.pathmapper := Builder.pathmapper builder;
       JobBase.collect_outputs :=
         Some {| co_ports := ports; co_builder := builder;
                 co_compute_checksum :=
                   getdefault (RuntimeContext.compute_checksum runtimeContext) true;
                 co_jobname := jobname; co_readers := readers reg |};
       JobBase.output_callback := output_callbacks |} in
  Ok (j, set_manager (mm reg) w).

(** [CommandLineTool.job]: what the generator yields when it is run to its
    end, and the world after it. *)
Definition job (self : CommandLineTool.t) (job_order : dict)
    (output_callbacks : option OutputCallback)
    (runtimeContext : RuntimeContext.t) (w : World)
  : res (list yielded * World) :=
  let enableReuse := enableReuse self in
  let* jobname := jobname_of self runtimeContext in
  let* (looked, w) :=
    match RuntimeContext.cachedir runtimeContext with
    | Some cachedir =>
        if negb (String.eqb cachedir "") && truthy enableReuse then
          lookup_cache self job_order output_callbacks runtimeContext cachedir w
        else Ok (CacheMiss runtimeContext output_callbacks, w)
    | None => Ok (CacheMiss runtimeContext output_callbacks, w)
    end in
  match looked with
  | CacheHit j jobcachelock =>
      Ok ([YieldCallbackJob j], log (Close jobcachelock) w)
  | CacheMiss runtimeContext output_callbacks =>
      let* (j, w) := construct_job self job_order output_callbacks runtimeContext jobname w in
      Ok ([YieldJob j], w)
  end.

(** * Properties *)

(** ** Dictionaries *)

Lemma dict_get_set_eq {V : Type} (k : string) (v : V) (d : list (string * V)) :
  dict_get k (dict_set k v d) = Some v.
Proof.
  induction d as [|[k' v'] d IH]; simpl.
  - by rewrite String.eqb_refl.
  - destruct (String.eqb k k') eqn:E; simpl.
    + by rewrite String.eqb_refl.
    + by rewrite E.
Qed.

Lemma dict_get_set_ne {V : Type} (k k' : string) (v : V) (d : list (string * V)) :
  k <> k' -> dict_get k' (dict_set k v d) = dict_get k' d.
Proof.
  intros Hne. induction d as [|[k0 v0] d IH]; simpl.
  - destruct (String.eqb k' k) eqn:E; [|done].
    apply String.eqb_eq in E. congruence.
  - destruct (String.eqb k k0) eqn:E; simpl.
    + apply String.eqb_eq in E. subst k0.
      destruct (String.eqb k' k) eqn:E'; [|done].
      apply String.eqb_eq in E'. congruence.
    + by rewrite IH.
Qed.

Lemma dict_get_del_eq {V : Type} (k : string) (d : list (string * V)) :
  dict_get k (dict_del k d) = None.
Proof.
  unfold dict_del. induction d as [|[k' v'] d IH]; simpl; [done|].
  destruct (String.eqb k k') eqn:E; simpl; [done|]. by rewrite E.
Qed.

Lemma dict_get_del_ne {V : Type} (k k' : string) (d : list (string * V)) :
  k <> k' -> dict_get k' (dict_del k d) = dict_get k' d.
Proof.
  intros Hne. unfold dict_del. induction d as [|[k0 v0] d IH]; simpl; [done|].
  destruct (String.eqb k k0) eqn:E; simpl.
  - apply String.eqb_eq in E. subst k0.
    destruct (String.eqb k' k) eqn:E'; [|done].
    apply String.eqb_eq in E'. congruence.
  - by rewrite IH.
Qed.

Lemma dict_has_true {V : Type} (k : string) (d : list (string * V)) :
  dict_has k d = true <-> is_Some (dict_get k d).
Proof.
  unfold dict_has. destruct (dict_get k d); split; intros Hs; done.
Qed.

Lemma dict_has_false {V : Type} (k : string) (d : list (string * V)) :
  dict_has k d = false <-> dict_get k d = None.
Proof. unfold dict_has. by destruct (dict_get k d). Qed.

(** ** Reverse mapping *)







Lemma revmap_file_with_path (builder : Builder.t) (outdir path : string) (f : dict) :
  dict_get "path" f = Some (VStr path) ->
  revmap_file builder outdir f = revmap_path builder (outdir_uri outdir) f.
Proof.
  intros Hp. unfold revmap_file.
  assert (dict_has "path" f = true) as -> by (apply dict_has_true; by eexists).
  by rewrite andb_false_r.
Qed.



(** C9: a descriptor with a [location] that does not start with [file://]
    and with no [path] comes back from [revmap_file] as it is, and no
    exception is raised. *)
Theorem revmap_file_remote_location (builder : Builder.t) (outdir location : string)
    (f : dict) :
  dict_get "location" f = Some (VStr location) ->
  dict_get "path" f = None ->
  startswith location "file://" = false ->
  revmap_file builder outdir f = Ok f.
Proof.
  intros Hl Hp Hs. unfold revmap_file, getitem.
  assert (dict_has "location" f = true) as -> by (apply dict_has_true; by eexists).
  assert (dict_has "path" f = false) as -> by by apply dict_has_false.
  simpl. rewrite Hl. simpl. by rewrite Hs.
Qed.

(** ** Runner selection *)

Definition requires_docker (reqs : list requirement) : Prop :=
  exists t, In t reqs /\ class t = "DockerRequirement".

Lemma refuse_DockerRequirement_raises (reqs : list requirement) :
  requires_docker reqs ->
  refuse_DockerRequirement reqs
  = Raise (UnsupportedRequirement
      "--no-container, but this CommandLineTool has DockerRequirement under 'requirements'.").
Proof.
  intros (t & Hin & Hc). induction reqs as [|t' reqs IH]; [done|]. simpl.
  destruct (String.eqb (class t') "DockerRequirement") eqn:E; [done|].
  destruct Hin as [-> | Hin]; [|by apply IH].
  rewrite Hc in E. by rewrite String.eqb_refl in E.
Qed.

Lemma refuse_DockerRequirement_ok (reqs : list requirement) :
  ~ requires_docker reqs -> refuse_DockerRequirement reqs = Ok tt.
Proof.
  intros Hno. induction reqs as [|t' reqs IH]; [done|]. simpl.
  destruct (String.eqb (class t') "DockerRequirement") eqn:E.
  - exfalso. apply Hno. exists t'. split; [by left|]. by apply String.eqb_eq.
  - apply IH. intros (t & Hin & Hc). apply Hno. exists t. split; [by right|done].
Qed.

Lemma requires_docker_rev (reqs : list requirement) :
  requires_docker (rev reqs) <-> requires_docker reqs.
Proof.
  unfold requires_docker. split; intros (t & Hin & Hc); exists t; split; try done.
  - by apply in_rev.
  - by apply in_rev in Hin.
Qed.

(** C8: with containers disabled, a DockerRequirement among the
    requirements makes [make_job_runner] raise the unsupported-requirement
    error, so that no runner is chosen; with none among the requirements,
    whatever the hints hold, the local-process runner is chosen and the tool
    is left as it is. *)
Theorem make_job_runner_without_container (self : CommandLineTool.t)
    (runtimeContext : RuntimeContext.t) :
  RuntimeContext.use_container runtimeContext = false ->
  (requires_docker (CommandLineTool.requirements self) ->
   make_job_runner self runtimeContext
   = Raise (UnsupportedRequirement
       "--no-container, but this CommandLineTool has DockerRequirement under 'requirements'."))
  /\
  (~ requires_docker (CommandLineTool.requirements self) ->
   make_job_runner self runtimeContext = Ok (CommandLineJob, self)).
Proof.
  intros Hc. unfold make_job_runner. rewrite Hc, !andb_false_r. split; intros Hr.
  - rewrite refuse_DockerRequirement_raises; [done|]. by apply requires_docker_rev.
  - rewrite refuse_DockerRequirement_ok; [done|]. by rewrite requires_docker_rev.
Qed.

(** ** The command line *)






(** ** The result monad and the traversal *)

Lemma bind_Ok {A B : Type} (m : res A) (k : A -> res B) (b : B) :
  bind m k = Ok b -> exists a, m = Ok a /\ k a = Ok b.
Proof. destruct m as [a|e]; simpl; [|done]. intros Hk. by exists a. Qed.

Ltac bind_inv H :=
  let a := fresh "a" in
  let Ha := fresh "Ha" in
  apply bind_Ok in H; destruct H as (a & Ha & H).

Lemma foldM_preserves {A St : Type} (P : St -> Prop) (f : St -> A -> res St)
    (l : list A) (s s' : St) :
  (forall s a s', f s a = Ok s' -> P s -> P s') ->
  foldM f s l = Ok s' -> P s -> P s'.
Proof.
  intros Hf. revert s. induction l as [|a l IH]; intros s; simpl.
  - by intros [= <-].
  - intros Hl Hs. bind_inv Hl. eapply IH; [done|]. by eapply Hf.
Qed.

Section Traversal.
Context {St : Type}.
Variable P : St -> Prop.
Variable op : St -> dict -> res (St * dict).
Hypothesis op_preserves : forall s d s' d', op s d = Ok (s', d') -> P s -> P s'.



End Traversal.



(** ** Mutation registration *)

Lemma dict_keys_set {V : Type} (k : string) (v : V) (d : list (string * V)) :
  dict_keys (dict_set k v d)
  = if dict_has k d then dict_keys d else dict_keys d ++ [k].
Proof.
  unfold dict_has. induction d as [|[k' v'] d IH]; simpl; [done|].
  destruct (String.eqb k k') eqn:E; simpl.
  - apply String.eqb_eq in E. by subst.
  - rewrite IH. by destruct (dict_get k d).
Qed.




Lemma state_insert (mm0 : gmap string MutationManager.MutationState)
    (loc loc' : string) (st : MutationManager.MutationState) :
  MutationManager.state (<[loc := st]> mm0) loc'
  = if decide (loc = loc') then st else MutationManager.state mm0 loc'.
Proof.
  unfold MutationManager.state. rewrite lookup_insert.
  by destruct (decide (loc = loc')).
Qed.








(** ** The cache key *)

(** The last entry of the path mapper that is a [File] resolved to [k]. *)
Fixpoint last_file (items : list (string * MapperEnt)) (k : string)
  : option (string * MapperEnt) :=
  match items with
  | [] => None
  | item :: items' =>
      match last_file items' k with
      | Some found => Some found
      | None =>
          if String.eqb (type (snd item)) "File" && String.eqb (resolved (snd item)) k
          then Some item else None
      end
  end.

(** The second component of the pair recorded for a file: its checksum
    when [calc_checksum] finds one, the modification time otherwise. *)
Definition checksum_or_mtime (files : list dict) (location : string) (st_mtime_ms : Z)
  : value :=
  match calc_checksum files location with
  | VNone => VInt st_mtime_ms
  | checksum => checksum
  end.

(** The last entry of class [cls] in a list of requirements or hints. *)
Definition last_of_class (cls : string) (rh : list requirement) : option requirement :=
  find (fun r => String.eqb (class r) cls) (rev rh).

(** [k] is one of [stdin], [stdout], [stderr]. *)
Definition is_shortcut (k : string) : bool :=
  existsb (String.eqb k) ["stdin"; "stdout"; "stderr"].

(** What the mapping holds under [k] apart from the files. *)
Definition keydict_other (self : CommandLineTool.t) (cmdline : list value) (k : string)
  : option value :=
  if String.eqb k "cmdline" then Some (VList cmdline)
  else if is_shortcut k then dict_get k (CommandLineTool.tool self)
  else if is_interesting k then
    match last_of_class k (CommandLineTool.original_requirements self) with
    | Some r => Some (VDict (req_dict r))
    | None =>
        match last_of_class k (CommandLineTool.original_hints self) with
        | Some r => Some (VDict (req_dict r))
        | None => None
        end
    end
  else None.

Lemma keydict_shortcuts_lookup (tool : dict) (keydict : gmap string value) (k : string) :
  keydict_shortcuts tool keydict !! k
  = if is_shortcut k then
      match dict_get k tool with Some v => Some v | None => keydict !! k end
    else keydict !! k.
Proof.
  unfold keydict_shortcuts, is_shortcut. simpl.
  destruct (String.eqb k "stdin") eqn:E1; destruct (String.eqb k "stdout") eqn:E2;
    destruct (String.eqb k "stderr") eqn:E3; simpl;
    repeat match goal with
           | E : String.eqb _ _ = true |- _ => apply String.eqb_eq in E
           | E : String.eqb _ _ = false |- _ => apply String.eqb_neq in E
           end;
    subst; try done;
    destruct (dict_get "stdin" tool), (dict_get "stdout" tool), (dict_get "stderr" tool);
    by simplify_map_eq.
Qed.

Lemma keydict_files_lookup (files : list dict) (items : list (string * MapperEnt))
    (keydict keydict' : gmap string value) (k : string) :
  foldM (keydict_file files) keydict items = Ok keydict' ->
  match last_file items k with
  | Some (location, fobj) =>
      exists st_size st_mtime_ms,
        os_stat (resolved fobj) = Ok (st_size, st_mtime_ms) /\
        keydict' !! k
        = Some (VList [VInt st_size; checksum_or_mtime files location st_mtime_ms])
  | None => keydict' !! k = keydict !! k
  end.
Proof.
  revert keydict. induction items as [|[location fobj] items IH]; intros keydict; simpl.
  - by intros [= <-].
  - intros Hf. bind_inv Hf. rename a into kd1. specialize (IH _ Hf).
    destruct (last_file items k) as [[l' f']|]; [done|]. simpl. rewrite IH.
    destruct (String.eqb (type fobj) "File"); simpl in *; [|by injection Ha as <-].
    bind_inv Ha. destruct a as [st_size st_mtime_ms].
    assert (kd1 = <[resolved fobj :=
                     VList [VInt st_size; checksum_or_mtime files location st_mtime_ms]]>
                  keydict) as ->.
    { unfold checksum_or_mtime.
      destruct (calc_checksum files location); by injection Ha as <-. }
    destruct (String.eqb_spec (resolved fobj) k) as [<- | Hne].
    + exists st_size, st_mtime_ms. split; [done|]. by rewrite lookup_insert_eq.
    + by rewrite lookup_insert_ne.
Qed.

Lemma keydict_requirements_fold (l : list requirement) (keydict : gmap string value)
    (k : string) :
  fold_left
    (fun kd r =>
       let cls := class r in
       if is_interesting cls && negb (bool_decide (is_Some (kd !! cls)))
       then <[cls := VDict (req_dict r)]> kd
       else kd)
    l keydict !! k
  = match keydict !! k with
    | Some v => Some v
    | None =>
        if is_interesting k then
          match find (fun r => String.eqb (class r) k) l with
          | Some r => Some (VDict (req_dict r))
          | None => None
          end
        else None
    end.
Proof.
  revert keydict. induction l as [|r l IH]; intros keydict; simpl.
  - destruct (keydict !! k); [done|]. by destruct (is_interesting k).
  - rewrite IH. clear IH.
    destruct (String.eqb_spec (class r) k) as [<- | Hne].
    + destruct (keydict !! class r) eqn:Hk.
      * rewrite bool_decide_eq_true_2 by by eexists.
        rewrite andb_false_r. by rewrite Hk.
      * rewrite bool_decide_eq_false_2 by by intros [? [=]].
        rewrite andb_true_r. destruct (is_interesting (class r)).
        -- by rewrite lookup_insert_eq.
        -- by rewrite Hk.
    + destruct (_ && _); [|done]. by rewrite lookup_insert_ne.
Qed.

Lemma keydict_requirements_lookup (rh : list requirement)
    (keydict : gmap string value) (k : string) :
  keydict_requirements rh keydict !! k
  = match keydict !! k with
    | Some v => Some v
    | None =>
        if is_interesting k then
          match last_of_class k rh with
          | Some r => Some (VDict (req_dict r))
          | None => None
          end
        else None
    end.
Proof. apply keydict_requirements_fold. Qed.

(** C1, as amended: the cache key is the MD5 hex digest of [json_dumps],
    with sorted keys and the separators [,] and [:], of a mapping that
    holds: under [cmdline], the resolved command line, after [docker run]
    and the image when a container image applies; the tool's [stdin],
    [stdout] and [stderr] as they are, when present; under the resolved
    path of each [File] entry of the path mapper, the pair of its size and
    of its checksum when [calc_checksum] knows one, of its modification time
    in milliseconds otherwise (the last entry of a path counts, and a path
    takes the place of any other key equal to it); and under each
    interesting class its last occurrence in the requirements or, when the
    requirements have none, its last occurrence in the hints; and nothing
    else. *)
Theorem cachekey_contents (self : CommandLineTool.t) (runtimeContext : RuntimeContext.t)
    (cachebuilder : Builder.t) (keydict : gmap string value) :
  cache_keydict self runtimeContext cachebuilder = Ok keydict ->
  cachekey_of keydict = md5_hexdigest (json_dumps keydict (",", ":") true) /\
  exists args pm,
    mapM (generate_arg cachebuilder) (Builder.bindings cachebuilder) = Ok args /\
    Builder.pathmapper cachebuilder = Some pm /\
    let cmdline :=
      docker_run (cache_dockerimg self runtimeContext) (map VStr (flatten args)) in
    forall k,
      match last_file (items pm) k with
      | Some (location, fobj) =>
          exists st_size st_mtime_ms,
            os_stat (resolved fobj) = Ok (st_size, st_mtime_ms) /\
            keydict !! k
            = Some (VList [VInt st_size;
                           checksum_or_mtime (Builder.files cachebuilder) location
                             st_mtime_ms])
      | None => keydict !! k = keydict_other self cmdline k
      end.
Proof.
  intros Hk. split; [done|]. unfold cache_keydict in Hk.
  bind_inv Hk. rename a into cmdline. bind_inv Hk. rename a into pm.
  bind_inv Hk. rename a into kd. injection Hk as <-.
  unfold cache_cmdline in Ha. bind_inv Ha. rename a into args.
  injection Ha as <-.
  exists args, pm. split; [done|]. split.
  { destruct (Builder.pathmapper cachebuilder) as [pm'|]; [|done].
    by injection Ha0 as ->. }
  intros cmdline k. subst cmdline.
  pose proof (keydict_files_lookup _ _ _ _ k Ha1) as Hfiles.
  rewrite !keydict_requirements_lookup.
  destruct (last_file (items pm) k) as [[location fobj]|].
  - destruct Hfiles as (st_size & st_mtime_ms & Hstat & ->).
    by exists st_size, st_mtime_ms.
  - rewrite Hfiles, keydict_shortcuts_lookup. unfold keydict_other.
    destruct (String.eqb_spec k "cmdline") as [-> | Hne].
    + by rewrite lookup_singleton_eq.
    + rewrite lookup_singleton_ne by done.
      destruct (is_shortcut k) eqn:Hs.
      * destruct (dict_get k (CommandLineTool.tool self)) eqn:Hd; [done|].
        assert (is_interesting k = false) as ->; [|done].
        unfold is_shortcut in Hs. simpl in Hs. apply orb_true_iff in Hs as [Hs | Hs];
          [|apply orb_true_iff in Hs as [Hs | Hs];
            [|apply orb_true_iff in Hs as [Hs | Hs]; [|done]]];
          apply String.eqb_eq in Hs; by subst k.
      * destruct (is_interesting k); [|done].
        by destruct (last_of_class k (CommandLineTool.original_requirements self)).
Qed.

(** ** The cache hit *)

(** C2, as amended: with a cache directory configured and reuse enabled,
    when the directory of the key exists and its status file reads
    [success] (it is read after the shared lock is taken), [job] yields one
    thing, a [CallbackJob] for the cached directory, takes and releases the
    lock and touches nothing else: no runner is chosen and no job is
    built.  Run with an output callback, the [CallbackJob] collects the
    outputs against the cached directory and, when the collection returns
    them, calls the callback with them and the status [success]; run without
    one, it does nothing. *)
Theorem job_cache_hit (self : CommandLineTool.t) (job_order : dict)
    (output_callbacks : option OutputCallback) (runtimeContext : RuntimeContext.t)
    (w : World) (cachedir jobname : string) (cachebuilder : Builder.t)
    (keydict : gmap string value) :
  RuntimeContext.cachedir runtimeContext = Some cachedir ->
  cachedir <> "" ->
  truthy (enableReuse self) = true ->
  jobname_of self runtimeContext = Ok jobname ->
  make_cachebuilder self job_order runtimeContext = Ok cachebuilder ->
  cache_keydict self runtimeContext cachebuilder = Ok keydict ->
  let jobcache := os_path_join cachedir (cachekey_of keydict) in
  let lockfile := jobcache +:+ ".status" in
  jobcache ∈ directories w ->
  file_contents w !! lockfile = Some "success" ->
  exists j w',
    job self job_order output_callbacks runtimeContext w
    = Ok ([YieldCallbackJob j], w') /\
    CallbackJob.job j = self /\
    CallbackJob.output_callback j = output_callbacks /\
    CallbackJob.outdir j = jobcache /\
    events w' = events w ++ [Open lockfile "a+"; SharedLock lockfile; Close lockfile] /\
    file_contents w' = file_contents w /\
    directories w' = directories w /\
    manager w' = manager w /\
    (forall output_callback rc w0,
        output_callbacks = Some output_callback ->
        CallbackJob_run j rc w0
        = let* ports := getitem "outputs" (CommandLineTool.tool self) in
          let collected :=
            collect_output_ports self ports (CallbackJob.cachebuilder j) jobcache
              (VBool (getdefault (RuntimeContext.compute_checksum rc) true))
              true "" None (manager w0) in
          let* outputs := fst collected in
          call output_callback outputs "success" (set_manager (snd collected) w0)) /\
    (forall rc w0, output_callbacks = None -> CallbackJob_run j rc w0 = Ok w0).
Proof.
  intros Hdir Hne Hreuse Hname Hbuilder Hkey jobcache lockfile Hjobcache Hstatus.
  unfold job. rewrite Hname, Hdir. simpl.
  assert (String.eqb cachedir "" = false) as -> by by apply String.eqb_neq.
  rewrite Hreuse. simpl. unfold lookup_cache. rewrite Hbuilder. simpl.
  rewrite Hkey. unfold open_append, read_file. simpl. fold jobcache. fold lockfile.
  rewrite !Hstatus. simpl. rewrite bool_decide_eq_true_2 by done. simpl.
  eexists. eexists. split; [reflexivity|]. simpl.
  repeat split; try done.
  - by rewrite <- !app_assoc.
  - intros output_callback rc w0 ->. unfold CallbackJob_run. simpl.
    destruct (getitem "outputs" (CommandLineTool.tool self)) as [ports|e]; simpl; [|done].
    reflexivity.
  - by intros rc w0 ->.
Qed.

(** ** Cardinality of an output port *)

Lemma eq_str_true (v : value) (s : string) : eq_str v s = true <-> v = VStr s.
Proof.
  destruct v; simpl; try (split; [done|by intros [=]]).
  rewrite String.eqb_eq. split; [by intros ->|by intros [= ->]].
Qed.













(** ** Glob patterns *)









(** ** Secondary files *)




(** * The rest of the module *)

(** The properties below are read off the code of the functions
    themselves: what they return, when they raise, and what they leave
    alone. *)

(** ** Staged paths: [check_adjust] *)

(** Every character of [s] is one the accept list has. *)
Fixpoint all_accepted (s : string) : bool :=
  match s with
  | EmptyString => true
  | String c s' => acceptlist_char c && all_accepted s'
  end.

(** A name the accept list matches: a run of accepted characters that is
    not empty, with a line feed after it or not. *)
Definition accepted_name (s : string) : Prop :=
  exists body,
    body <> "" /\ all_accepted body = true /\ (s = body \/ s = body +:+ newline).

Lemma ACCEPTLIST_RE_match_accepted (s : string) :
  ACCEPTLIST_RE_match s = true <-> accepted_name s.
Proof.
  unfold accepted_name. induction s as [|c s IH]; simpl.
  - split; [done|]. intros ([|b body] & Hne & _ & [Hs | Hs]); done.
  - rewrite andb_true_iff. split.
    + intros [Hc Hs]. destruct s as [|c' s'].
      * exists (String c ""). simpl. rewrite Hc. by repeat split; [|left].
      * assert (c' = ascii_of_nat 10 /\ s' = "" \/ ACCEPTLIST_RE_match (String c' s') = true)
          as [[-> ->] | Hm].
        { destruct s' as [|c'' s'']; [|by right].
          apply orb_true_iff in Hs as [Hn | Hm]; [|by right].
          left. split; [|done]. apply Nat.eqb_eq in Hn.
          by rewrite <- (ascii_nat_embedding c'), Hn. }
        -- exists (String c ""). simpl. rewrite Hc. by repeat split; [|right].
        -- apply IH in Hm as (body & Hne & Hb & Hs').
           exists (String c body). simpl. rewrite Hc, Hb.
           repeat split; [done|]. destruct Hs' as [-> | ->]; [by left|by right].
    + intros ([|b body] & Hne & Hb & Hs); [done|]. simpl in Hb.
      apply andb_true_iff in Hb as [Hb Hbody].
      assert (c = b /\ (s = body \/ s = body +:+ newline)) as [-> Hs'].
      { destruct Hs as [[= -> ->] | [= -> ->]]; [by split; [|left]|by split; [|right]]. }
      split; [done|]. destruct body as [|b' body'].
      * destruct Hs' as [-> | ->]; done.
      * assert (ACCEPTLIST_RE_match s = true) as Hm.
        { apply IH. exists (String b' body'). by repeat split. }
        destruct s as [|c' [|c'' s'']]; [done| |done].
        rewrite Hm. by rewrite orb_true_r.
Qed.

Lemma set_if_differs_get (k s : string) (file_o : dict) :
  dict_get k (set_if_differs k s file_o) = Some (VStr s).
Proof.
  unfold set_if_differs, dict_get_default.
  destruct (eq_str _ s) eqn:E; [|apply dict_get_set_eq].
  destruct (dict_get k file_o) as [v|]; [|done].
  by apply eq_str_true in E as ->.
Qed.

Lemma set_if_differs_other (k k' s : string) (file_o : dict) :
  k <> k' -> dict_get k' (set_if_differs k s file_o) = dict_get k' file_o.
Proof.
  intros Hne. unfold set_if_differs.
  destruct (eq_str _ s); [done|]. by apply dict_get_set_ne.
Qed.

(** X1.  What [check_adjust] leaves in a descriptor it returns: the path the
    mapper staged its location at, and the [dirname], the [basename] and,
    for a File, the [nameroot] and the [nameext] of that path, whatever the
    descriptor said before; the basename matches the accept list; the
    other fields are as they were. *)
Theorem check_adjust_paths (builder : Builder.t) (file_o file_o' : dict) :
  check_adjust builder file_o = Ok file_o' ->
  exists pm location e,
    Builder.pathmapper builder = Some pm /\
    dict_get "location" file_o = Some (VStr location) /\
    mapper pm location = Ok e /\
    let path := docker_windows_path_adjust (target e) in
    let basename := snd (os_path_split path) in
    dict_get "path" file_o' = Some (VStr path) /\
    dict_get "dirname" file_o' = Some (VStr (fst (os_path_split path))) /\
    dict_get "basename" file_o' = Some (VStr basename) /\
    accepted_name basename /\
    (dict_get "class" file_o = Some (VStr "File") ->
     dict_get "nameroot" file_o' = Some (VStr (fst (os_path_splitext basename))) /\
     dict_get "nameext" file_o' = Some (VStr (snd (os_path_splitext basename)))) /\
    (forall k,
       k <> "path" -> k <> "dirname" -> k <> "basename" ->
       k = "nameroot" \/ k = "nameext" -> dict_get "class" file_o <> Some (VStr "File") ->
       dict_get k file_o' = dict_get k file_o) /\
    (forall k,
       k <> "path" -> k <> "dirname" -> k <> "basename" ->
       k <> "nameroot" -> k <> "nameext" ->
       dict_get k file_o' = dict_get k file_o).
Proof.
  unfold check_adjust. intros Hc.
  destruct (Builder.pathmapper builder) as [pm|]; [|done].
  destruct (dict_get "location" file_o) as [[| | |location| |]|] eqn:Hl; try done.
  destruct (mapper pm location) as [e|] eqn:He; [|done]. simpl in Hc.
  exists pm, location, e. repeat (split; [done|]).
  destruct (os_path_split (docker_windows_path_adjust (target e))) as [dn bn] eqn:Hs.
  cbn zeta. simpl fst. simpl snd.
  set (path := docker_windows_path_adjust (target e)) in *.
  set (f1 := set_if_differs "basename" bn
               (set_if_differs "dirname" dn (dict_set "path" (VStr path) file_o))) in *.
  assert (dict_get "class" f1 = dict_get "class" file_o) as Hclass.
  { unfold f1. rewrite !set_if_differs_other by done. by rewrite dict_get_set_ne. }
  unfold getitem in Hc. rewrite Hclass in Hc.
  destruct (dict_get "class" file_o) as [c|] eqn:Hcl; [|done]. simpl in Hc.
  destruct (ACCEPTLIST_RE_match bn) eqn:Hm; [|by destruct (eq_str c "File"); destruct (os_path_splitext bn)].
  assert (forall k, k <> "path" -> k <> "dirname" -> k <> "basename" ->
                    dict_get k f1 = dict_get k file_o) as Hframe.
  { intros k H1 H2 H3. unfold f1. rewrite !set_if_differs_other by done.
    by rewrite dict_get_set_ne. }
  assert (dict_get "path" f1 = Some (VStr path)) as Hpath.
  { unfold f1. rewrite !set_if_differs_other by done. apply dict_get_set_eq. }
  assert (dict_get "dirname" f1 = Some (VStr dn)) as Hdn.
  { unfold f1. rewrite set_if_differs_other by done. apply set_if_differs_get. }
  assert (dict_get "basename" f1 = Some (VStr bn)) as Hbn.
  { unfold f1. apply set_if_differs_get. }
  destruct (eq_str c "File") eqn:Hfile.
  - apply eq_str_true in Hfile as ->.
    destruct (os_path_splitext bn) as [nr ne] eqn:Hx. injection Hc as <-.
    rewrite !set_if_differs_other by done. cbn [fst snd].
    split; [done|]. split; [done|]. split; [done|].
    split; [by apply ACCEPTLIST_RE_match_accepted|].
    split; [|split].
    + intros _. split; apply set_if_differs_get.
    + by intros k _ _ _ _ [].
    + intros k H1 H2 H3 H4 H5. rewrite !set_if_differs_other by done. by apply Hframe.
  - injection Hc as <-.
    split; [done|]. split; [done|]. split; [done|].
    split; [by apply ACCEPTLIST_RE_match_accepted|].
    split; [|split].
    + intros [= ->]. done.
    + intros k H1 H2 H3 _ _. by apply Hframe.
    + intros k H1 H2 H3 _ _. by apply Hframe.
Qed.

(** X2.  When [check_adjust] refuses a descriptor: with no path mapper, with a
    location the mapper does not know, with no [class], and with a staged
    name that the accept list does not match.  The class is looked up
    before the name is checked. *)
Theorem check_adjust_refusals (builder : Builder.t) (file_o : dict) :
  (Builder.pathmapper builder = None ->
   check_adjust builder file_o
   = Raise (ValueError
       "Do not call check_adjust using a builder that doesn't have a pathmapper.")) /\
  (forall pm location,
     Builder.pathmapper builder = Some pm ->
     dict_get "location" file_o = Some (VStr location) ->
     dict_get location pm = None ->
     check_adjust builder file_o = Raise (KeyError location)) /\
  (forall pm location e,
     Builder.pathmapper builder = Some pm ->
     dict_get "location" file_o = Some (VStr location) ->
     mapper pm location = Ok e ->
     let basename := snd (os_path_split (docker_windows_path_adjust (target e))) in
     (dict_get "class" file_o = None ->
      check_adjust builder file_o = Raise (KeyError "class")) /\
     (is_Some (dict_get "class" file_o) -> ~ accepted_name basename ->
      check_adjust builder file_o
      = Raise (WorkflowException
          ("Invalid filename: '" +:+ basename +:+ "' contains illegal characters")))).
Proof.
  unfold check_adjust. split; [by intros ->|]. split.
  - intros pm location -> ->. unfold mapper. by intros ->.
  - intros pm location e -> -> ->. simpl.
    destruct (os_path_split (docker_windows_path_adjust (target e))) as [dn bn].
    simpl.
    assert (dict_get "class"
              (set_if_differs "basename" bn
                 (set_if_differs "dirname" dn
                    (dict_set "path" (VStr (docker_windows_path_adjust (target e))) file_o)))
            = dict_get "class" file_o) as Hclass.
    { rewrite !set_if_differs_other by done. by rewrite dict_get_set_ne. }
    unfold getitem. rewrite Hclass. split.
    + by intros ->.
    + intros [c ->] Hn. simpl.
      destruct (ACCEPTLIST_RE_match bn) eqn:Hm; [|done].
      by apply ACCEPTLIST_RE_match_accepted in Hm.
Qed.

(** ** Reverse mapping: what [revmap_file] touches *)

Lemma revmap_file_fields (builder : Builder.t) (outdir : string) (f f' : dict) :
  revmap_file builder outdir f = Ok f' ->
  (exists location, dict_get "location" f' = Some (VStr location)) /\
  dict_get "path" f' = None /\
  (f' = f \/ is_Some (dict_get "basename" f')) /\
  (forall b, dict_get "basename" f = Some b -> dict_get "basename" f' = Some b) /\
  (forall k, k <> "path" -> k <> "location" -> k <> "basename" ->
     dict_get k f' = dict_get k f).
Proof.
  assert (forall o g g',
            revmap_path builder o g = Ok g' ->
            (exists location, dict_get "location" g' = Some (VStr location)) /\
            dict_get "path" g' = None /\ is_Some (dict_get "basename" g') /\
            (forall b, dict_get "basename" g = Some b -> dict_get "basename" g' = Some b) /\
            (forall k, k <> "path" -> k <> "location" -> k <> "basename" ->
               dict_get k g' = dict_get k g)) as Hpath.
  { intros o g g'. unfold revmap_path.
    destruct (dict_get "path" g) as [p|]; [|done].
    destruct (as_str p) as [path|]; [simpl|done].
    set (g1 := if dict_has "basename" (dict_del "path" g) then dict_del "path" g
               else dict_set "basename" (VStr (os_path_basename path)) (dict_del "path" g)).
    assert (dict_get "path" g1 = None) as H1.
    { unfold g1. destruct (dict_has _ _); [apply dict_get_del_eq|].
      rewrite dict_get_set_ne by done. apply dict_get_del_eq. }
    assert (is_Some (dict_get "basename" g1)) as H2.
    { unfold g1. destruct (dict_has _ _) eqn:Hb; [by apply dict_has_true|].
      rewrite dict_get_set_eq. by eexists. }
    assert (forall b, dict_get "basename" g = Some b -> dict_get "basename" g1 = Some b)
      as H3.
    { intros b Hb. unfold g1.
      assert (dict_has "basename" (dict_del "path" g) = true) as ->; [|by rewrite dict_get_del_ne].
      apply dict_has_true. rewrite dict_get_del_ne by done. by eexists. }
    assert (forall k, k <> "path" -> k <> "location" -> k <> "basename" ->
                      dict_get k g1 = dict_get k g) as H4.
    { intros k Hk1 Hk2 Hk3. unfold g1. destruct (dict_has _ _).
      - by rewrite dict_get_del_ne.
      - rewrite dict_get_set_ne by done. by rewrite dict_get_del_ne. }
    assert (forall loc,
              (exists location,
                 dict_get "location" (dict_set "location" (VStr loc) g1)
                 = Some (VStr location)) /\
              dict_get "path" (dict_set "location" (VStr loc) g1) = None /\
              is_Some (dict_get "basename" (dict_set "location" (VStr loc) g1)) /\
              (forall b, dict_get "basename" g = Some b ->
                         dict_get "basename" (dict_set "location" (VStr loc) g1) = Some b) /\
              (forall k, k <> "path" -> k <> "location" -> k <> "basename" ->
                         dict_get k (dict_set "location" (VStr loc) g1) = dict_get k g))
      as Hset.
    { intros loc. rewrite dict_get_set_eq, !dict_get_set_ne by done.
      split; [by eexists|]. split; [done|]. split; [done|]. split.
      - exact H3.
      - intros k Hk1 Hk2 Hk3. rewrite dict_get_set_ne by done. by apply H4. }
    clearbody g1.
    destruct (Builder.pathmapper builder) as [pm|]; [|done].
    destruct (reversemap pm path) as [[loc host]|]; simpl.
    - destruct (mapper pm loc) as [e|]; [simpl|done].
      destruct (negb (startswith (type e) "Writable")).
      + intros [= <-]. apply Hset.
      + destruct (within _ _); [intros [= <-]; apply Hset|].
        destruct (within _ _); [intros [= <-]; apply Hset|].
        destruct (negb _); [intros [= <-]; apply Hset|done].
    - destruct (within _ _); [intros [= <-]; apply Hset|].
      destruct (within _ _); [intros [= <-]; apply Hset|].
      destruct (negb _); [intros [= <-]; apply Hset|done]. }
  unfold revmap_file.
  destruct (dict_has "location" f && negb (dict_has "path" f)) eqn:Hl.
  - apply andb_true_iff in Hl as [Hl Hp].
    apply dict_has_true in Hl as [l Hl]. unfold getitem. rewrite Hl. simpl.
    destruct (as_str l) as [location|] eqn:Has; [simpl|done].
    destruct l; try done. injection Has as ->.
    destruct (startswith location "file://").
    + intros Hr. apply Hpath in Hr as (Hloc & Hnp & Hb & Hkeep & Hframe).
      split; [done|]. split; [done|]. split; [by right|]. split.
      * intros b Hb'. apply Hkeep. by rewrite dict_get_set_ne.
      * intros k Hk1 Hk2 Hk3. rewrite Hframe by done. by rewrite dict_get_set_ne.
    + intros [= <-]. split; [by eexists|]. split; [|split; [by left|done]].
      apply dict_has_false. by apply negb_true_iff.
  - intros Hr. apply Hpath in Hr as (Hloc & Hnp & Hb & Hkeep & Hframe).
    split; [done|]. split; [done|]. split; [by right|]. done.
Qed.

(** X3.  A descriptor that [revmap_file] returns has a [location] and no
    [path]; it comes back as it was, or with a [basename]; a [basename] it
    had is kept, and so is every field but [path], [location] and
    [basename]. *)
Theorem revmap_file_result (builder : Builder.t) (outdir : string) (f f' : dict) :
  revmap_file builder outdir f = Ok f' ->
  (exists location, dict_get "location" f' = Some (VStr location)) /\
  dict_get "path" f' = None /\
  (f' = f \/ is_Some (dict_get "basename" f')) /\
  (forall b, dict_get "basename" f = Some b -> dict_get "basename" f' = Some b) /\
  (forall k, k <> "path" -> k <> "location" -> k <> "basename" ->
     dict_get k f' = dict_get k f).
Proof. apply revmap_file_fields. Qed.


(** X4.  When [revmap_file] refuses a descriptor outright: one with neither a
    [location] nor a [path], and one with a [path] when the builder has no
    path mapper. *)
Theorem revmap_file_refusals (builder : Builder.t) (outdir : string) (f : dict) :
  (dict_get "location" f = None -> dict_get "path" f = None ->
   revmap_file builder outdir f
   = Raise (WorkflowException
       ("Output File object is missing both 'location' and 'path' fields: "
        +:+ str_of (VDict f)))) /\
  (forall path,
     dict_get "path" f = Some (VStr path) -> Builder.pathmapper builder = None ->
     revmap_file builder outdir f
     = Raise (ValueError
         "Do not call revmap_file using a builder that doesn't have a pathmapper.")).
Proof.
  split.
  - intros Hl Hp. unfold revmap_file, revmap_path.
    assert (dict_has "location" f = false) as -> by by apply dict_has_false.
    simpl. by rewrite Hp.
  - intros path Hp Hpm. rewrite (revmap_file_with_path _ _ _ _ Hp).
    unfold revmap_path. rewrite Hp. simpl. by rewrite Hpm.
Qed.

(** ** Validation of the collected outputs *)

(** [v] is [w] or lies within it, at any depth. *)
Inductive inside (v : value) : value -> Prop :=
| inside_here : inside v v
| inside_item (l : list value) (x : value) :
    In x l -> inside v x -> inside v (VList l)
| inside_entry (d : dict) (k : string) (x : value) :
    In (k, x) d -> inside v x -> inside v (VDict d).

Section Checked.
Variable cls : list string.
Variable check : dict -> res dict.
Hypothesis check_same : forall d d', check d = Ok d' -> d' = d.

(** Every mapping of a class of [cls] in [v] passes [check]. *)
Definition all_checked (v : value) : Prop :=
  forall d, inside (VDict d) v -> class_in cls d = true -> check d = Ok d.

Lemma visit_items_checked (visit : unit -> value -> res (unit * value))
    (l : list value) (r : unit * list value) :
  (forall v r, In v l -> visit tt v = Ok r -> r = (tt, v) /\ all_checked v) ->
  visit_items visit tt l = Ok r ->
  r = (tt, l) /\ Forall all_checked l.
Proof.
  revert r. induction l as [|v l IH]; intros r Hv; simpl.
  - by intros [= <-].
  - intros Hr. bind_inv Hr. destruct a as [s1 v1].
    apply Hv in Ha as [[= -> ->] Hc]; [|by left].
    bind_inv Hr. destruct a as [s2 l1]. injection Hr as <-.
    apply IH in Ha as [[= -> ->] Hl]; [|by intros v' r' Hin; apply Hv; right].
    split; [done|]. by constructor.
Qed.

Lemma visit_entries_checked (visit : unit -> value -> res (unit * value))
    (d : dict) (r : unit * dict) :
  (forall k v r, In (k, v) d -> visit tt v = Ok r -> r = (tt, v) /\ all_checked v) ->
  visit_entries visit tt d = Ok r ->
  r = (tt, d) /\ Forall (fun kv => all_checked (snd kv)) d.
Proof.
  revert r. induction d as [|[k v] d IH]; intros r Hv; simpl.
  - by intros [= <-].
  - intros Hr. bind_inv Hr. destruct a as [s1 v1].
    apply (Hv k) in Ha as [[= -> ->] Hc]; [|by left].
    bind_inv Hr. destruct a as [s2 d1]. injection Hr as <-.
    apply IH in Ha as [[= -> ->] Hl];
      [|by intros k' v' r' Hin; apply (Hv k'); right].
    split; [done|]. by constructor.
Qed.

Lemma visit_class_rec_checked (fuel : nat) (rec : value) (r : unit * value) :
  visit_class_rec fuel cls (pure_op check) tt rec = Ok r ->
  r = (tt, rec) /\ all_checked rec.
Proof.
  revert rec r. induction fuel as [|fuel IH]; intros rec r; simpl; [done|].
  destruct rec as [| | | |l|d].
  1-4: intros [= <-]; split; [done|]; intros d Hin; inversion Hin.
  - intros Hr. bind_inv Hr. destruct a as [s1 l1]. injection Hr as <-.
    apply visit_items_checked in Ha as [[= -> ->] Hl];
      [|by intros v r _; apply IH].
    split; [done|]. intros d Hin Hc. inversion Hin as [|l' x Hx Hd|]; subst.
    rewrite List.Forall_forall in Hl. exact (Hl x Hx d Hd Hc).
  - intros Hr. bind_inv Hr. destruct a as [s2 d2]. injection Hr as <-.
    unfold visit_mapping in Ha. bind_inv Ha. destruct a as [s1 d1].
    assert (s1 = tt /\ d1 = d /\ (class_in cls d = true -> check d = Ok d))
      as (-> & -> & Hd).
    { destruct (class_in cls d).
      - unfold pure_op in Ha0. bind_inv Ha0. injection Ha0 as <- <-.
        pose proof (check_same _ _ Ha1) as ->. by repeat split.
      - injection Ha0 as <- <-. by repeat split. }
    apply visit_entries_checked in Ha as [[= -> ->] Hl];
      [|by intros k v r _; apply IH].
    split; [done|]. intros d' Hin Hc.
    inversion Hin as [| |d0 k x Hx Hd']; subst; [by apply Hd|].
    rewrite List.Forall_forall in Hl. exact (Hl (k, x) Hx d' Hd' Hc).
Qed.
End Checked.

(** X5.  Lines 877-881: when the validation of the collected outputs passes, it
    has left them as they were, and every File in them, at any depth, has a
    location that is a file, every Directory one that is a directory. *)
Theorem valid_locations_checked (fs_access : StdFsAccess.t) (ret : value)
    (r : unit * value) :
  visit_class ret file_or_directory (pure_op (check_valid_locations fs_access)) tt = Ok r ->
  r = (tt, ret) /\
  forall d, inside (VDict d) ret ->
    (dict_get "class" d = Some (VStr "File") ->
     exists location,
       dict_get "location" d = Some (VStr location) /\
       StdFsAccess.isfile fs_access location = true) /\
    (dict_get "class" d = Some (VStr "Directory") ->
     exists location,
       dict_get "location" d = Some (VStr location) /\
       StdFsAccess.isdir fs_access location = true).
Proof.
  intros Hr. unfold visit_class in Hr.
  apply visit_class_rec_checked in Hr as [-> Hall].
  - split; [done|]. intros d Hin.
    assert (forall c, dict_get "class" d = Some (VStr c) ->
                      c = "File" \/ c = "Directory" ->
                      check_valid_locations fs_access d = Ok d) as Hd.
    { intros c Hc Hcls. apply Hall; [done|]. unfold class_in. rewrite Hc.
      destruct Hcls as [-> | ->]; done. }
    split; intros Hc; specialize (Hd _ Hc).
    + specialize (Hd (or_introl eq_refl)). unfold check_valid_locations, getitem in Hd.
      destruct (dict_get "location" d) as [[| | |location| |]|]; try done.
      simpl in Hd. rewrite Hc in Hd. simpl in Hd.
      exists location. split; [done|].
      by destruct (StdFsAccess.isfile fs_access location).
    + specialize (Hd (or_intror eq_refl)). unfold check_valid_locations, getitem in Hd.
      destruct (dict_get "location" d) as [[| | |location| |]|]; try done.
      simpl in Hd. rewrite Hc in Hd. simpl in Hd.
      exists location. split; [done|].
      by destruct (StdFsAccess.isdir fs_access location).
  - intros d d'. unfold check_valid_locations. intros Hd.
    bind_inv Hd. bind_inv Hd. bind_inv Hd.
    destruct (_ && _); [done|]. destruct (_ && _); [done|]. by injection Hd.
Qed.

(** ** Runner selection with containers *)

(** The container runner of a run: Singularity before udocker before
    Docker. *)
Definition container_runner (runtimeContext : RuntimeContext.t) : JobRunner :=
  if RuntimeContext.singularity runtimeContext then SingularityCommandLineJob
  else if truthy_opt (RuntimeContext.user_space_docker_cmd runtimeContext)
       then UDockerCommandLineJob
       else DockerCommandLineJob.

(** The requirement [make_job_runner] makes up for a default container. *)
Definition default_DockerRequirement (default_container : string) : requirement :=
  {| class := "DockerRequirement"; fields := [("dockerPull", VStr default_container)] |}.

(** What [find_default_container] gives for the tool, if it is there and
    finds one. *)
Definition found_default_container (self : CommandLineTool.t)
    (runtimeContext : RuntimeContext.t) : option string :=
  match RuntimeContext.find_default_container runtimeContext with
  | Some find => find self
  | None => None
  end.

(** X6.  With containers in use: a tool that has a DockerRequirement gets the
    container runner and stays as it is; one that has none and for which a
    default container is found gets the container runner too, and a
    DockerRequirement for that image in front of its requirements; one that
    has none and no default container gets the local runner, unless a
    DockerRequirement is, after all, among its requirements. *)
Theorem make_job_runner_with_container (self : CommandLineTool.t)
    (runtimeContext : RuntimeContext.t) :
  RuntimeContext.use_container runtimeContext = true ->
  (is_Some (fst (get_requirement self "DockerRequirement")) ->
   make_job_runner self runtimeContext = Ok (container_runner runtimeContext, self)) /\
  (fst (get_requirement self "DockerRequirement") = None ->
   (forall default_container,
      found_default_container self runtimeContext = Some default_container ->
      make_job_runner self runtimeContext
      = Ok (container_runner runtimeContext,
            CommandLineTool.set_requirements
              (default_DockerRequirement default_container
               :: CommandLineTool.requirements self) self)) /\
   (found_default_container self runtimeContext = None ->
    (~ requires_docker (CommandLineTool.requirements self) ->
     make_job_runner self runtimeContext = Ok (CommandLineJob, self)) /\
    (requires_docker (CommandLineTool.requirements self) ->
     make_job_runner self runtimeContext
     = Raise (UnsupportedRequirement
         "--no-container, but this CommandLineTool has DockerRequirement under 'requirements'.")))).
Proof.
  intros Hc. unfold make_job_runner, found_default_container, container_runner.
  rewrite Hc. split.
  - intros [r ->]. simpl.
    destruct (RuntimeContext.singularity runtimeContext); [done|].
    by destruct (truthy_opt (RuntimeContext.user_space_docker_cmd runtimeContext)).
  - intros ->. simpl. split.
    + intros default_container ->. simpl.
      destruct (RuntimeContext.singularity runtimeContext); [done|].
      by destruct (truthy_opt (RuntimeContext.user_space_docker_cmd runtimeContext)).
    + intros ->. simpl. split; intros Hr.
      * rewrite refuse_DockerRequirement_ok; [done|]. by rewrite requires_docker_rev.
      * rewrite refuse_DockerRequirement_raises; [done|]. by apply requires_docker_rev.
Qed.

(** ** Trusted checksums *)

(** X7.  A checksum [calc_checksum] returns for a location is the [checksum] of
    a file of the builder that has this very location, and it is not the
    placeholder [sha1$hash]. *)
Theorem calc_checksum_trusted (files : list dict) (location : string) (checksum : value) :
  calc_checksum files location = checksum ->
  checksum <> VNone ->
  checksum <> VStr "sha1$hash" /\
  exists e,
    In e files /\ dict_get "location" e = Some (VStr location) /\
    dict_get "checksum" e = Some checksum.
Proof.
  intros <- Hn. induction files as [|e files IH]; simpl in *; [done|].
  assert (calc_checksum files location <> VNone ->
          calc_checksum files location <> VStr "sha1$hash" /\
          exists e0, (e = e0 \/ In e0 files) /\
                     dict_get "location" e0 = Some (VStr location) /\
                     dict_get "checksum" e0 = Some (calc_checksum files location))
    as Hrest.
  { intros H0. destruct (IH H0) as (H1 & e0 & H2 & H3 & H4).
    split; [done|]. exists e0. by repeat split; [right| |]. }
  destruct (dict_get "location" e) as [l|] eqn:Hl; [|by apply Hrest].
  destruct (dict_get "checksum" e) as [c|] eqn:Hc; [|by apply Hrest].
  destruct (eq_str l location && negb (eq_str c "sha1$hash")) eqn:E; [|by apply Hrest].
  apply andb_true_iff in E as [->%eq_str_true Hp]. split.
  - intros ->. done.
  - exists e. by repeat split; [left| |].
Qed.

(** ** The hits of a glob: [load_hit] *)

(** X8.  Lines 978-1003, for a hit that is not a Directory: its contents, its
    checksum and its size are read at the location that the reverse map
    gives for a copy of it; the hit keeps the [location] and the [path] the
    glob gave it, gets its [size], and gets a [checksum] exactly when
    checksums are computed. *)
Theorem load_hit_file (schema binding : dict) (builder : Builder.t) (outdir : string)
    (fs_access : StdFsAccess.t) (compute_checksum : bool) (files files' : dict)
    (c : value) :
  dict_get "class" files = Some c -> c <> VStr "Directory" ->
  load_hit schema binding builder outdir fs_access compute_checksum files = Ok files' ->
  exists rfile location sz,
    revmap_file builder outdir files = Ok rfile /\
    dict_get "location" rfile = Some (VStr location) /\
    StdFsAccess.size fs_access location = Ok sz /\
    dict_get "size" files' = Some (VInt sz) /\
    (if compute_checksum then
       exists digest,
         sha1_hexdigest fs_access location = Ok digest /\
         dict_get "checksum" files' = Some (VStr ("sha1$" +:+ digest))
     else dict_get "checksum" files' = dict_get "checksum" files) /\
    (if truthy (dict_get_default "loadContents" VNone binding) then
       exists contents,
         load_contents fs_access location = Ok contents /\
         dict_get "contents" files' = Some (VStr contents)
     else dict_get "contents" files' = dict_get "contents" files) /\
    (forall k, k <> "size" -> k <> "checksum" -> k <> "contents" ->
       dict_get k files' = dict_get k files).
Proof.
  intros Hc Hd. unfold load_hit. intros Hl.
  bind_inv Hl. rename a into rfile. unfold getitem in Hl. rewrite Hc in Hl.
  cbn [bind] in Hl.
  assert (eq_str c "Directory" = false) as Hdir.
  { destruct (eq_str c "Directory") eqn:E; [|done]. by apply eq_str_true in E. }
  rewrite Hdir in Hl.
  destruct (dict_get "location" rfile) as [l|] eqn:Hloc; [cbn [bind] in Hl|done].
  destruct l as [| | |location| |]; try done. cbn [bind as_str] in Hl.
  exists rfile, location.
  destruct (truthy (dict_get_default "loadContents" VNone binding)).
  - destruct (load_contents fs_access location) as [contents|] eqn:Hcont;
      [cbn [bind] in Hl|done].
    destruct compute_checksum.
    + destruct (sha1_hexdigest fs_access location) as [digest|] eqn:Hdig;
        [cbn [bind] in Hl|done].
      destruct (StdFsAccess.size fs_access location) as [sz|] eqn:Hsz;
        [cbn [bind] in Hl|done].
      injection Hl as <-. exists sz.
      rewrite dict_get_set_eq, !dict_get_set_ne by done.
      rewrite dict_get_set_eq, !dict_get_set_ne by done. rewrite dict_get_set_eq.
      split; [done|]. split; [done|]. split; [done|]. split; [done|].
      split; [by exists digest|]. split; [by exists contents|].
      intros k H1 H2 H3. by rewrite !dict_get_set_ne.
    + cbn [bind] in Hl.
      destruct (StdFsAccess.size fs_access location) as [sz|] eqn:Hsz;
        [cbn [bind] in Hl|done].
      injection Hl as <-. exists sz.
      rewrite dict_get_set_eq, !dict_get_set_ne by done. rewrite dict_get_set_eq.
      split; [done|]. split; [done|]. split; [done|]. split; [done|].
      split; [by rewrite ?dict_get_set_ne|]. split; [by exists contents|].
      intros k H1 H2 H3. by rewrite !dict_get_set_ne.
  - cbn [bind] in Hl. destruct compute_checksum.
    + destruct (sha1_hexdigest fs_access location) as [digest|] eqn:Hdig;
        [cbn [bind] in Hl|done].
      destruct (StdFsAccess.size fs_access location) as [sz|] eqn:Hsz;
        [cbn [bind] in Hl|done].
      injection Hl as <-. exists sz.
      rewrite dict_get_set_eq, !dict_get_set_ne by done. rewrite dict_get_set_eq.
      split; [done|]. split; [done|]. split; [done|]. split; [done|].
      split; [by exists digest|]. split; [by rewrite ?dict_get_set_ne|].
      intros k H1 H2 H3. by rewrite !dict_get_set_ne.
    + cbn [bind] in Hl.
      destruct (StdFsAccess.size fs_access location) as [sz|] eqn:Hsz;
        [cbn [bind] in Hl|done].
      injection Hl as <-. exists sz.
      rewrite dict_get_set_eq, !dict_get_set_ne by done.
      split; [done|]. split; [done|]. split; [done|]. split; [done|].
      split; [by rewrite ?dict_get_set_ne|]. split; [by rewrite ?dict_get_set_ne|].
      intros k H1 H2 H3. by rewrite !dict_get_set_ne.
Qed.

(** ** The cache: a miss, and the way back to a hit *)

(** The world once the lock file is opened and the shared lock taken. *)
Definition locked (lockfile : string) (w : World) : World :=
  log (SharedLock lockfile) (open_append lockfile w).

(** The world once the lock is upgraded and the cache directory removed and
    made again. *)
Definition recreated (jobcache lockfile : string) (w : World) : World :=
  let w := rmtree jobcache (log (UpgradeLock lockfile) (locked lockfile w)) in
  log (Makedirs jobcache) (set_directories ({[jobcache]} ∪ directories w) w).

(** The status a prepare reads in the lock file: what the file holds, and
    nothing when the file was not there. *)
Definition status_read (lockfile : string) (w : World) : string :=
  match file_contents w !! lockfile with Some data => data | None => "" end.

Lemma read_file_locked (lockfile : string) (w : World) :
  read_file lockfile (locked lockfile w) = status_read lockfile w.
Proof.
  unfold read_file, locked, open_append, status_read. simpl.
  destruct (file_contents w !! lockfile) as [data|] eqn:E; simpl.
  - by rewrite E.
  - by rewrite lookup_insert_eq.
Qed.

Lemma lookup_cache_hit_or_miss (self : CommandLineTool.t) (job_order : dict)
    (output_callbacks : option OutputCallback) (runtimeContext : RuntimeContext.t)
    (cachedir : string) (w : World) (cachebuilder : Builder.t)
    (keydict : gmap string value) :
  make_cachebuilder self job_order runtimeContext = Ok cachebuilder ->
  cache_keydict self runtimeContext cachebuilder = Ok keydict ->
  let jobcache := os_path_join cachedir (cachekey_of keydict) in
  let lockfile := jobcache +:+ ".status" in
  (jobcache ∈ directories w -> status_read lockfile w = "success" ->
   exists j,
     lookup_cache self job_order output_callbacks runtimeContext cachedir w
     = Ok (CacheHit j lockfile, locked lockfile w) /\
     CallbackJob.outdir j = jobcache /\
     CallbackJob.output_callback j = output_callbacks) /\
  (jobcache ∉ directories w \/ status_read lockfile w <> "success" ->
   lookup_cache self job_order output_callbacks runtimeContext cachedir w
   = Ok (CacheMiss
           (RuntimeContext.set_dirs (Some jobcache)
              (RuntimeContext.tmpdir runtimeContext)
              (RuntimeContext.stagedir runtimeContext) runtimeContext)
           (Some (update_status_output_callback output_callbacks lockfile)),
         recreated jobcache lockfile w)).
Proof.
  intros Hb Hk jobcache lockfile. unfold lookup_cache. rewrite Hb. cbn [bind].
  rewrite Hk. cbn [bind]. fold jobcache. fold lockfile.
  change (log (SharedLock lockfile) (open_append lockfile w)) with (locked lockfile w).
  rewrite read_file_locked.
  assert (directories (locked lockfile w) = directories w) as Hd.
  { unfold locked, open_append. simpl. by destruct (file_contents w !! lockfile). }
  rewrite Hd. split.
  - intros Hin ->. rewrite bool_decide_eq_true_2 by done. simpl. by eexists.
  - intros Hmiss.
    assert (bool_decide (jobcache ∈ directories w) && String.eqb (status_read lockfile w) "success"
            = false) as ->.
    { destruct Hmiss as [Hn | Hs].
      - by rewrite bool_decide_eq_false_2.
      - apply String.eqb_neq in Hs. rewrite Hs. apply andb_false_r. }
    unfold makedirs, rmtree. cbn [directories log set_directories].
    rewrite bool_decide_eq_false_2; [done|].
    intros [_ Hx]%elem_of_difference. apply Hx. by apply elem_of_singleton.
Qed.

(** What a call of an output callback leaves of the world: the directories
    and the mutation manager, and every file, but for the lock files it
    writes the status to. *)
Lemma call_effect (cb : OutputCallback) (outputs : value) (processStatus : string)
    (w w' : World) :
  call cb outputs processStatus w = Ok w' ->
  directories w' = directories w /\
  manager w' = manager w /\
  forall path,
    file_contents w' !! path = file_contents w !! path \/
    file_contents w' !! path = Some processStatus.
Proof.
  revert cb w w'.
  fix IH 1. intros [id | [cb'|] jobcachelock] w w'; simpl.
  - intros [= <-]. simpl. split; [done|]. split; [done|]. intros path. by left.
  - intros Hc. apply IH in Hc as (Hd & Hm & Hf). simpl in *.
    split; [done|]. split; [done|]. intros path.
    destruct (Hf path) as [Hp | Hp]; [|by right]. rewrite Hp.
    destruct (decide (jobcachelock = path)) as [-> | Hne].
    + right. by rewrite lookup_insert_eq.
    + left. by rewrite lookup_insert_ne.
  - done.
Qed.

(** The callback the cache wraps writes the status to the lock file before
    anything else. *)
Lemma call_update_status (output_callbacks : option OutputCallback)
    (lockfile : string) (outputs : value) (processStatus : string) (w w' : World) :
  call (update_status_output_callback output_callbacks lockfile) outputs processStatus w
  = Ok w' ->
  directories w' = directories w /\
  file_contents w' !! lockfile = Some processStatus.
Proof.
  simpl. destruct output_callbacks as [cb|]; [|done].
  intros Hc. apply call_effect in Hc as (Hd & _ & Hf). simpl in *.
  split; [done|]. destruct (Hf lockfile) as [Hp | Hp]; [|done].
  by rewrite Hp, lookup_insert_eq.
Qed.

(** The job that [construct_job] builds has the output callback it was
    given; of the world, only the mutation manager may have changed. *)
Lemma construct_job_world (self : CommandLineTool.t) (job_order : dict)
    (output_callbacks : option OutputCallback) (runtimeContext : RuntimeContext.t)
    (jobname : string) (w w' : World) (j : JobBase.t) :
  construct_job self job_order output_callbacks runtimeContext jobname w = Ok (j, w') ->
  JobBase.output_callback j = output_callbacks /\
  file_contents w' = file_contents w /\
  directories w' = directories w /\
  events w' = events w.
Proof.
  unfold construct_job. intros Hc.
  repeat (apply bind_Ok in Hc; destruct Hc as (? & _ & Hc);
          repeat match goal with
                 | H : context [let '(_, _) := ?p in _] |- _ => destruct p
                 end).
  by injection Hc as <- <-.
Qed.

Lemma job_with_cache (self : CommandLineTool.t) (job_order : dict)
    (output_callbacks : option OutputCallback) (runtimeContext : RuntimeContext.t)
    (w : World) (cachedir jobname : string) :
  RuntimeContext.cachedir runtimeContext = Some cachedir ->
  cachedir <> "" ->
  truthy (enableReuse self) = true ->
  jobname_of self runtimeContext = Ok jobname ->
  job self job_order output_callbacks runtimeContext w
  = let* (looked, w) :=
      lookup_cache self job_order output_callbacks runtimeContext cachedir w in
    match looked with
    | CacheHit j jobcachelock => Ok ([YieldCallbackJob j], log (Close jobcachelock) w)
    | CacheMiss runtimeContext output_callbacks =>
        let* (j, w) :=
          construct_job self job_order output_callbacks runtimeContext jobname w in
        Ok ([YieldJob j], w)
    end.
Proof.
  intros Hdir Hne Hreuse Hname. unfold job. rewrite Hname, Hdir. cbn [bind].
  assert (String.eqb cachedir "" = false) as -> by by apply String.eqb_neq.
  by rewrite Hreuse.
Qed.

Lemma job_on_miss (self : CommandLineTool.t) (job_order : dict)
    (output_callbacks : option OutputCallback) (runtimeContext : RuntimeContext.t)
    (w : World) (cachedir jobname : string) (cachebuilder : Builder.t)
    (keydict : gmap string value) :
  RuntimeContext.cachedir runtimeContext = Some cachedir ->
  cachedir <> "" ->
  truthy (enableReuse self) = true ->
  jobname_of self runtimeContext = Ok jobname ->
  make_cachebuilder self job_order runtimeContext = Ok cachebuilder ->
  cache_keydict self runtimeContext cachebuilder = Ok keydict ->
  let jobcache := os_path_join cachedir (cachekey_of keydict) in
  let lockfile := jobcache +:+ ".status" in
  jobcache ∉ directories w \/ status_read lockfile w <> "success" ->
  job self job_order output_callbacks runtimeContext w
  = (let* (j, w') :=
       construct_job self job_order
         (Some (update_status_output_callback output_callbacks lockfile))
         (RuntimeContext.set_dirs (Some jobcache)
            (RuntimeContext.tmpdir runtimeContext)
            (RuntimeContext.stagedir runtimeContext) runtimeContext)
         jobname (recreated jobcache lockfile w) in
     Ok ([YieldJob j], w')).
Proof.
  intros Hdir Hne Hreuse Hname Hb Hk jobcache lockfile Hmiss.
  rewrite (job_with_cache _ _ _ _ _ _ _ Hdir Hne Hreuse Hname).
  destruct (lookup_cache_hit_or_miss self job_order output_callbacks runtimeContext
              cachedir w cachebuilder keydict Hb Hk) as [_ Hm].
  by rewrite (Hm Hmiss).
Qed.

Lemma recreated_world (jobcache lockfile : string) (w : World) :
  let w1 := recreated jobcache lockfile w in
  events w1
  = events w ++ [Open lockfile "a+"; SharedLock lockfile; UpgradeLock lockfile;
                 Rmtree jobcache; Makedirs jobcache] /\
  jobcache ∈ directories w1 /\
  (forall d, d <> jobcache -> d ∈ directories w1 <-> d ∈ directories w) /\
  file_contents w1 !! lockfile = Some (status_read lockfile w) /\
  (forall path, path <> lockfile -> file_contents w1 !! path = file_contents w !! path).
Proof.
  intros w1.
  assert (file_contents w1 = file_contents (open_append lockfile w)) as Hfc by done.
  split; [|split; [|split; [|split]]].
  - unfold w1, recreated, locked, open_append. simpl.
    destruct (file_contents w !! lockfile); simpl; by rewrite <- !app_assoc.
  - unfold w1, recreated. simpl. apply elem_of_union. left. by apply elem_of_singleton.
  - intros d Hd. unfold w1, recreated, locked, open_append. simpl.
    assert (directories
              match file_contents w !! lockfile with
              | Some _ => w
              | None => set_file lockfile "" w
              end = directories w) as -> by by destruct (file_contents w !! lockfile).
    rewrite elem_of_union, elem_of_difference, !elem_of_singleton.
    split; [by intros [-> | [Hin _]]|]. intros Hin. by right.
  - rewrite Hfc. unfold open_append, status_read. simpl.
    destruct (file_contents w !! lockfile) as [data|] eqn:E; simpl; [done|].
    by rewrite lookup_insert_eq.
  - intros path Hp. rewrite Hfc. unfold open_append. simpl.
    destruct (file_contents w !! lockfile); simpl; [done|].
    by rewrite lookup_insert_ne.
Qed.


(** X10.  The way back to a hit.  After a miss, the callback of the job that was
    yielded, called with [success], leaves the cache such that the next
    prepare of the same tool and job order is a hit on that cache
    directory; called with any other status, it leaves it such that the
    next prepare is no hit.  The tool is one that is not given a default
    container, so that preparing the job leaves its requirements as they
    are. *)
Theorem cache_reuse_after_success (self : CommandLineTool.t) (job_order : dict)
    (output_callbacks : option OutputCallback) (runtimeContext : RuntimeContext.t)
    (w w1 : World) (cachedir jobname : string) (cachebuilder : Builder.t)
    (keydict : gmap string value) (j : JobBase.t) :
  RuntimeContext.cachedir runtimeContext = Some cachedir ->
  cachedir <> "" ->
  truthy (enableReuse self) = true ->
  jobname_of self runtimeContext = Ok jobname ->
  make_cachebuilder self job_order runtimeContext = Ok cachebuilder ->
  cache_keydict self runtimeContext cachebuilder = Ok keydict ->
  RuntimeContext.find_default_container runtimeContext = None ->
  job self job_order output_callbacks runtimeContext w = Ok ([YieldJob j], w1) ->
  let jobcache := os_path_join cachedir (cachekey_of keydict) in
  exists wrapped,
    JobBase.output_callback j = Some wrapped /\
    forall outputs processStatus w2,
      call wrapped outputs processStatus w1 = Ok w2 ->
      (processStatus = "success" ->
       forall output_callbacks',
       exists jc w3,
         job self job_order output_callbacks' runtimeContext w2
         = Ok ([YieldCallbackJob jc], w3) /\
         CallbackJob.outdir jc = jobcache /\
         CallbackJob.output_callback jc = output_callbacks') /\
      (processStatus <> "success" ->
       forall output_callbacks' jc w3,
         job self job_order output_callbacks' runtimeContext w2
         <> Ok ([YieldCallbackJob jc], w3)).
Proof.
  intros Hdir Hne Hreuse Hname Hb Hk _ Hjob jobcache.
  set (lockfile := jobcache +:+ ".status").
  pose proof (fun cbs w0 =>
                lookup_cache_hit_or_miss self job_order cbs runtimeContext cachedir w0
                  cachebuilder keydict Hb Hk) as Hlookup.
  cbn zeta in Hlookup. fold jobcache lockfile in Hlookup.
  assert (jobcache ∉ directories w \/ status_read lockfile w <> "success") as Hmiss.
  { destruct (decide (jobcache ∈ directories w)) as [Hin|]; [|by left].
    destruct (decide (status_read lockfile w = "success")) as [Hs|]; [|by right].
    rewrite (job_with_cache _ _ _ _ _ _ _ Hdir Hne Hreuse Hname) in Hjob.
    destruct (Hlookup output_callbacks w) as [Hhit _].
    destruct (Hhit Hin Hs) as (jc & Heq & _). by rewrite Heq in Hjob. }
  rewrite (job_on_miss self job_order output_callbacks runtimeContext w cachedir
             jobname cachebuilder keydict Hdir Hne Hreuse Hname Hb Hk Hmiss) in Hjob.
  fold jobcache lockfile in Hjob.
  bind_inv Hjob. destruct a as [j' w1']. injection Hjob as <- <-.
  apply construct_job_world in Ha as (Hcb & _ & Hd1 & _).
  destruct (recreated_world jobcache lockfile w) as (_ & Hin & _).
  eexists. split; [exact Hcb|]. intros outputs processStatus w2 Hcall.
  apply call_update_status in Hcall as [Hd2 Hf2].
  assert (status_read lockfile w2 = processStatus) as Hs2.
  { unfold status_read. by rewrite Hf2. }
  split.
  - intros -> output_callbacks'.
    rewrite (job_with_cache _ _ _ _ _ _ _ Hdir Hne Hreuse Hname).
    destruct (Hlookup output_callbacks' w2) as [Hhit _].
    destruct Hhit as (jc & -> & Hout & Hcb'); [by rewrite Hd2, Hd1|done|].
    cbn [bind]. by exists jc, (log (Close lockfile) (locked lockfile w2)).
  - intros Hs output_callbacks' jc w3.
    rewrite (job_with_cache _ _ _ _ _ _ _ Hdir Hne Hreuse Hname).
    destruct (Hlookup output_callbacks' w2) as [_ Hm].
    rewrite Hm by (right; by rewrite Hs2). cbn [bind].
    destruct (construct_job _ _ _ _ _ _) as [[j2 w4]|]; done.
Qed.


(** ** Output collection: [collect_output_ports] *)

(** Lines 843-851: when the job left a [cwl.output.json] in its output
    directory, the outputs are read from it, and the output ports of the
    tool are not looked at. *)
Theorem custom_output_overrides_ports (self : CommandLineTool.t) (ports ports' : value)
    (builder : Builder.t) (outdir : string) (compute_checksum : bool)
    (mm0 : gmap string MutationManager.MutationState) :
  let fs_access := make_fs_access builder outdir in
  StdFsAccess.exists_ fs_access (StdFsAccess.join fs_access outdir "cwl.output.json")
  = true ->
  collect_output_ports_body self ports builder outdir compute_checksum mm0
  = collect_output_ports_body self ports' builder outdir compute_checksum mm0.
Proof. intros fs_access He. unfold collect_output_ports_body. fold fs_access. by rewrite He. Qed.

Lemma foldM_app {A St : Type} (f : St -> A -> res St) (s : St) (l1 l2 : list A) :
  foldM f s (l1 ++ l2) = let* s1 := foldM f s l1 in foldM f s1 l2.
Proof.
  revert s. induction l1 as [|a l1 IH]; intros s; simpl; [done|].
  destruct (f s a) as [s'|e]; simpl; [apply IH|done].
Qed.

Lemma collect_port_index (ports : value) (builder : Builder.t) (outdir : string)
    (fs_access : StdFsAccess.t) (compute_checksum : bool) (l : list value)
    (i i' : nat) (ret ret' : dict) :
  foldM (collect_port ports builder outdir fs_access compute_checksum) (i, ret) l
  = Ok (i', ret') ->
  i' = (i + List.length l)%nat.
Proof.
  revert i ret. induction l as [|port l IH]; intros i ret; simpl.
  - intros [= <- <-]. lia.
  - intros Hl. bind_inv Hl. unfold collect_port in Ha.
    bind_inv Ha. bind_inv Ha. injection Ha as <-.
    apply IH in Hl. lia.
Qed.

(** X12.  Lines 853-868: when the collection of a port raises, whatever the
    exception, what leaves [collect_output_ports] is a
    [ParameterOutputWorkflowException] that names the port and carries the
    message of the exception, placed at the index of the port among the
    ports; the ports after it are not collected. *)
Theorem collect_port_error (self : CommandLineTool.t) (pre post : list value)
    (port : dict) (id : string) (builder : Builder.t) (outdir : string)
    (compute_checksum : bool) (mm0 : gmap string MutationManager.MutationState)
    (i : nat) (ret : dict) (e : exn) :
  let fs_access := make_fs_access builder outdir in
  let ports := VList (pre ++ VDict port :: post) in
  StdFsAccess.exists_ fs_access (StdFsAccess.join fs_access outdir "cwl.output.json")
  = false ->
  foldM (collect_port ports builder outdir fs_access compute_checksum) (O, []) pre
  = Ok (i, ret) ->
  dict_get "id" port = Some (VStr id) ->
  collect_output port builder outdir fs_access compute_checksum = Raise e ->
  i = List.length pre /\
  collect_output_ports_body self ports builder outdir compute_checksum mm0
  = Raise (ParameterOutputWorkflowException
      ("Error collecting output for parameter '" +:+ shortname id +:+ "':"
       +:+ newline +:+ makeError ports (VInt (Z.of_nat i)) (exn_str e))).
Proof.
  intros fs_access ports He Hpre Hid Hc. split.
  - by apply collect_port_index in Hpre.
  - unfold collect_output_ports_body. fold fs_access. rewrite He.
    unfold ports at 1. cbn [bind]. rewrite foldM_app. fold ports. rewrite Hpre.
    cbn [bind foldM]. unfold collect_port at 1. cbn [bind].
    unfold getitem. rewrite Hid. cbn [bind as_str]. rewrite Hc.
    cbn [bind SourceLine]. unfold parameter_output_error. by rewrite Hid.
Qed.

(** The type of an output that is a record. *)
Definition record_type (ty : value) : Prop :=
  exists t, ty = VDict t /\ dict_get "type" t = Some (VStr "record").

(** X13.  Lines 917 and 1105-1116: an output that has no [outputBinding] and whose
    type is not a record has no result: [collect_output] ends on the
    [return] of a variable that was never bound. *)
Theorem collect_output_without_binding (schema : dict) (builder : Builder.t)
    (outdir : string) (fs_access : StdFsAccess.t) (compute_checksum : bool)
    (ty : value) :
  dict_get "outputBinding" schema = None ->
  dict_get "type" schema = Some ty ->
  (forall t, ty = VDict t -> is_Some (dict_get "type" t)) ->
  ~ record_type ty ->
  collect_output schema builder outdir fs_access compute_checksum
  = Raise UnboundLocalError.
Proof.
  intros Hb Hty Ht Hr. unfold collect_output. cbn [collect_output_rec].
  assert (dict_has "outputBinding" schema = false) as -> by by apply dict_has_false.
  cbn [bind]. unfold getitem. rewrite Hty. cbn [bind].
  destruct ty as [| | | | |t]; try done.
  destruct (Ht t eq_refl) as [kind Hk]. rewrite Hk. cbn [bind].
  destruct (eq_str kind "record") eqn:E; [|done].
  apply eq_str_true in E as ->. exfalso. apply Hr. by exists t.
Qed.

(** ** The release of the readers *)

Lemma release_all (jobname : string) (rs : list (string * dict)) :
  (forall loc f, In (loc, f) rs -> location_of f = Ok loc) ->
  forall (mm0 : gmap string MutationManager.MutationState) (released : list string),
  exists mm',
    foldM
      (fun '(mm, released) r =>
         let* mm' := MutationManager.release_reader mm jobname r in
         let* location := location_of r in
         Ok (mm', released ++ [location]))
      (mm0, released) (dict_values rs)
    = Ok (mm', released ++ dict_keys rs) /\
    forall loc,
      (In loc (dict_keys rs) ->
       jobname ∉ MutationManager.readers (MutationManager.state mm' loc)) /\
      (~ In loc (dict_keys rs) ->
       MutationManager.state mm' loc = MutationManager.state mm0 loc) /\
      (jobname ∉ MutationManager.readers (MutationManager.state mm0 loc) ->
       jobname ∉ MutationManager.readers (MutationManager.state mm' loc)).
Proof.
  induction rs as [|[loc0 f] rs IH]; intros Hsnap mm0 released.
  - exists mm0. simpl. rewrite app_nil_r. split; [done|]. intros loc. by repeat split.
  - assert (location_of f = Ok loc0) as Hf by (apply Hsnap; by left).
    set (mm1 := <[loc0 := {| MutationManager.generation :=
                               MutationManager.generation (MutationManager.state mm0 loc0);
                             MutationManager.readers :=
                               MutationManager.readers (MutationManager.state mm0 loc0)
                               ∖ {[jobname]};
                             MutationManager.mutator :=
                               MutationManager.mutator (MutationManager.state mm0 loc0) |}]>
                   mm0).
    assert (MutationManager.release_reader mm0 jobname f = Ok mm1) as Hrel.
    { unfold MutationManager.release_reader. by rewrite Hf. }
    change (dict_values ((loc0, f) :: rs)) with (f :: dict_values rs).
    change (dict_keys ((loc0, f) :: rs)) with (loc0 :: dict_keys rs).
    cbn [foldM]. rewrite Hrel. cbn [bind]. rewrite Hf. cbn [bind].
    destruct (IH (fun loc f Hin => Hsnap loc f (or_intror Hin)) mm1 (released ++ [loc0]))
      as (mm' & -> & Hmm').
    exists mm'. split; [by rewrite <- app_assoc|]. intros loc. cbn [In].
    destruct (Hmm' loc) as (Hin & Hout & Hkeep).
    assert (jobname ∉ MutationManager.readers (MutationManager.state mm0 loc) ->
            jobname ∉ MutationManager.readers (MutationManager.state mm1 loc)) as Hstep.
    { unfold mm1. rewrite state_insert. destruct (decide (loc0 = loc)) as [-> | Hne]; [|done].
      simpl. intros _ [_ Hx]%elem_of_difference. apply Hx. by apply elem_of_singleton. }
    split; [|split].
    + intros [<- | Hl]; [|by apply Hin]. apply Hkeep. unfold mm1. rewrite state_insert.
      destruct (decide (loc0 = loc0)); [|done]. simpl.
      intros [_ Hx]%elem_of_difference. apply Hx. by apply elem_of_singleton.
    + intros Hn. rewrite Hout by (intros Hl; apply Hn; by right).
      unfold mm1. rewrite state_insert.
      destruct (decide (loc0 = loc)) as [-> | Hne]; [|done]. exfalso. apply Hn. by left.
    + intros H0. by apply Hkeep, Hstep.
Qed.

(** X14.  Lines 902-904, the [finally] clause: whether the collection returns the
    outputs or raises, the job is, after it, no reader of any location it
    had a snapshot of, and the other locations are as they were in the
    manager. *)
Theorem readers_released (self : CommandLineTool.t) (ports : value)
    (builder : Builder.t) (outdir : string) (rcode : value) (compute_checksum : bool)
    (jobname : string) (readers : list (string * dict))
    (mm0 : gmap string MutationManager.MutationState) :
  Builder.mutation_manager builder = true ->
  (forall loc f, In (loc, f) readers -> location_of f = Ok loc) ->
  let mm' :=
    snd (collect_output_ports self ports builder outdir rcode compute_checksum jobname
           (Some readers) mm0) in
  (forall loc, In loc (dict_keys readers) ->
     jobname ∉ MutationManager.readers (MutationManager.state mm' loc)) /\
  (forall loc, ~ In loc (dict_keys readers) ->
     MutationManager.state mm' loc = MutationManager.state mm0 loc).
Proof.
  intros Hm Hsnap.
  assert (exists mm1 released,
            release_readers true jobname (Some readers) mm0 = Ok (mm1, released) /\
            forall loc,
              (In loc (dict_keys readers) ->
               jobname ∉ MutationManager.readers (MutationManager.state mm1 loc)) /\
              (~ In loc (dict_keys readers) ->
               MutationManager.state mm1 loc = MutationManager.state mm0 loc))
    as (mm1 & released & Hrel & Hmm1).
  { unfold release_readers. destruct readers as [|r readers].
    - exists mm0, []. split; [done|]. intros loc. by split.
    - destruct (release_all jobname (r :: readers) Hsnap mm0 []) as (mm1 & Heq & Hmm1).
      exists mm1, ([] ++ dict_keys (r :: readers)). cbn [andb]. split; [exact Heq|].
      intros loc. destruct (Hmm1 loc) as (H1 & H2 & _). by split. }
  unfold collect_output_ports.
  assert (Builder.mutation_manager
            (if eq_str
                  (dict_get_default "http://commonwl.org/cwltool#original_cwlVersion" VNone
                     (CommandLineTool.metadata self)) "v1.0"
             then builder
             else Builder.set_resources
                    (dict_set "exitCode" rcode (Builder.resources builder)) builder)
          = true) as ->.
  { by destruct (eq_str _ "v1.0"). }
  rewrite Hrel. cbn [snd]. split; intros loc Hl; by apply Hmm1.
Qed.

(** ** Expression tools: [ExpressionJob], [ExpressionTool], [AbstractOperation] *)

(** Whether [errors.UnsupportedRequirement] derives from
    [WorkflowException]: [cwltool/errors.py] is a collaborator. *)
Variable UnsupportedRequirement_is_WorkflowException : bool.

(** [isinstance(e, WorkflowException)]; the class
    [ParameterOutputWorkflowException] of this module derives from it. *)
Definition is_WorkflowException (e : exn) : bool :=
  match e with
  | WorkflowException _ | ParameterOutputWorkflowException _ => true
  | UnsupportedRequirement _ => UnsupportedRequirement_is_WorkflowException
  | _ => false
  end.

(** [normalizeFilesDirs(self.builder.job)], which works on the job order in
    place: the builder has the job order normalized. *)
Definition normalize_job (builder : Builder.t) : res Builder.t :=
  let* job := normalizeFilesDirs (VDict (Builder.job builder)) in
  Ok {| Builder.job := match job with VDict d => d | _ => Builder.job builder end;
        Builder.files := Builder.files builder;
        Builder.bindings := Builder.bindings builder;
        Builder.pathmapper := Builder.pathmapper builder;
        Builder.fs_access := Builder.fs_access builder;
        Builder.outdir := Builder.outdir builder;
        Builder.tmpdir := Builder.tmpdir builder;
        Builder.stagedir := Builder.stagedir builder;
        Builder.resources := Builder.resources builder;
        Builder.loadListing := Builder.loadListing builder;
        Builder.mutation_manager := Builder.mutation_manager builder |}.

(** Lines 131-133: the evaluation of the expression. *)
Definition evaluate_script (self : ExpressionJob.t) : res value :=
  let* builder := normalize_job (ExpressionJob.builder self) in
  let* ev := do_eval builder (ExpressionJob.script self) None in
  normalizeFilesDirs ev.

(** [if self.output_callback: self.output_callback(outputs, processStatus)] *)
Definition notify (output_callback : option OutputCallback) (outputs : value)
    (processStatus : string) (w : World) : res World :=
  match output_callback with
  | Some cb => call cb outputs processStatus w
  | None => Ok w
  end.

(** [ExpressionJob.run]: a [WorkflowException] that leaves the [try] block,
    from the evaluation or from the callback, is reported to the callback
    as a permanent failure. *)
Definition ExpressionJob_run (self : ExpressionJob.t) (runtimeContext : RuntimeContext.t)
    (w : World) : res World :=
  let attempt :=
    let* ev := evaluate_script self in
    notify (ExpressionJob.output_callback self) ev "success" w in
  match attempt with
  | Ok w' => Ok w'
  | Raise err =>
      if is_WorkflowException err
      then notify (ExpressionJob.output_callback self) (VDict []) "permanentFail" w
      else Raise err
  end.

(** [ExpressionTool.job] *)
Definition ExpressionTool_job (self : CommandLineTool.t) (job_order : dict)
    (output_callbacks : option OutputCallback) (runtimeContext : RuntimeContext.t)
  : res (list ExpressionJob.t) :=
  let* builder := _init_job self job_order runtimeContext in
  let* expression := getitem "expression" (CommandLineTool.tool self) in
  Ok [{| ExpressionJob.builder := builder;
         ExpressionJob.script := expression;
         ExpressionJob.output_callback := output_callbacks;
         ExpressionJob.requirements := CommandLineTool.requirements self;
         ExpressionJob.hints := CommandLineTool.hints self;
         ExpressionJob.outdir := None;
         ExpressionJob.tmpdir := None |}].

(** [AbstractOperation.job] *)
Definition AbstractOperation_job (self : CommandLineTool.t) (job_order : dict)
    (output_callbacks : option OutputCallback) (runtimeContext : RuntimeContext.t)
  : res (list ExpressionJob.t) :=
  Raise (WorkflowException "Abstract operation cannot be executed.").



(** X16.  [ExpressionTool.job] yields one job, for the builder of the job order
    and the [expression] of the tool, with the callback it was given; so
    that the job, run, reports to that callback the value of the
    expression.  A tool without [expression] yields nothing: the
    [KeyError] leaves [job]. *)
Theorem expression_tool_job_run (self : CommandLineTool.t) (job_order : dict)
    (id : string) (runtimeContext : RuntimeContext.t) (builder : Builder.t) :
  _init_job self job_order runtimeContext = Ok builder ->
  (dict_get "expression" (CommandLineTool.tool self) = None ->
   ExpressionTool_job self job_order (Some (Callback id)) runtimeContext
   = Raise (KeyError "expression")) /\
  (forall expression builder' ev ev',
     dict_get "expression" (CommandLineTool.tool self) = Some expression ->
     normalize_job builder = Ok builder' ->
     do_eval builder' expression None = Ok ev ->
     normalizeFilesDirs ev = Ok ev' ->
     exists j,
       ExpressionTool_job self job_order (Some (Callback id)) runtimeContext = Ok [j] /\
       forall rc w,
         ExpressionJob_run j rc w = Ok (log (Called id ev' "success") w)).
Proof.
  intros Hb. unfold ExpressionTool_job, getitem. rewrite Hb. cbn [bind]. split.
  - by intros ->.
  - intros expression builder' ev ev' -> Hn He Hn'. cbn [bind].
    eexists. split; [done|]. intros rc w.
    unfold ExpressionJob_run, evaluate_script.
    cbn [ExpressionJob.builder ExpressionJob.script ExpressionJob.output_callback].
    rewrite Hn. cbn [bind]. rewrite He. cbn [bind]. by rewrite Hn'.
Qed.


(** ** The initial work directory: [updatePathmap] *)

(** Modelled from the spec: [PathMapper.update(key, resolved, target, ctype,
    stage)], which replaces the entry of a location in place
    ([cwltool/pathmapper.py] is not among the sources). *)
Definition update (pm : PathMapper) (key resolved_path target_path ctype : string)
    (stage : bool) : PathMapper :=
  dict_set key
    {| resolved := resolved_path; target := target_path; type := ctype; staged := stage |}
    pm.

(** Modelled from the spec: [key in pathmap], for the mapper keyed by
    location; the location found, if any.  A list or a mapping cannot be
    looked up: [TypeError]. *)
Definition contains (pm : PathMapper) (key : value) : res (option string) :=
  match key with
  | VStr location => Ok (if dict_has location pm then Some location else None)
  | VList _ | VDict _ => Raise TypeError
  | _ => Ok None
  end.

(** [for x in v: self.updatePathmap(..., x)]: the items of a list.  An empty
    string or mapping has nothing to go through; a character of a string,
    a key of a mapping and a value that cannot be iterated end in a
    [TypeError]. *)
Definition iterate (v : value) : res (list value) :=
  match v with
  | VList l => Ok l
  | VStr EmptyString | VDict [] => Ok []
  | _ => Raise TypeError
  end.

(** [updatePathmap]; [fuel] bounds the nesting of the listings. *)
Fixpoint updatePathmap_rec (fuel : nat) (outdir : string) (pathmap : PathMapper)
    (fn : value) : res PathMapper :=
  match fuel with
  | O => Raise RecursionError
  | S fuel' =>
      let* fn := match fn with VDict d => Ok d | _ => Raise TypeError end in
      let* basename := getitem "basename" fn in
      let* pathmap :=
        match dict_get "location" fn with
        | Some location =>
            let* found := contains pathmap location in
            match found with
            | Some location =>
                let* e := mapper pathmap location in
                let* basename := as_path basename in
                let* c := getitem "class" fn in
                let* c := as_path c in
                Ok (update pathmap location (resolved e) (os_path_join outdir basename)
                      ((if truthy (dict_get_default "writable" VNone fn)
                        then "Writable" else "") +:+ c)
                      false)
            | None => Ok pathmap
            end
        | None => Ok pathmap
        end in
      let* sfs := iterate (dict_get_default "secondaryFiles" (VList []) fn) in
      let* pathmap := foldM (updatePathmap_rec fuel' outdir) pathmap sfs in
      let* ls := iterate (dict_get_default "listing" (VList []) fn) in
      foldM
        (fun pathmap l =>
           let* basename := as_path basename in
           updatePathmap_rec fuel' (os_path_join outdir basename) pathmap l)
        pathmap ls
  end.

Definition updatePathmap (outdir : string) (pathmap : PathMapper) (fn : value)
  : res PathMapper :=
  updatePathmap_rec (S recursion_limit) outdir pathmap fn.

(** The mapper [pm'] has the locations of [pm], in the same order, each
    resolved to the same host path; an entry that differs is not staged. *)
Definition same_files (pm pm' : PathMapper) : Prop :=
  dict_keys pm' = dict_keys pm /\
  forall location e',
    dict_get location pm' = Some e' ->
    exists e,
      dict_get location pm = Some e /\ resolved e' = resolved e /\
      (e' = e \/ staged e' = false).

Lemma same_files_refl (pm : PathMapper) : same_files pm pm.
Proof. split; [done|]. intros location e He. exists e. by repeat split; [|left]. Qed.

Lemma same_files_trans (pm1 pm2 pm3 : PathMapper) :
  same_files pm1 pm2 -> same_files pm2 pm3 -> same_files pm1 pm3.
Proof.
  intros [Hk1 H1] [Hk2 H2]. split; [by rewrite Hk2|].
  intros location e3 H3. destruct (H2 _ _ H3) as (e2 & He2 & Hr2 & Hs2).
  destruct (H1 _ _ He2) as (e1 & He1 & Hr1 & Hs1).
  exists e1. split; [done|]. split; [by rewrite Hr2|].
  destruct Hs2 as [-> | Hs2]; [done|by right].
Qed.

Lemma same_files_update (pm : PathMapper) (location target_path ctype : string)
    (e : MapperEnt) :
  mapper pm location = Ok e ->
  same_files pm (update pm location (resolved e) target_path ctype false).
Proof.
  unfold mapper, update. intros He.
  destruct (dict_get location pm) as [e0|] eqn:Hl; [|done]. injection He as ->.
  split.
  - rewrite dict_keys_set.
    assert (dict_has location pm = true) as ->; [|done].
    apply dict_has_true. by eexists.
  - intros location' e'. destruct (String.eqb_spec location location') as [<- | Hne].
    + rewrite dict_get_set_eq. intros [= <-]. exists e. by repeat split; [|right].
    + rewrite dict_get_set_ne by done. intros He'. exists e'. by repeat split; [|left].
Qed.

Lemma updatePathmap_rec_same_files (fuel : nat) (outdir : string)
    (pathmap pathmap' : PathMapper) (fn : value) :
  updatePathmap_rec fuel outdir pathmap fn = Ok pathmap' ->
  same_files pathmap pathmap'.
Proof.
  revert outdir pathmap pathmap' fn.
  induction fuel as [|fuel IH]; intros outdir pathmap pathmap' fn; [done|].
  cbn [updatePathmap_rec]. intros Hu.
  bind_inv Hu. rename a into d. bind_inv Hu. rename a into basename.
  bind_inv Hu. rename a into pm1. bind_inv Hu. rename a into sfs.
  bind_inv Hu. rename a into pm2. bind_inv Hu. rename a into ls.
  assert (same_files pathmap pm1) as H1.
  { destruct (dict_get "location" d) as [location|]; [|injection Ha1 as <-; apply same_files_refl].
    destruct (contains pathmap location) as [[loc|]|]; cbn [bind] in Ha1;
      [|injection Ha1 as <-; apply same_files_refl|done].
    destruct (mapper pathmap loc) as [e|] eqn:He; [cbn [bind] in Ha1|done].
    destruct (as_path basename) as [b|]; [cbn [bind] in Ha1|done].
    destruct (getitem "class" d) as [c|]; [cbn [bind] in Ha1|done].
    destruct (as_path c) as [cls|]; [cbn [bind] in Ha1|done].
    injection Ha1 as <-. by apply same_files_update. }
  assert (same_files pm1 pm2) as H2.
  { eapply (foldM_preserves (same_files pm1)); [|exact Ha3|apply same_files_refl].
    intros s a s' Hs Hpm. eapply same_files_trans; [exact Hpm|]. by eapply IH. }
  assert (same_files pm2 pathmap') as H3.
  { eapply (foldM_preserves (same_files pm2)); [|exact Hu|apply same_files_refl].
    intros s a s' Hs Hpm. eapply same_files_trans; [exact Hpm|].
    destruct (as_path basename) as [b|]; [cbn [bind] in Hs|done]. by eapply IH. }
  eapply same_files_trans; [|exact H3]. by eapply same_files_trans.
Qed.

(** X17.  [updatePathmap] adds no location to the path mapper and removes none,
    keeps their order and the host path each is resolved to, and leaves an
    entry as it was or not staged: it only says where files that the mapper
    already knows go in the work directory. *)
Theorem updatePathmap_same_files (outdir : string) (pathmap pathmap' : PathMapper)
    (fn : value) :
  updatePathmap outdir pathmap fn = Ok pathmap' -> same_files pathmap pathmap'.
Proof. apply updatePathmap_rec_same_files. Qed.

(** X18.  [updatePathmap] on a descriptor with no secondary files and no
    listing.  It needs a [basename], whatever else the descriptor has.  A
    descriptor with no location, or with one the mapper does not know,
    leaves the mapper as it is; one with a location of the mapper is put at
    its [basename] under [outdir], not staged, its type its class, after
    [Writable] when it is writable. *)
Theorem updatePathmap_entry (outdir : string) (pathmap : PathMapper) (fn : dict) :
  dict_get "secondaryFiles" fn = None ->
  dict_get "listing" fn = None ->
  (dict_get "basename" fn = None ->
   updatePathmap outdir pathmap (VDict fn) = Raise (KeyError "basename")) /\
  (is_Some (dict_get "basename" fn) ->
   dict_get "location" fn = None \/
   (exists location,
      dict_get "location" fn = Some (VStr location) /\
      dict_get location pathmap = None) ->
   updatePathmap outdir pathmap (VDict fn) = Ok pathmap) /\
  (forall basename location e c,
     dict_get "basename" fn = Some (VStr basename) ->
     dict_get "location" fn = Some (VStr location) ->
     dict_get location pathmap = Some e ->
     dict_get "class" fn = Some (VStr c) ->
     updatePathmap outdir pathmap (VDict fn)
     = Ok (dict_set location
             {| resolved := resolved e;
                target := os_path_join outdir basename;
                type := (if truthy (dict_get_default "writable" VNone fn)
                         then "Writable" else "") +:+ c;
                staged := false |}
             pathmap)).
Proof.
  intros Hsf Hls. unfold updatePathmap. cbn [updatePathmap_rec bind].
  assert (dict_get_default "secondaryFiles" (VList []) fn = VList []) as ->.
  { unfold dict_get_default. by rewrite Hsf. }
  assert (dict_get_default "listing" (VList []) fn = VList []) as ->.
  { unfold dict_get_default. by rewrite Hls. }
  unfold getitem. cbn [iterate].
  split; [by intros ->|]. split.
  - intros [b ->] Hl. cbn [bind].
    destruct Hl as [-> | (location & -> & Hn)]; [done|].
    cbn [contains]. assert (dict_has location pathmap = false) as ->; [|done].
    by apply dict_has_false.
  - intros basename location e c -> -> He ->. cbn [bind contains].
    assert (dict_has location pathmap = true) as ->.
    { apply dict_has_true. by eexists. }
    unfold mapper. rewrite He. done.
Qed.

(** ** The streams and the limits of the job *)

(** Lines 696-712, for [stderr] and for [stdout]: the value of the
    expression the tool has under [name], if it has one; a value that is
    not falsy has to be a relative path with no [..] in it. *)
Definition relative_stream (name : string) (self : CommandLineTool.t)
    (builder : Builder.t) : res (option value) :=
  let tool := CommandLineTool.tool self in
  if truthy (dict_get_default name VNone tool) then
    SourceLine (VDict tool) (VStr name) ValidationException
      (let* ex := getitem name tool in
       let* stream := do_eval builder ex None in
       if truthy stream then
         let* path := as_path stream in
         if os_path_isabs path || str_contains ".." path then
           Raise (ValidationException
             (name +:+ " must be a relative path, got '" +:+ path +:+ "'"))
         else Ok (Some stream)
       else Ok (Some stream))
  else Ok None.

(** [isinstance(v, int)], with the integer: a boolean is one. *)
Definition as_int (v : value) : option Z :=
  match v with
  | VInt z => Some z
  | VBool b => Some (Z.b2z b)
  | _ => None
  end.

(** Lines 770-779. *)
Definition eval_timelimit (self : CommandLineTool.t) (builder : Builder.t)
  : res (option value) :=
  match fst (get_requirement self "ToolTimeLimit") with
  | Some timelimit =>
      SourceLine (VDict (req_dict timelimit)) (VStr "timelimit") ValidationException
        (let* ex := getitem "timelimit" (req_dict timelimit) in
         let* t := do_eval builder ex None in
         match as_int t with
         | Some z =>
             if Z.ltb z 0 then
               Raise (WorkflowException
                 ("timelimit must be an integer >= 0, got: " +:+ str_of t))
             else Ok (Some t)
         | None =>
             Raise (WorkflowException
               ("timelimit must be an integer >= 0, got: " +:+ str_of t))
         end)
  | None => Ok None
  end.

(** Lines 781-790. *)
Definition eval_networkaccess (self : CommandLineTool.t) (builder : Builder.t)
  : res (option value) :=
  match fst (get_requirement self "NetworkAccess") with
  | Some networkaccess =>
      SourceLine (VDict (req_dict networkaccess)) (VStr "networkAccess")
        ValidationException
        (let* ex := getitem "networkAccess" (req_dict networkaccess) in
         let* n := do_eval builder ex None in
         match n with
         | VBool _ => Ok (Some n)
         | _ =>
             Raise (WorkflowException
               ("networkAccess must be a boolean, got: " +:+ str_of n))
         end)
  | None => Ok None
  end.

Lemma SourceLine_raises {A : Type} (item key : value) (body : res A) (e : exn) :
  SourceLine item key ValidationException body = Raise e ->
  exists e0, body = Raise e0 /\ e = ValidationException (makeError item key (exn_str e0)).
Proof. destruct body as [a|e0]; simpl; [done|]. intros [= <-]. by exists e0. Qed.

Lemma SourceLine_Ok {A : Type} (item key : value) (raise_type : string -> exn)
    (body : res A) (a : A) :
  SourceLine item key raise_type body = Ok a -> body = Ok a.
Proof. by destruct body. Qed.

(** X19.  The [stdout] and the [stderr] of a job.  A path that is absolute, or
    that has [..] anywhere in it, is refused, and so is a value that is
    neither falsy nor a string; what is accepted and is not falsy is a
    relative path with no [..] in it.  Whatever is raised leaves as a
    [ValidationException]. *)
Theorem stream_relative (name : string) (self : CommandLineTool.t) (builder : Builder.t) :
  (forall stream, relative_stream name self builder = Ok (Some stream) ->
     truthy stream = true ->
     exists path,
       stream = VStr path /\ os_path_isabs path = false /\
       str_contains ".." path = false) /\
  (forall ex path,
     dict_get name (CommandLineTool.tool self) = Some ex -> truthy ex = true ->
     do_eval builder ex None = Ok (VStr path) -> path <> "" ->
     os_path_isabs path = true \/ str_contains ".." path = true ->
     relative_stream name self builder
     = Raise (ValidationException
         (makeError (VDict (CommandLineTool.tool self)) (VStr name)
            (name +:+ " must be a relative path, got '" +:+ path +:+ "'")))) /\
  (forall e, relative_stream name self builder = Raise e ->
     exists msg, e = ValidationException msg).
Proof.
  unfold relative_stream. split; [|split].
  - intros stream Hs Ht.
    destruct (truthy (dict_get_default name VNone (CommandLineTool.tool self))); [|done].
    apply SourceLine_Ok in Hs. bind_inv Hs. bind_inv Hs.
    rename a0 into v. destruct (truthy v) eqn:Hv.
    + bind_inv Hs. rename a0 into path.
      destruct (os_path_isabs path || str_contains ".." path) eqn:Hp; [done|].
      injection Hs as <-. apply orb_false_iff in Hp as [Hp1 Hp2].
      exists path. split; [|done]. destruct v; try done. by injection Ha1 as ->.
    + injection Hs as <-. by rewrite Hv in Ht.
  - intros ex path Hex Ht He Hne Hbad. unfold dict_get_default, getitem.
    rewrite Hex, Ht. cbn [bind]. rewrite He. cbn [bind truthy].
    assert (negb (String.eqb path "") = true) as ->.
    { apply negb_true_iff. by apply String.eqb_neq. }
    cbn [bind as_path].
    assert (os_path_isabs path || str_contains ".." path = true) as ->.
    { apply orb_true_iff. done. }
    done.
  - intros e Hr.
    destruct (truthy (dict_get_default name VNone (CommandLineTool.tool self))); [|done].
    apply SourceLine_raises in Hr as (e0 & _ & ->). by eexists.
Qed.

(** X20.  The time limit and the network access of a job.  A time limit that is
    accepted is an integer that is not negative (a boolean counts as an
    integer, for Python); a network access that is accepted is a boolean.
    What is refused, and whatever else is raised, leaves as a
    [ValidationException], not as the [WorkflowException] that was
    raised. *)
Theorem limits_checked (self : CommandLineTool.t) (builder : Builder.t) :
  (forall t, eval_timelimit self builder = Ok (Some t) ->
     exists z, as_int t = Some z /\ (0 <= z)%Z) /\
  (forall n, eval_networkaccess self builder = Ok (Some n) -> exists b, n = VBool b) /\
  (forall timelimit ex t,
     fst (get_requirement self "ToolTimeLimit") = Some timelimit ->
     dict_get "timelimit" (req_dict timelimit) = Some ex ->
     do_eval builder ex None = Ok t ->
     (forall z, as_int t = Some z -> (z < 0)%Z) ->
     eval_timelimit self builder
     = Raise (ValidationException
         (makeError (VDict (req_dict timelimit)) (VStr "timelimit")
            ("timelimit must be an integer >= 0, got: " +:+ str_of t)))) /\
  (forall e,
     eval_timelimit self builder = Raise e \/ eval_networkaccess self builder = Raise e ->
     exists msg, e = ValidationException msg).
Proof.
  unfold eval_timelimit, eval_networkaccess. split; [|split; [|split]].
  - intros t Ht. destruct (fst (get_requirement self "ToolTimeLimit")) as [r|]; [|done].
    apply SourceLine_Ok in Ht. bind_inv Ht. bind_inv Ht. rename a0 into v.
    destruct (as_int v) as [z|] eqn:Hz; [|done].
    destruct (Z.ltb_spec z 0); [done|]. injection Ht as <-. by exists z.
  - intros n Hn. destruct (fst (get_requirement self "NetworkAccess")) as [r|]; [|done].
    apply SourceLine_Ok in Hn. bind_inv Hn. bind_inv Hn. rename a0 into v.
    destruct v; try done. injection Hn as <-. by eexists.
  - intros timelimit ex t -> Hex He Hneg. unfold getitem. rewrite Hex. cbn [bind].
    rewrite He. cbn [bind]. destruct (as_int t) as [z|]; [|done].
    specialize (Hneg z eq_refl). destruct (Z.ltb_spec z 0); [done|lia].
  - intros e [Hr | Hr].
    + destruct (fst (get_requirement self "ToolTimeLimit")) as [r|]; [|done].
      apply SourceLine_raises in Hr as (e0 & _ & ->). by eexists.
    + destruct (fst (get_requirement self "NetworkAccess")) as [r|]; [|done].
      apply SourceLine_raises in Hr as (e0 & _ & ->). by eexists.
Qed.

(** ** What a traversal establishes *)


Section Established.
Context {St : Type}.
Variable cls : list string.
Variable op : St -> dict -> res (St * dict).
Variable shape : dict -> Prop.
Hypothesis op_shape : forall s d s' d', op s d = Ok (s', d') -> shape d'.
Hypothesis shape_keys : forall d d', dict_keys d' = dict_keys d -> shape d -> shape d'.





End Established.


(** ** The initial work directory: the listing *)

(** [builder.do_eval(ex, strip_whitespace=False)] *)
Variable do_eval_keep_whitespace : Builder.t -> value -> res value.

(** [k in v] for a string [k]: a key of a mapping, a part of a string, an
    item of a list; [TypeError] on what cannot be gone through. *)
Definition contains_key (k : string) (v : value) : res bool :=
  match v with
  | VDict d => Ok (dict_has k d)
  | VStr s => Ok (str_contains k s)
  | VList l => Ok (str_in k l)
  | _ => Raise TypeError
  end.

(** [ob[k] = v] for a string [k], which only a mapping takes. *)
Definition setitem (k : string) (v ob : value) : res value :=
  match ob with
  | VDict d => Ok (VDict (dict_set k v d))
  | _ => Raise TypeError
  end.

(** Lines 636-645: one evaluated entry of the Dirent [t]. *)
Definition dirent (builder : Builder.t) (t : dict) (entry : value) : res (list value) :=
  let* entryname :=
    match dict_get "entryname" t with
    | Some ex => do_eval builder ex None
    | None => Ok VNone
    end in
  let et := [("entry", entry); ("entryname", entryname);
             ("writable", dict_get_default "writable" (VBool false) t)] in
  Ok (match entry with VNone => [] | _ => [VDict et] end).

(** Lines 647-653: an item that is an expression. *)
Definition expression_item (builder : Builder.t) (t : value) : res (list value) :=
  let* initwd_item := do_eval builder t None in
  if negb (truthy initwd_item) then Ok []
  else Ok (match initwd_item with VList l => l | _ => [initwd_item] end).

(** Lines 631-653: what one item of the listing adds to [ls]. *)
Definition listing_item (builder : Builder.t) (t : value) : res (list value) :=
  match t with
  | VDict d =>
      if dict_has "entry" d then
        let* ex := getitem "entry" d in
        let* entry_exp := do_eval_keep_whitespace builder ex in
        let* ets := mapM (dirent builder d) (aslist entry_exp) in
        Ok (concat ets)
      else expression_item builder t
  | _ => expression_item builder t
  end.

(** Lines 624-653: a listing that is a string is an expression for the
    whole of [ls]; the [for] loop goes through the items of a list, and
    through the keys of a mapping. *)
Definition evaluated_listing (builder : Builder.t) (listing : value) : res value :=
  match listing with
  | VStr _ => do_eval builder listing None
  | VList ts =>
      let* ls := mapM (listing_item builder) ts in Ok (VList (concat ls))
  | VDict d =>
      let* ls := mapM (listing_item builder) (map VStr (dict_keys d)) in
      Ok (VList (concat ls))
  | _ => Raise TypeError
  end.

(** Lines 655-669: what takes the place of [t2] in [ls]. *)
Definition stage_entry (t2 : value) : res value :=
  let* has_entry := contains_key "entry" t2 in
  if has_entry then
    match t2 with
    | VDict d =>
        let* entry := getitem "entry" d in
        match entry with
        | VStr _ =>
            let* entryname := getitem "entryname" d in
            Ok (VDict [("class", VStr "File"); ("basename", entryname);
                       ("contents", entry);
                       ("writable", dict_get_default "writable" VNone d)])
        | _ =>
            let entryname := dict_get_default "entryname" VNone d in
            let writable := dict_get_default "writable" VNone d in
            if truthy entryname || truthy writable then
              let* entry :=
                if truthy entryname then setitem "basename" entryname entry
                else Ok entry in
              setitem "writable" writable entry
            else Ok entry
        end
    | _ => Raise TypeError
    end
  else Ok t2.

(** Lines 654-669, the loop over [enumerate(ls)].  The items of a string
    are its characters, none of which holds [entry]; those of a mapping are
    its keys, and a key that holds [entry] cannot be subscripted. *)
Definition stage_listing (ls : value) : res value :=
  match ls with
  | VList l => let* l' := mapM stage_entry l in Ok (VList l')
  | VStr _ => Ok ls
  | VDict d =>
      if existsb (str_contains "entry") (dict_keys d) then Raise TypeError else Ok ls
  | _ => Raise TypeError
  end.

(** Lines 623-669: the listing of the requirement [initialWorkdir]. *)
Definition initial_listing (builder : Builder.t) (initialWorkdir : requirement)
  : res value :=
  let* listing := getitem "listing" (req_dict initialWorkdir) in
  let* ls := evaluated_listing builder listing in
  stage_listing ls.

(** Lines 621-675.  [pathmap] is [builder.pathmapper], which line 610 has
    set; the generated files get the listing, the mapper is updated with
    its entries, and the files and bindings of the builder are adjusted
    again. *)
Definition initial_workdir (self : CommandLineTool.t) (builder : Builder.t)
    (pathmap : PathMapper) (generatefiles : dict) : res (Builder.t * dict) :=
  match fst (get_requirement self "InitialWorkDirRequirement") with
  | None => Ok (builder, generatefiles)
  | Some initialWorkdir =>
      let* ls := initial_listing builder initialWorkdir in
      let generatefiles := dict_set "listing" ls generatefiles in
      let* entries := iterate ls in
      let* pathmap := foldM (updatePathmap (Builder.outdir builder)) pathmap entries in
      let* builder := adjust_files (Builder.set_pathmapper (Some pathmap) builder) in
      Ok (builder, generatefiles)
  end.

Lemma mapM_In {A B : Type} (f : A -> res B) (l : list A) (l' : list B) (a : A) :
  mapM f l = Ok l' -> In a l -> exists b, f a = Ok b /\ In b l'.
Proof.
  revert l'. induction l as [|x l IH]; intros l' Hl; simpl in *; [done|].
  bind_inv Hl. bind_inv Hl. injection Hl as <-. intros [<- | Hin].
  - exists a0. by split; [|left].
  - destruct (IH _ Ha0 Hin) as (b & Hb & Hin'). exists b. by split; [|right].
Qed.

Lemma mapM_In_inv {A B : Type} (f : A -> res B) (l : list A) (l' : list B) (b : B) :
  mapM f l = Ok l' -> In b l' -> exists a, In a l /\ f a = Ok b.
Proof.
  revert l'. induction l as [|x l IH]; intros l' Hl; simpl in *.
  - by injection Hl as <-.
  - bind_inv Hl. bind_inv Hl. injection Hl as <-. intros [<- | Hin].
    + exists x. by split; [left|].
    + destruct (IH _ Ha0 Hin) as (a' & Hin' & Ha'). exists a'. by split; [right|].
Qed.

(** The entry name of the Dirent [t] evaluates to [entryname]; without
    one, [entryname] is [None]. *)
Definition entryname_of (builder : Builder.t) (t : dict) (entryname : value) : Prop :=
  match dict_get "entryname" t with
  | Some ex => do_eval builder ex None = Ok entryname
  | None => entryname = VNone
  end.

(** Every item of an evaluated Dirent was put together by [dirent]. *)
Lemma listing_item_dirent (builder : Builder.t) (t : dict) (l : list value) (et : value) :
  dict_has "entry" t = true ->
  listing_item builder (VDict t) = Ok l -> In et l ->
  exists entry entryname,
    entry <> VNone /\ entryname_of builder t entryname /\
    et = VDict [("entry", entry); ("entryname", entryname);
                ("writable", dict_get_default "writable" (VBool false) t)].
Proof.
  intros Ht Hl Hin. cbn [listing_item] in Hl. rewrite Ht in Hl.
  apply bind_Ok in Hl as (ex & Hex & Hl).
  apply bind_Ok in Hl as (entry_exp & Hev & Hl).
  apply bind_Ok in Hl as (ets & Hets & Hl). injection Hl as <-.
  apply in_concat in Hin as (e & He & Hin).
  destruct (mapM_In_inv _ _ _ _ Hets He) as (entry & _ & Hd).
  unfold dirent in Hd. apply bind_Ok in Hd as (entryname & Hname & Hd).
  injection Hd as <-.
  exists entry, entryname. split; [by intros ->|]. split.
  - unfold entryname_of. destruct (dict_get "entryname" t); [done|by injection Hname].
  - destruct entry; [done|..]; by destruct Hin as [<-|[]].
Qed.

(** X22.  Lines 623-669, for a listing of Dirents.  When the listing is staged,
    a Dirent whose entry evaluates to a string is there as a File literal
    with that content, named by the entry name, and writable as the Dirent
    says, [False] by default; a Dirent whose entry evaluates to a mapping
    and whose entry name is not empty is there as that mapping, with the
    name for its [basename] and with the Dirent's [writable]; and when all
    the items are Dirents, no item of the staged listing is [None] or a
    string. *)
Theorem initial_listing_dirents (builder : Builder.t) (initialWorkdir : requirement)
    (ts : list value) (ls : value) :
  dict_get "listing" (req_dict initialWorkdir) = Some (VList ts) ->
  initial_listing builder initialWorkdir = Ok ls ->
  exists items,
    ls = VList items /\
    (forall t ex entryname,
       In (VDict t) ts -> dict_get "entry" t = Some ex ->
       entryname_of builder t entryname ->
       let writable := dict_get_default "writable" (VBool false) t in
       (forall contents,
          do_eval_keep_whitespace builder ex = Ok (VStr contents) ->
          In (VDict [("class", VStr "File"); ("basename", entryname);
                     ("contents", VStr contents); ("writable", writable)]) items) /\
       (forall entry,
          do_eval_keep_whitespace builder ex = Ok (VDict entry) ->
          truthy entryname = true ->
          In (VDict (dict_set "writable" writable (dict_set "basename" entryname entry)))
             items)) /\
    ((forall t, In t ts -> exists d, t = VDict d /\ dict_has "entry" d = true) ->
     forall item, In item items -> item <> VNone /\ forall s, item <> VStr s).
Proof.
  intros Hlisting Hl. unfold initial_listing, getitem in Hl. rewrite Hlisting in Hl.
  cbn [bind evaluated_listing] in Hl.
  apply bind_Ok in Hl as (ls0 & Hls0 & Hl).
  apply bind_Ok in Hls0 as (lss & Hlss & Hls0). injection Hls0 as <-.
  cbn [stage_listing] in Hl. apply bind_Ok in Hl as (items & Hitems & Hl).
  injection Hl as <-.
  exists items. split; [done|]. split.
  - intros t ex entryname Ht Hex Hname writable.
    destruct (mapM_In _ _ _ _ Hlss Ht) as (l & Hitem & Hl).
    assert (dict_has "entry" t = true) as Hhas by (apply dict_has_true; by eexists).
    cbn [listing_item] in Hitem. rewrite Hhas in Hitem.
    unfold getitem in Hitem. rewrite Hex in Hitem. cbn [bind] in Hitem.
    apply bind_Ok in Hitem as (entry_exp & Hev & Hitem).
    apply bind_Ok in Hitem as (ets & Hets & Hitem). injection Hitem as <-.
    assert (forall entry, entry_exp = entry -> aslist entry = [entry] -> entry <> VNone ->
            In (VDict [("entry", entry); ("entryname", entryname);
                       ("writable", writable)]) (concat lss)) as Het.
    { intros entry -> Has Hnone. rewrite Has in Hets. cbn [mapM] in Hets.
      apply bind_Ok in Hets as (e & He & Hets). injection Hets as <-.
      unfold dirent in He. apply bind_Ok in He as (entryname' & Hname' & He).
      injection He as <-.
      assert (entryname' = entryname) as ->.
      { unfold entryname_of in Hname. destruct (dict_get "entryname" t).
        - rewrite Hname in Hname'. by injection Hname'.
        - by injection Hname' as <-. }
      apply in_concat. eexists. split; [exact Hl|].
      cbn [concat]. rewrite app_nil_r. destruct entry; [done|..]; by left. }
    split.
    + intros contents Hc. rewrite Hc in Hev. injection Hev as <-.
      pose proof (Het (VStr contents) eq_refl eq_refl) as Hin.
      destruct (mapM_In _ _ _ _ Hitems (Hin ltac:(done))) as (b & Hb & Hin').
      by injection Hb as <-.
    + intros entry Hc Htruthy. rewrite Hc in Hev. injection Hev as <-.
      pose proof (Het (VDict entry) eq_refl eq_refl) as Hin.
      destruct (mapM_In _ _ _ _ Hitems (Hin ltac:(done))) as (b & Hb & Hin').
      unfold stage_entry in Hb. cbn in Hb. rewrite Htruthy in Hb. cbn in Hb.
      by injection Hb as <-.
  - intros Hdirents item Hin.
    destruct (mapM_In_inv _ _ _ _ Hitems Hin) as (et & Het & Hstage).
    apply in_concat in Het as (l & Hl & Het).
    destruct (mapM_In_inv _ _ _ _ Hlss Hl) as (t & Ht & Hitem).
    destruct (Hdirents t Ht) as (d & -> & Hhas).
    destruct (listing_item_dirent _ _ _ _ Hhas Hitem Het)
      as (entry & entryname & Hnone & _ & ->).
    unfold stage_entry in Hstage. cbn in Hstage.
    destruct entry as [|b|z|s|l'|d']; [done| | |by injection Hstage as <-| |].
    all: destruct (truthy entryname || truthy (dict_get_default "writable" (VBool false) d));
      [|by injection Hstage as <-].
    all: destruct (truthy entryname); cbn in Hstage; try done.
    all: by injection Hstage as <-.
Qed.

Lemma adjust_files_pathmapper (builder builder' : Builder.t) :
  adjust_files builder = Ok builder' ->
  Builder.pathmapper builder' = Builder.pathmapper builder /\
  Builder.outdir builder' = Builder.outdir builder.
Proof.
  unfold adjust_files. intros Ha. bind_inv Ha. destruct a as [[] rec].
  repeat case_match; by injection Ha as <-.
Qed.

(** X23.  Lines 670-675: staging the initial work directory leaves the builder
    with a mapper of the same files: the same locations, in the same order,
    each resolved to the host path it had; and the output directory of the
    builder is as it was. *)
Theorem initial_workdir_same_files (self : CommandLineTool.t) (builder builder' : Builder.t)
    (pathmap : PathMapper) (generatefiles generatefiles' : dict) :
  Builder.pathmapper builder = Some pathmap ->
  initial_workdir self builder pathmap generatefiles = Ok (builder', generatefiles') ->
  (exists pathmap',
     Builder.pathmapper builder' = Some pathmap' /\ same_files pathmap pathmap') /\
  Builder.outdir builder' = Builder.outdir builder /\
  (forall k, k <> "listing" -> dict_get k generatefiles' = dict_get k generatefiles).
Proof.
  intros Hpm Hi. unfold initial_workdir in Hi.
  destruct (get_requirement self "InitialWorkDirRequirement").1 as [initialWorkdir|].
  - bind_inv Hi. bind_inv Hi. bind_inv Hi. bind_inv Hi. injection Hi as <- <-.
    apply adjust_files_pathmapper in Ha2 as [Hpm' Hout]. split; [|split; [done|]].
    + exists a1. split; [done|].
      apply (foldM_preserves (same_files pathmap) _ _ _ _
               (fun s fn s' Hu Hs =>
                  same_files_trans _ _ _ Hs (updatePathmap_rec_same_files _ _ _ _ _ Hu))
               Ha1).
      apply same_files_refl.
    + intros k Hk. by rewrite dict_get_set_ne.
  - injection Hi as <- <-. split; [|done]. exists pathmap. split; [done|].
    apply same_files_refl.
Qed.

(** ** Record outputs *)

Lemma foldM_mono {A St : Type} (f g : St -> A -> res St) (l : list A) (s r : St) :
  (forall s a s', f s a = Ok s' -> g s a = Ok s') ->
  foldM f s l = Ok r -> foldM g s l = Ok r.
Proof.
  intros Hfg. revert s. induction l as [|a l IH]; intros s; simpl; [done|].
  intros Hl. apply bind_Ok in Hl as (s' & Hs' & Hl).
  rewrite (Hfg _ _ _ Hs'). by apply IH.
Qed.

(** Lines 1111-1114: the loop body for one field of a record. *)
Definition collect_field (fuel : nat) (builder : Builder.t) (outdir : string)
    (fs_access : StdFsAccess.t) (compute_checksum : bool) (out : dict) (field : value)
  : res dict :=
  let* field := match field with VDict f => Ok f | _ => Raise TypeError end in
  let* n := getitem "name" field in
  let* name := as_str n in
  let* v := collect_output_rec fuel field builder outdir fs_access compute_checksum in
  Ok (dict_set (shortname name) v out).

(** More fuel does not change a result. *)
Lemma collect_output_rec_mono (fuel : nat) (builder : Builder.t) (outdir : string)
    (fs_access : StdFsAccess.t) (compute_checksum : bool) (schema : dict) (v : value) :
  collect_output_rec fuel schema builder outdir fs_access compute_checksum = Ok v ->
  collect_output_rec (S fuel) schema builder outdir fs_access compute_checksum = Ok v.
Proof.
  revert schema v. induction fuel as [|fuel IH]; intros schema v; [done|].
  intros Hc. cbn [collect_output_rec] in Hc.
  remember (S fuel) as n eqn:Hn. cbn [collect_output_rec].
  destruct (if dict_has "outputBinding" schema
            then collect_binding schema builder outdir fs_access compute_checksum
            else Ok (Fallthrough None)) as [fl|e]; [|done].
  cbn [bind] in *. destruct fl as [|result]; [done|].
  destruct (getitem "type" schema) as [ty|e]; [|done]. cbn [bind] in *.
  destruct (match ty with
            | VDict t => let* kind := getitem "type" t in Ok (eq_str kind "record")
            | _ => Ok false
            end) as [is_record|e]; [|done].
  cbn [bind] in *. destruct is_record; [|done].
  destruct (match ty with VDict t => getitem "fields" t | _ => Raise TypeError end)
    as [fields|e]; [|done].
  cbn [bind] in *.
  destruct (match fields with VList l => Ok l | _ => Raise TypeError end)
    as [l|e]; [|done].
  cbn [bind] in *. apply bind_Ok in Hc as (out & Hout & Hc).
  change (bind (foldM (collect_field n builder outdir fs_access compute_checksum) [] l)
            (fun out => Ok (VDict out)) = Ok v).
  rewrite (foldM_mono (collect_field fuel builder outdir fs_access compute_checksum)
             (collect_field n builder outdir fs_access compute_checksum) l [] out);
    [done| |exact Hout].
  intros s field s' Hf.
  apply bind_Ok in Hf as (f & Hfield & Hf). apply bind_Ok in Hf as (nm & Hnm & Hf).
  apply bind_Ok in Hf as (name & Hname & Hf). apply bind_Ok in Hf as (x & Hx & Hf).
  unfold collect_field. rewrite Hfield. cbn [bind]. rewrite Hnm. cbn [bind].
  rewrite Hname. cbn [bind]. subst n. by rewrite (IH _ _ Hx).
Qed.

Lemma dict_has_set {V : Type} (k k' : string) (v : V) (d : list (string * V)) :
  dict_has k (dict_set k' v d) = String.eqb k' k || dict_has k d.
Proof.
  unfold dict_has. destruct (String.eqb k' k) eqn:E.
  - apply String.eqb_eq in E as ->. by rewrite dict_get_set_eq.
  - apply String.eqb_neq in E. by rewrite dict_get_set_ne.
Qed.

(** The keys that the loop over the fields adds, and the keys it leaves. *)
Lemma collect_fields_keys (fuel : nat) (builder : Builder.t) (outdir : string)
    (fs_access : StdFsAccess.t) (compute_checksum : bool) (fields : list value)
    (out0 out : dict) :
  foldM (collect_field fuel builder outdir fs_access compute_checksum) out0 fields = Ok out ->
  (forall k,
     dict_has k out = true <->
     dict_has k out0 = true \/
     exists f name,
       In (VDict f) fields /\ dict_get "name" f = Some (VStr name) /\ shortname name = k) /\
  (forall k,
     (forall f name,
        In (VDict f) fields -> dict_get "name" f = Some (VStr name) -> shortname name <> k) ->
     dict_get k out = dict_get k out0).
Proof.
  revert out0. induction fields as [|field fields IH]; intros out0; cbn [foldM].
  - intros [= <-]. split; [|done]. intros k. split; [by left|].
    by intros [Hk|(f & name & [] & _)].
  - intros Hl. apply bind_Ok in Hl as (out1 & Hf & Hl).
    apply bind_Ok in Hf as (f & Hfield & Hf). apply bind_Ok in Hf as (n & Hn & Hf).
    apply bind_Ok in Hf as (name & Hname & Hf). apply bind_Ok in Hf as (x & Hx & Hf).
    injection Hf as <-. destruct field; try done. injection Hfield as ->.
    destruct n; try done. injection Hname as ->.
    unfold getitem in Hn. destruct (dict_get "name" f) as [n|] eqn:Hnf; [|done].
    injection Hn as ->.
    destruct (IH _ Hl) as [Hkeys Hkept]. split.
    + intros k. rewrite Hkeys, dict_has_set, orb_true_iff, String.eqb_eq. split.
      * intros [[Hk|Hk]|(f' & name' & Hin & Hn' & Hk)]; [|by left|].
        -- right. exists f, name. by split; [left|].
        -- right. exists f', name'. by split; [right|].
      * intros [Hk|(f' & name' & [[= ->]|Hin] & Hn' & Hk)]; [by left; right| |].
        -- left; left. rewrite Hnf in Hn'. by injection Hn' as ->.
        -- right. by exists f', name'.
    + intros k Hk. rewrite Hkept.
      * apply dict_get_set_ne. apply (Hk f name); [by left|done].
      * intros f' name' Hin. apply Hk. by right.
Qed.

(** X24.  Lines 1105-1116: the output of a port whose type is a record.  Unless
    the binding of the port has returned, for nothing found on an optional
    port, the output is a mapping that has one key for every field, the
    short name of the field, and no other key; under the key of a field
    whose short name no later field has, it holds what [collect_output]
    gives for the field. *)
Theorem collect_output_record (schema : dict) (builder : Builder.t) (outdir : string)
    (fs_access : StdFsAccess.t) (compute_checksum : bool) (t : dict)
    (fields : list value) (v : value) :
  dict_get "type" schema = Some (VDict t) ->
  dict_get "type" t = Some (VStr "record") ->
  dict_get "fields" t = Some (VList fields) ->
  collect_output schema builder outdir fs_access compute_checksum = Ok v ->
  (dict_has "outputBinding" schema = true /\
   collect_binding schema builder outdir fs_access compute_checksum = Ok (Return v)) \/
  exists out,
    v = VDict out /\
    (forall k,
       dict_has k out = true <->
       exists f name,
         In (VDict f) fields /\ dict_get "name" f = Some (VStr name) /\
         shortname name = k) /\
    (forall pre f post name,
       fields = pre ++ VDict f :: post ->
       dict_get "name" f = Some (VStr name) ->
       (forall f' name',
          In (VDict f') post -> dict_get "name" f' = Some (VStr name') ->
          shortname name' <> shortname name) ->
       exists x,
         dict_get (shortname name) out = Some x /\
         collect_output f builder outdir fs_access compute_checksum = Ok x).
Proof.
  intros Hty Hrecord Hfields Hc. unfold collect_output in Hc.
  cbn [collect_output_rec] in Hc.
  apply bind_Ok in Hc as (fl & Hfl & Hc). destruct fl as [v'|result].
  { left. injection Hc as ->. destruct (dict_has "outputBinding" schema); [done|discriminate Hfl]. }
  right. unfold getitem in Hc. rewrite Hty in Hc. cbn [bind] in Hc.
  rewrite Hrecord in Hc. cbn [bind eq_str] in Hc.
  rewrite String.eqb_refl, Hfields in Hc. cbn [bind] in Hc.
  apply bind_Ok in Hc as (out & Hout & Hc). injection Hc as <-.
  change (foldM (collect_field recursion_limit builder outdir fs_access compute_checksum)
            [] fields = Ok out) in Hout.
  exists out. split; [done|]. split.
  - intros k. destruct (collect_fields_keys _ _ _ _ _ _ _ _ Hout) as [Hkeys _].
    rewrite Hkeys. split; [by intros [Hk|Hk]|by right].
  - intros pre f post name -> Hname Hlater. rewrite foldM_app in Hout.
    apply bind_Ok in Hout as (out1 & _ & Hout). cbn [foldM] in Hout.
    apply bind_Ok in Hout as (out2 & Hf & Hout).
    unfold collect_field in Hf. cbn [bind] in Hf. unfold getitem in Hf.
    rewrite Hname in Hf. cbn [bind as_str] in Hf.
    apply bind_Ok in Hf as (x & Hx & Hf). injection Hf as <-.
    exists x. split.
    + destruct (collect_fields_keys _ _ _ _ _ _ _ _ Hout) as [_ Hkept].
      rewrite Hkept; [apply dict_get_set_eq|exact Hlater].
    + by apply collect_output_rec_mono.
Qed.

End Tool.

(** * Instances for the examples *)

(** The library functions on a POSIX host, for paths and URIs made of
    letters, digits, [/], [.], [_] and [-], which [urllib] leaves
    unquoted. *)

Definition posix_basename (p : string) : string :=
  match rindex "/" p with Some i => str_from (S i) p | None => p end.

Definition posix_isabs (p : string) : bool := startswith p "/".

Fixpoint rstrip_slash (s : string) : string :=
  match s with
  | EmptyString => EmptyString
  | String c s' =>
      match rstrip_slash s' with
      | EmptyString => if Ascii.eqb c "/" then EmptyString else String c EmptyString
      | r => String c r
      end
  end.

Definition posix_join (a b : string) : string :=
  if startswith b "/" then b
  else if String.eqb a "" || String.eqb (rstrip_slash a) a then
    (if String.eqb a "" then b else a +:+ "/" +:+ b)
  else a +:+ b.

Definition posix_split (p : string) : string * string :=
  match rindex "/" p with
  | Some i =>
      let head := str_upto (S i) p in
      (match rstrip_slash head with EmptyString => head | h => h end,
       str_from (S i) p)
  | None => (EmptyString, p)
  end.

Fixpoint all_dots (s : string) : bool :=
  match s with
  | EmptyString => true
  | String c s' => Ascii.eqb c "." && all_dots s'
  end.

Definition posix_splitext (p : string) : string * string :=
  let start := match rindex "/" p with Some i => S i | None => O end in
  match rindex "." p with
  | Some dot =>
      if Nat.leb start dot && negb (all_dots (str_upto (dot - start) (str_from start p)))
      then (str_upto dot p, str_from dot p)
      else (p, EmptyString)
  | None => (p, EmptyString)
  end.

Definition scheme_char (c : ascii) : bool :=
  let n := nat_of_ascii c in
  (Nat.leb 97 n && Nat.leb n 122) || (Nat.leb 65 n && Nat.leb n 90)
  || (Nat.leb 48 n && Nat.leb n 57)
  || Nat.eqb n 43 || Nat.eqb n 45 || Nat.eqb n 46.

Definition lower (c : ascii) : ascii :=
  let n := nat_of_ascii c in
  if Nat.leb 65 n && Nat.leb n 90 then ascii_of_nat (n + 32) else c.

Fixpoint scheme_of (s : string) : option string :=
  match s with
  | EmptyString => None
  | String c s' =>
      if Ascii.eqb c ":" then Some EmptyString
      else if scheme_char c then
        match scheme_of s' with
        | Some r => Some (String (lower c) r)
        | None => None
        end
      else None
  end.

Definition posix_urlsplit_scheme (url : string) : string :=
  match scheme_of url with Some r => r | None => EmptyString end.

Definition posix_file_uri (path : string) : string :=
  if startswith path "file://" then path
  else if startswith path "//" then "file:" +:+ path
  else "file://" +:+ path.

Definition posix_uri_file_path (url : string) : string :=
  if startswith url "file://" then str_from 7 url else url.

Fixpoint repr (v : value) : string :=
  match v with
  | VNone => "None"
  | VBool b => if b then "True" else "False"
  | VInt z => NilZero.string_of_int (Z.to_int z)
  | VStr s => "'" +:+ s +:+ "'"
  | VList l => "[" +:+ join ", " (map repr l) +:+ "]"
  | VDict d =>
      "{" +:+ join ", " (map (fun kv => "'" +:+ fst kv +:+ "': " +:+ repr (snd kv)) d)
      +:+ "}"
  end.

Definition posix : OsLib := {|
  os_sep := "/";
  os_path_basename := posix_basename;
  os_path_isabs := posix_isabs;
  os_path_join := posix_join;
  os_path_split := posix_split;
  os_path_splitext := posix_splitext;
  urlsplit_scheme := posix_urlsplit_scheme;
  file_uri := posix_file_uri;
  uri_file_path := posix_uri_file_path;
  convert_pathsep_to_unix := fun p => p;
  docker_windows_path_adjust := fun p => p;
  str_of := fun v => match v with VStr s => s | _ => repr v end
|}.

(** A filesystem given by the files and the directories it holds; a
    pattern without wildcards matches itself when it exists. *)
Definition fs_of (files dirs : list string) : StdFsAccess.t := {|
  StdFsAccess.exists_ := fun p => existsb (String.eqb p) (files ++ dirs);
  StdFsAccess.isfile := fun p => existsb (String.eqb p) files;
  StdFsAccess.isdir := fun p => existsb (String.eqb p) dirs;
  StdFsAccess.glob := fun p => Ok (if existsb (String.eqb p) (files ++ dirs) then [p] else []);
  StdFsAccess.join := posix_join;
  StdFsAccess.size := fun _ => Ok 0%Z
|}.

(** A builder for a job that runs in the sandbox [/out], with one input
    file staged at [/stage/in.txt]. *)
Definition staged_input : PathMapper :=
  [("file:///data/in.txt",
    {| resolved := "/data/in.txt"; target := "/stage/in.txt"; type := "File";
       staged := true |})].

Definition sample_builder (bindings : list dict) : Builder.t := {|
  Builder.job := [];
  Builder.files := [];
  Builder.bindings := bindings;
  Builder.pathmapper := Some staged_input;
  Builder.fs_access := fs_of [] [];
  Builder.outdir := "/out";
  Builder.tmpdir := "/tmp";
  Builder.stagedir := "/stage";
  Builder.resources := [];
  Builder.loadListing := VNone;
  Builder.mutation_manager := false
|}.

(** ** Reverse mapping *)



(** A remote location is left alone. *)
Lemma revmap_file_remote_location_witness :
  revmap_file (H := posix) (sample_builder []) "/host/out"
    [("class", VStr "File"); ("location", VStr "http://example.org/data.txt")]
  = Ok [("class", VStr "File"); ("location", VStr "http://example.org/data.txt")].
Proof.
  apply (revmap_file_remote_location (H := posix) (sample_builder []) "/host/out"
           "http://example.org/data.txt"); reflexivity.
Defined.

(** ** Runner selection *)

(** [Process.get_requirement] as a tool has it: the last entry of the class
    among the requirements, else the last among the hints. *)
Definition last_requirement_or_hint (self : CommandLineTool.t) (feature : string)
  : option requirement * option bool :=
  match last_of_class feature (CommandLineTool.requirements self) with
  | Some r => (Some r, Some true)
  | None =>
      match last_of_class feature (CommandLineTool.hints self) with
      | Some r => (Some r, Some false)
      | None => (None, None)
      end
  end.

Definition docker_debian : requirement :=
  {| class := "DockerRequirement"; fields := [("dockerPull", VStr "debian")] |}.

Definition docker_alpine : requirement :=
  {| class := "DockerRequirement"; fields := [("dockerPull", VStr "alpine")] |}.

(** A tool given by its description, requirements and hints. *)
Definition sample_tool (tool : dict) (requirements hints : list requirement)
  : CommandLineTool.t :=
  {| CommandLineTool.tool := tool;
     CommandLineTool.requirements := requirements;
     CommandLineTool.hints := hints;
     CommandLineTool.original_requirements := requirements;
     CommandLineTool.original_hints := hints;
     CommandLineTool.metadata := [] |}.

(** A run with or without containers, with or without a cache. *)
Definition sample_context (use_container : bool) (cachedir : option string)
  : RuntimeContext.t :=
  {| RuntimeContext.name := "";
     RuntimeContext.cachedir := cachedir;
     RuntimeContext.use_container := use_container;
     RuntimeContext.find_default_container := None;
     RuntimeContext.default_container := None;
     RuntimeContext.singularity := false;
     RuntimeContext.user_space_docker_cmd := None;
     RuntimeContext.docker_outdir := "";
     RuntimeContext.basedir := "/data";
     RuntimeContext.outdir := None;
     RuntimeContext.tmpdir := None;
     RuntimeContext.stagedir := None;
     RuntimeContext.compute_checksum := None |}.

(** With [--no-container], a DockerRequirement among the requirements is
    refused, and one among the hints is passed over. *)
Lemma make_job_runner_without_container_witness :
  make_job_runner last_requirement_or_hint (sample_tool [] [docker_debian] [])
    (sample_context false None)
  = Raise (UnsupportedRequirement
      "--no-container, but this CommandLineTool has DockerRequirement under 'requirements'.")
  /\
  make_job_runner last_requirement_or_hint (sample_tool [] [] [docker_debian])
    (sample_context false None)
  = Ok (CommandLineJob, sample_tool [] [] [docker_debian]).
Proof.
  split.
  - apply (make_job_runner_without_container last_requirement_or_hint
             (sample_tool [] [docker_debian] []) (sample_context false None) eq_refl).
    exists docker_debian. split; [by left|reflexivity].
  - apply (make_job_runner_without_container last_requirement_or_hint
             (sample_tool [] [] [docker_debian]) (sample_context false None) eq_refl).
    intros (t & [] & _).
Defined.

(** ** The command line *)

(** [shellescape.quote]: the empty string is [''], a string of safe
    characters stays, any other string goes between single quotes, each
    single quote of it closed, quoted and reopened. *)
Definition shell_safe (c : ascii) : bool :=
  let n := nat_of_ascii c in
  (Nat.leb 97 n && Nat.leb n 122) || (Nat.leb 64 n && Nat.leb n 90)
  || (Nat.leb 43 n && Nat.leb n 58)
  || Nat.eqb n 95 || Nat.eqb n 37 || Nat.eqb n 61.

Fixpoint all_safe (s : string) : bool :=
  match s with
  | EmptyString => true
  | String c s' => shell_safe c && all_safe s'
  end.

Definition double_quote : string := String (ascii_of_nat 34) EmptyString.

Fixpoint escape_quotes (s : string) : string :=
  match s with
  | EmptyString => EmptyString
  | String c s' =>
      if Ascii.eqb c "'" then
        "'" +:+ double_quote +:+ "'" +:+ double_quote +:+ "'" +:+ escape_quotes s'
      else String c (escape_quotes s')
  end.

Definition posix_quote (s : string) : string :=
  if String.eqb s "" then "''"
  else if all_safe s then s
  else "'" +:+ escape_quotes s +:+ "'".

(** A [generate_arg] for bindings with a string as [datum]. *)
Definition datum_arg (builder : Builder.t) (binding : dict) : res (list string) :=
  match dict_get "datum" binding with
  | Some (VStr s) => Ok [s]
  | Some (VDict f) =>
      match dict_get "path" f with
      | Some (VStr path) => Ok [path]
      | _ => Raise (WorkflowException "no path")
      end
  | _ => Ok []
  end.



(** ** Mutation registration *)

Definition input_file : dict :=
  [("class", VStr "File"); ("location", VStr "file:///data/in.txt");
   ("basename", VStr "in.txt")].

Definition reference_file : dict :=
  [("class", VStr "File"); ("location", VStr "file:///data/ref.fa");
   ("basename", VStr "ref.fa"); ("writable", VBool true)].

(** A builder with a mutation manager, whose job reads [in.txt] and may
    update [ref.fa], which is in its listing, in place. *)
Definition updating_builder : Builder.t := {|
  Builder.job := [("f", VDict input_file); ("ref", VDict reference_file)];
  Builder.files := [input_file; reference_file];
  Builder.bindings := [[("datum", VDict input_file)]];
  Builder.pathmapper := Some staged_input;
  Builder.fs_access := fs_of [] [];
  Builder.outdir := "/out";
  Builder.tmpdir := "/tmp";
  Builder.stagedir := "/stage";
  Builder.resources := [];
  Builder.loadListing := VNone;
  Builder.mutation_manager := true
|}.



(** ** The cache key *)

(** Stand-ins for [os.stat], for the serializer, which here lists the keys
    of the mapping in their order, and for the digest. *)
Definition sample_stat (path : string) : res (Z * Z) := Ok (6%Z, 1700000000000%Z).

Definition sample_json_dumps (keydict : gmap string value) (separators : string * string)
    (sort_keys : bool) : string :=
  join (fst separators) (map fst (map_to_list keydict)).

Definition sample_md5 (s : string) : string := "0123456789abcdef0123456789abcdef".

(** The tool of scenario A, [echo] with its output in [out.txt]. *)
Definition echo_tool (requirements hints : list requirement) : CommandLineTool.t :=
  sample_tool [("id", VStr "echo"); ("outputs", VList []); ("stdout", VStr "out.txt")]
    requirements hints.

Definition echo_builder : Builder.t := {|
  Builder.job := [("f", VDict input_file)];
  Builder.files := [input_file];
  Builder.bindings := [[("datum", VStr "echo")]];
  Builder.pathmapper := Some staged_input;
  Builder.fs_access := fs_of [] [];
  Builder.outdir := "/out";
  Builder.tmpdir := "/tmp";
  Builder.stagedir := "/stage";
  Builder.resources := [];
  Builder.loadListing := VNone;
  Builder.mutation_manager := false
|}.

(** The mapping hashed for the tool without a container. *)
Definition echo_keydict : gmap string value :=
  Eval vm_compute in
    match cache_keydict last_requirement_or_hint datum_arg sample_stat (echo_tool [] [])
            (sample_context false (Some "/cache")) echo_builder with
    | Ok keydict => keydict
    | Raise _ => ∅
    end.

(** The mapping hashed with containers in use, a DockerRequirement for
    [debian] among the requirements and one for [alpine] among the hints. *)
Definition docker_keydict : gmap string value :=
  Eval vm_compute in
    match cache_keydict last_requirement_or_hint datum_arg sample_stat
            (echo_tool [docker_debian] [docker_alpine])
            (sample_context true (Some "/cache")) echo_builder with
    | Ok keydict => keydict
    | Raise _ => ∅
    end.

(** Without a container, the key is the digest of the command line, the
    [stdout] expression and, for the input, which has no checksum, its size
    and modification time. *)
Lemma cachekey_contents_witness :
  cache_keydict last_requirement_or_hint datum_arg sample_stat (echo_tool [] [])
    (sample_context false (Some "/cache")) echo_builder = Ok echo_keydict /\
  cachekey_of sample_json_dumps sample_md5 echo_keydict
  = sample_md5 (sample_json_dumps echo_keydict (",", ":") true) /\
  echo_keydict !! "cmdline" = Some (VList [VStr "echo"]) /\
  echo_keydict !! "stdout" = Some (VStr "out.txt") /\
  echo_keydict !! "stdin" = None /\
  echo_keydict !! "/data/in.txt" = Some (VList [VInt 6; VInt 1700000000000]) /\
  echo_keydict !! "DockerRequirement" = None.
Proof.
  assert (cache_keydict last_requirement_or_hint datum_arg sample_stat (echo_tool [] [])
            (sample_context false (Some "/cache")) echo_builder = Ok echo_keydict) as E.
  { vm_compute; exact eq_refl. }
  split; [exact E|].
  destruct (cachekey_contents last_requirement_or_hint datum_arg sample_stat
              sample_json_dumps sample_md5 _ _ _ echo_keydict E)
    as (Hkey & args & pm & Hargs & Hpm & Hlookup).
  injection Hpm as <-. injection Hargs as <-.
  split; [exact Hkey|].
  split; [exact (Hlookup "cmdline")|]. split; [exact (Hlookup "stdout")|].
  split; [exact (Hlookup "stdin")|]. split; [|exact (Hlookup "DockerRequirement")].
  destruct (Hlookup "/data/in.txt") as (st_size & st_mtime_ms & [= <- <-] & Hk).
  exact Hk.
Defined.

(** C1, as stated, fails.  With containers in use, a DockerRequirement for
    [debian] among the requirements and one for [alpine] among the hints:
    what is hashed under [cmdline] is not the resolved command line, [echo],
    but [docker run debian echo]; and what is hashed for the class is the
    requirement, not the last occurrence among the requirements and hints,
    which is the hint. *)
Lemma cachekey_contents_counterexample :
  cache_keydict last_requirement_or_hint datum_arg sample_stat
    (echo_tool [docker_debian] [docker_alpine])
    (sample_context true (Some "/cache")) echo_builder = Ok docker_keydict /\
  mapM (datum_arg echo_builder) (Builder.bindings echo_builder) = Ok [["echo"]] /\
  docker_keydict !! "cmdline"
  = Some (VList [VStr "docker"; VStr "run"; VStr "debian"; VStr "echo"]) /\
  docker_keydict !! "cmdline" <> Some (VList [VStr "echo"]) /\
  last_of_class "DockerRequirement" ([docker_debian] ++ [docker_alpine])
  = Some docker_alpine /\
  docker_keydict !! "DockerRequirement" = Some (VDict (req_dict docker_debian)) /\
  docker_keydict !! "DockerRequirement" <> Some (VDict (req_dict docker_alpine)).
Proof.
  split; [vm_compute; exact eq_refl|].
  split; [reflexivity|]. split; [reflexivity|]. split; [by vm_compute|].
  split; [reflexivity|]. split; [reflexivity|]. by vm_compute.
Qed.

(** ** The cache hit *)

(** Stand-ins for the collaborators of a run of scenario C: [cat] on a
    staged file, with [/cache] as cache directory. *)
Definition cat_output : dict :=
  [("id", VStr "o"); ("type", VStr "File");
   ("outputBinding", VDict [("glob", VStr "result")])].

Definition cat_tool : CommandLineTool.t :=
  sample_tool
    [("id", VStr "cat"); ("outputs", VList [VDict cat_output]); ("stdout", VStr "result")]
    [] [].

Definition cat_init_job (self : CommandLineTool.t) (job_order : dict)
    (runtimeContext : RuntimeContext.t) : res Builder.t :=
  Ok {| Builder.job := job_order;
        Builder.files := [input_file];
        Builder.bindings := [[("datum", VStr "cat")]; [("datum", VDict input_file)]];
        Builder.pathmapper := None;
        Builder.fs_access := fs_of [] [];
        Builder.outdir := getdefault (RuntimeContext.outdir runtimeContext) "/out";
        Builder.tmpdir := getdefault (RuntimeContext.tmpdir runtimeContext) "/tmp";
        Builder.stagedir := getdefault (RuntimeContext.stagedir runtimeContext) "/stage";
        Builder.resources := [];
        Builder.loadListing := VNone;
        Builder.mutation_manager := false |}.

Definition stage_files (referenced_files : list dict) (basedir stagedir : string)
    (separateDirs : bool) : res (list (string * MapperEnt)) :=
  mapM
    (fun f =>
       let* location := location_of f in
       Ok (location,
           {| resolved := posix_uri_file_path location;
              target := posix_join stagedir (posix_basename location);
              type := "File"; staged := true |}))
    referenced_files.

Definition cache_key : string := "0123456789abcdef0123456789abcdef".

Definition cached_fs : StdFsAccess.t :=
  fs_of ["/cache/0123456789abcdef0123456789abcdef/result";
         "file:///cache/0123456789abcdef0123456789abcdef/result"]
        ["/cache/0123456789abcdef0123456789abcdef"].

Definition byte_order (a b : string) : Z :=
  match String.compare a b with Lt => (-1)%Z | Eq => 0%Z | Gt => 1%Z end.

(** The cache holds the outputs of an earlier, successful run. *)
Definition cached_world : World := {|
  file_contents := {["/cache/0123456789abcdef0123456789abcdef.status" := "success"]};
  directories := {["/cache/0123456789abcdef0123456789abcdef"]};
  manager := ∅;
  events := []
|}.

Definition cat_job (output_callbacks : option OutputCallback) (w : World)
  : res (list yielded * World) :=
  job (H := posix) last_requirement_or_hint cat_init_job (fun s => s) (fun s => s)
    datum_arg stage_files sample_stat sample_json_dumps sample_md5 posix_quote
    "/var/spool/cwl" 10 (fun _ _ builder j => Ok (builder, j)) (fun _ _ j => Ok j)
    cat_tool [("f", VDict input_file)] output_callbacks
    (sample_context false (Some "/cache")) w.

Definition run_cached (j : CallbackJob.t) (w : World) : res World :=
  CallbackJob_run (H := posix) (fun s => s) (fun _ ex _ => Ok ex) (fun _ _ => cached_fs)
    byte_order (fun basename pattern => basename +:+ pattern) 10
    (fun _ _ msg => msg) (fun _ => "") (fun _ d _ => Ok d) (fun _ _ => Ok "")
    (fun _ _ => Ok "da39a3ee5e6b4b0d3255bfef95601890afd80709") (fun _ _ => Ok (VDict []))
    (fun d => Ok d) (fun v => Ok v) (fun _ d => Ok d) (fun _ _ => Ok tt) (fun _ => "")
    j (sample_context false (Some "/cache")) w.

Definition cat_cachebuilder : Builder.t :=
  Eval vm_compute in
    match make_cachebuilder (H := posix) cat_init_job stage_files 10 cat_tool
            [("f", VDict input_file)] (sample_context false (Some "/cache")) with
    | Ok cachebuilder => cachebuilder
    | Raise _ => echo_builder
    end.

Definition cat_keydict : gmap string value :=
  Eval vm_compute in
    match cache_keydict last_requirement_or_hint datum_arg sample_stat cat_tool
            (sample_context false (Some "/cache")) cat_cachebuilder with
    | Ok keydict => keydict
    | Raise _ => ∅
    end.

(** What [job] yields on the cache, and the world it leaves. *)
Definition cat_hit (output_callbacks : option OutputCallback) : list yielded * World :=
  match cat_job output_callbacks cached_world with
  | Ok hit => hit
  | Raise _ => ([], cached_world)
  end.

Definition cat_callback_job : list yielded :=
  Eval vm_compute in fst (cat_hit (Some (Callback "done"))).

Definition cat_silent_job : list yielded := Eval vm_compute in fst (cat_hit None).

Definition locked_world : World := Eval vm_compute in snd (cat_hit None).

(** The world after the run of the [CallbackJob] that has the callback. *)
Definition called_world : World :=
  Eval vm_compute in
    match cat_callback_job with
    | [YieldCallbackJob j] =>
        match run_cached j locked_world with Ok w => w | Raise _ => cached_world end
    | _ => cached_world
    end.

(** Scenario C: on the second run, [job] yields a [CallbackJob] for the
    directory of the key, and, run with the callback [done], it collects
    [result] there and calls [done] with it and [success]. *)
Lemma job_cache_hit_witness :
  exists j w',
    cat_job (Some (Callback "done")) cached_world = Ok ([YieldCallbackJob j], w') /\
    CallbackJob.outdir j = "/cache/0123456789abcdef0123456789abcdef" /\
    events w'
    = [Open "/cache/0123456789abcdef0123456789abcdef.status" "a+";
       SharedLock "/cache/0123456789abcdef0123456789abcdef.status";
       Close "/cache/0123456789abcdef0123456789abcdef.status"] /\
    exists w'',
      run_cached j w' = Ok w'' /\
      events w''
      = events w' ++
        [Called "done"
           (VDict
              [("o",
                VDict
                  [("location",
                    VStr "file:///cache/0123456789abcdef0123456789abcdef/result");
                   ("basename", VStr "result"); ("nameroot", VStr "result");
                   ("nameext", VStr ""); ("class", VStr "File");
                   ("checksum", VStr "sha1$da39a3ee5e6b4b0d3255bfef95601890afd80709");
                   ("size", VInt 0)])])
           "success"].
Proof.
  destruct (job_cache_hit (H := posix) last_requirement_or_hint cat_init_job
              (fun s => s) (fun s => s) datum_arg (fun _ ex _ => Ok ex)
              (fun _ _ => cached_fs) stage_files sample_stat sample_json_dumps
              sample_md5 posix_quote byte_order
              (fun basename pattern => basename +:+ pattern) "/var/spool/cwl" 10
              (fun _ _ msg => msg) (fun _ => "") (fun _ d _ => Ok d) (fun _ _ => Ok "")
              (fun _ _ => Ok "da39a3ee5e6b4b0d3255bfef95601890afd80709")
              (fun _ _ => Ok (VDict [])) (fun d => Ok d) (fun v => Ok v)
              (fun _ d => Ok d) (fun _ _ => Ok tt) (fun _ => "")
              (fun _ _ builder j => Ok (builder, j)) (fun _ _ j => Ok j)
              cat_tool [("f", VDict input_file)] (Some (Callback "done"))
              (sample_context false (Some "/cache")) cached_world
              "/cache" "cat" cat_cachebuilder cat_keydict)
    as (j & w' & Hjob & _ & _ & Hout & Hev & _ & _ & _ & Hrun & _).
  - reflexivity.
  - discriminate.
  - reflexivity.
  - reflexivity.
  - vm_compute; exact eq_refl.
  - vm_compute; exact eq_refl.
  - vm_compute; exact eq_refl.
  - vm_compute; exact eq_refl.
  - exists j, w'. split; [exact Hjob|]. split; [exact Hout|]. split; [exact Hev|].
    assert (cat_job (Some (Callback "done")) cached_world
            = Ok (cat_callback_job, locked_world)) as Hhit.
    { vm_compute; exact eq_refl. }
    pose proof (eq_trans (eq_sym Hjob) Hhit) as Heq. unfold cat_callback_job in Heq.
    injection Heq as -> ->.
    exists called_world. split.
    + vm_compute; exact eq_refl.
    + vm_compute; exact eq_refl.
Defined.

(** C2, as stated, fails: prepared without an output callback, the
    [CallbackJob] of a cache hit, when run, neither collects the outputs nor
    calls anything; the world is as it was. *)
Lemma job_cache_hit_counterexample :
  exists j w',
    cat_job None cached_world = Ok ([YieldCallbackJob j], w') /\
    run_cached j w' = Ok w'.
Proof.
  assert (cat_job None cached_world = Ok (cat_silent_job, locked_world)) as Hhit.
  { vm_compute; exact eq_refl. }
  unfold cat_silent_job in Hhit. eexists. exists locked_world.
  split; [exact Hhit|]. vm_compute; exact eq_refl.
Qed.

(** ** Glob patterns *)

Definition host_fs : StdFsAccess.t :=
  fs_of ["/host/out/result.txt"] ["/host/out"].



(** ** Secondary files *)






(** ** Cardinality of an output port *)


(** * Examples for the rest of the module *)

(** ** Staging paths *)

Definition staged_file : dict :=
  [("class", VStr "File"); ("location", VStr "file:///data/in.txt")].

(** The staged input gets its path in the stage directory, and its name is
    an accepted one. *)
Lemma check_adjust_paths_witness :
  exists file_o',
    check_adjust (H := posix) (sample_builder []) staged_file = Ok file_o' /\
    dict_get "path" file_o' = Some (VStr "/stage/in.txt") /\
    dict_get "nameext" file_o' = Some (VStr ".txt") /\
    accepted_name "in.txt".
Proof.
  eexists. split; [reflexivity|].
  pose proof (check_adjust_paths (H := posix) (sample_builder []) staged_file _ eq_refl)
    as (pm & location & e & Hpm & Hloc & He & Hfields).
  injection Hpm as <-. injection Hloc as <-. injection He as <-.
  destruct Hfields as (Hpath & _ & _ & Haccepted & Hext & _).
  split; [exact Hpath|]. split; [exact (proj2 (Hext eq_refl))|exact Haccepted].
Defined.

(** An output in the sandbox output directory is located under the host
    output directory, and has no path any more. *)
Lemma revmap_file_result_witness :
  exists f',
    revmap_file (H := posix) (sample_builder []) "/host/out"
      [("class", VStr "File"); ("path", VStr "/out/result.txt")] = Ok f' /\
    is_Some (dict_get "location" f') /\
    dict_get "path" f' = None /\
    dict_get "class" f' = Some (VStr "File").
Proof.
  eexists. split; [reflexivity|].
  destruct (revmap_file_result (H := posix) (sample_builder []) "/host/out"
              [("class", VStr "File"); ("path", VStr "/out/result.txt")] _ eq_refl)
    as ([location Hlocation] & Hpath & _ & _ & Hframe).
  split; [by exists (VStr location)|]. split; [exact Hpath|].
  apply (Hframe "class"); discriminate.
Defined.

(** ** Locations of the outputs *)

Definition result_outputs : value :=
  VDict [("o", VDict [("class", VStr "File"); ("location", VStr "/host/out/result.txt")]);
         ("d", VDict [("class", VStr "Directory"); ("location", VStr "/host/out")])].

(** Outputs whose locations are there pass the validation unchanged. *)
Lemma valid_locations_checked_witness :
  visit_class 10 result_outputs file_or_directory
    (pure_op (check_valid_locations host_fs)) tt = Ok (tt, result_outputs) /\
  forall d, inside (VDict d) result_outputs ->
    dict_get "class" d = Some (VStr "File") ->
    exists location,
      dict_get "location" d = Some (VStr location) /\
      StdFsAccess.isfile host_fs location = true.
Proof.
  destruct (valid_locations_checked 10 host_fs result_outputs (tt, result_outputs) eq_refl)
    as [_ Hall].
  split; [reflexivity|]. intros d Hin. exact (proj1 (Hall d Hin)).
Defined.



(** ** The runner *)

(** With containers in use and a DockerRequirement, the job runs in a
    container. *)
Lemma make_job_runner_with_container_witness :
  make_job_runner last_requirement_or_hint (sample_tool [] [docker_debian] [])
    (sample_context true None)
  = Ok (DockerCommandLineJob, sample_tool [] [docker_debian] []).
Proof.
  apply (make_job_runner_with_container last_requirement_or_hint
           (sample_tool [] [docker_debian] []) (sample_context true None) eq_refl).
  by exists docker_debian.
Defined.

(** ** Checksums of the inputs *)

(** The placeholder is passed over, and the checksum of the second entry
    is the one returned. *)
Lemma calc_checksum_trusted_witness :
  calc_checksum
    [[("location", VStr "file:///data/in.txt"); ("checksum", VStr "sha1$hash")];
     [("location", VStr "file:///data/in.txt"); ("checksum", VStr "sha1$0a1b")]]
    "file:///data/in.txt"
  = VStr "sha1$0a1b" /\
  VStr "sha1$0a1b" <> VStr "sha1$hash".
Proof.
  split; [reflexivity|].
  apply (calc_checksum_trusted
           [[("location", VStr "file:///data/in.txt"); ("checksum", VStr "sha1$hash")];
            [("location", VStr "file:///data/in.txt"); ("checksum", VStr "sha1$0a1b")]]
           "file:///data/in.txt" (VStr "sha1$0a1b") eq_refl).
  discriminate.
Defined.

(** ** Updating the path mapper *)

(** The input goes to [renamed.txt] in the work directory, and the mapper
    still has the one file. *)
Lemma updatePathmap_same_files_witness :
  exists pathmap',
    updatePathmap (H := posix) 10 "/out" staged_input
      (VDict [("class", VStr "File"); ("location", VStr "file:///data/in.txt");
              ("basename", VStr "renamed.txt")]) = Ok pathmap' /\
    same_files staged_input pathmap'.
Proof.
  eexists. split; [reflexivity|].
  apply (updatePathmap_same_files (H := posix) 10 "/out" staged_input _
           (VDict [("class", VStr "File"); ("location", VStr "file:///data/in.txt");
                   ("basename", VStr "renamed.txt")]) eq_refl).
Defined.

(** A writable input is put at its new name as a [WritableFile]. *)
Lemma updatePathmap_entry_witness :
  updatePathmap (H := posix) 10 "/out" staged_input
    (VDict [("class", VStr "File"); ("location", VStr "file:///data/in.txt");
            ("basename", VStr "renamed.txt"); ("writable", VBool true)])
  = Ok [("file:///data/in.txt",
         {| resolved := "/data/in.txt"; target := "/out/renamed.txt";
            type := "WritableFile"; staged := false |})].
Proof.
  destruct (updatePathmap_entry (H := posix) 10 "/out" staged_input
              [("class", VStr "File"); ("location", VStr "file:///data/in.txt");
               ("basename", VStr "renamed.txt"); ("writable", VBool true)]
              eq_refl eq_refl) as (_ & _ & Hentry).
  exact (Hentry "renamed.txt" "file:///data/in.txt" _ "File" eq_refl eq_refl eq_refl eq_refl).
Defined.

(** ** Collected files *)

Definition sample_sha1 (fs_access : StdFsAccess.t) (location : string) : res string :=
  Ok "da39a3ee5e6b4b0d3255bfef95601890afd80709".

(** A file found by a glob gets its size and its checksum, and keeps its
    path. *)
Lemma load_hit_file_witness :
  exists files',
    load_hit (H := posix) (fun _ d _ => Ok d) (fun _ _ => Ok "") sample_sha1
      [("type", VStr "File")] [("glob", VStr "result.txt")] (sample_builder [])
      "/host/out" host_fs true
      [("class", VStr "File"); ("path", VStr "/out/result.txt")] = Ok files' /\
    dict_get "size" files' = Some (VInt 0) /\
    dict_get "checksum" files'
    = Some (VStr "sha1$da39a3ee5e6b4b0d3255bfef95601890afd80709") /\
    dict_get "path" files' = Some (VStr "/out/result.txt").
Proof.
  eexists. split; [reflexivity|].
  destruct (load_hit_file (H := posix) (fun _ d _ => Ok d) (fun _ _ => Ok "") sample_sha1
              [("type", VStr "File")] [("glob", VStr "result.txt")] (sample_builder [])
              "/host/out" host_fs true
              [("class", VStr "File"); ("path", VStr "/out/result.txt")] _ (VStr "File")
              eq_refl ltac:(discriminate) eq_refl)
    as (rfile & location & sz & _ & _ & Hsz & Hsize & (digest & Hdigest & Hchecksum) & _ & Hframe).
  injection Hsz as <-. injection Hdigest as <-.
  split; [exact Hsize|]. split; [exact Hchecksum|]. apply (Hframe "path"); discriminate.
Defined.

(** ** Collecting the output ports *)

(** The collection of the outputs of a job that left [/host/out], with the
    collaborators of the examples. *)
Definition collect_body (fs_access : StdFsAccess.t) (ports : value) : res value :=
  collect_output_ports_body (H := posix) (fun s => s) (fun _ ex _ => Ok ex)
    (fun _ _ => fs_access) byte_order (fun basename pattern => basename +:+ pattern) 10
    (fun _ _ msg => msg) (fun _ => "") (fun _ d _ => Ok d) (fun _ _ => Ok "") sample_sha1
    (fun _ _ => Ok (VDict [("o", VStr "custom")])) (fun d => Ok d) (fun v => Ok v)
    (fun _ d => Ok d) (fun _ _ => Ok tt) (fun _ => "")
    cat_tool ports (sample_builder []) "/host/out" true ∅.

(** With a [cwl.output.json] in the output directory, the ports do not
    count. *)
Lemma custom_output_overrides_ports_witness :
  collect_body (fs_of ["/host/out/cwl.output.json"] ["/host/out"]) (VList [VDict cat_output])
  = collect_body (fs_of ["/host/out/cwl.output.json"] ["/host/out"]) (VList []).
Proof.
  apply (custom_output_overrides_ports (H := posix) (fun s => s) (fun _ ex _ => Ok ex)
           (fun _ _ => fs_of ["/host/out/cwl.output.json"] ["/host/out"])).
  reflexivity.
Defined.

(** The port [o] of [cat] finds no [result] in [/host/out]: the error names
    the parameter. *)
Lemma collect_port_error_witness :
  exists msg,
    collect_body host_fs (VList [VDict cat_output])
    = Raise (ParameterOutputWorkflowException
               ("Error collecting output for parameter 'o':" +:+ newline +:+ msg)).
Proof.
  eexists.
  apply (collect_port_error (H := posix) (fun s => s) (fun _ ex _ => Ok ex)
           (fun _ _ => host_fs) byte_order (fun basename pattern => basename +:+ pattern) 10
           (fun _ _ msg => msg) (fun _ => "") (fun _ d _ => Ok d) (fun _ _ => Ok "")
           sample_sha1 (fun _ _ => Ok (VDict [("o", VStr "custom")])) (fun d => Ok d)
           (fun v => Ok v) (fun _ d => Ok d) (fun _ _ => Ok tt) (fun _ => "")
           cat_tool [] [] cat_output "o" (sample_builder []) "/host/out" true ∅ 0 []
           (WorkflowException "Did not find output file with glob pattern: '['result']'")
           eq_refl eq_refl eq_refl eq_refl).
Defined.

(** A port of type [string] without an output binding has no result to
    return. *)
Lemma collect_output_without_binding_witness :
  collect_output (H := posix) (fun s => s) (fun _ ex _ => Ok ex) byte_order
    (fun basename pattern => basename +:+ pattern) 10 (fun _ _ msg => msg) (fun _ => "")
    (fun _ d _ => Ok d) (fun _ _ => Ok "") sample_sha1
    [("id", VStr "o"); ("type", VStr "string")] (sample_builder []) "/host/out" host_fs true
  = Raise UnboundLocalError.
Proof.
  apply (collect_output_without_binding (H := posix) (fun s => s) (fun _ ex _ => Ok ex)
           byte_order (fun basename pattern => basename +:+ pattern) 10 (fun _ _ msg => msg)
           (fun _ => "") (fun _ d _ => Ok d) (fun _ _ => Ok "") sample_sha1
           [("id", VStr "o"); ("type", VStr "string")] (sample_builder []) "/host/out"
           host_fs true (VStr "string") eq_refl eq_refl).
  - discriminate.
  - intros (t & Ht & _). discriminate.
Defined.

(** The job that read [in.txt] is no reader of it once its outputs are
    collected, whether the collection succeeds or not. *)
Lemma readers_released_witness :
  Builder.mutation_manager updating_builder = true /\
  "job" ∉ MutationManager.readers
    (MutationManager.state
       (snd
          (collect_output_ports (H := posix) (fun s => s) (fun _ ex _ => Ok ex)
             (fun _ _ => host_fs) byte_order
             (fun basename pattern => basename +:+ pattern) 10 (fun _ _ msg => msg)
             (fun _ => "") (fun _ d _ => Ok d) (fun _ _ => Ok "") sample_sha1
             (fun _ _ => Ok (VDict [])) (fun d => Ok d) (fun v => Ok v) (fun _ d => Ok d)
             (fun _ _ => Ok tt) (fun _ => "") cat_tool (VList [VDict cat_output])
             updating_builder "/host/out" (VInt 0) true "job"
             (Some [("file:///data/in.txt", input_file)])
             {["file:///data/in.txt" :=
                 {| MutationManager.generation := 0;
                    MutationManager.readers := {["job"]};
                    MutationManager.mutator := None |}]}))
       "file:///data/in.txt").
Proof.
  split; [reflexivity|].
  apply (readers_released (H := posix) (fun s => s) (fun _ ex _ => Ok ex)
           (fun _ _ => host_fs) byte_order
           (fun basename pattern => basename +:+ pattern) 10 (fun _ _ msg => msg)
           (fun _ => "") (fun _ d _ => Ok d) (fun _ _ => Ok "") sample_sha1
           (fun _ _ => Ok (VDict [])) (fun d => Ok d) (fun v => Ok v) (fun _ d => Ok d)
           (fun _ _ => Ok tt) (fun _ => "") cat_tool (VList [VDict cat_output])
           updating_builder "/host/out" (VInt 0) true "job"
           [("file:///data/in.txt", input_file)] _ eq_refl).
  - intros loc f [[= <- <-]|[]]. reflexivity.
  - left. reflexivity.
Defined.

(** ** Expression tools *)

Definition sum_tool : CommandLineTool.t :=
  sample_tool [("id", VStr "sum"); ("expression", VStr "$({total: 2})")] [] [].

(** The job of an expression tool, when run, calls the callback with what
    the expression evaluates to. *)
Lemma expression_tool_job_run_witness :
  exists j,
    ExpressionTool_job cat_init_job sum_tool [] (Some (Callback "done"))
      (sample_context false None) = Ok [j] /\
    forall rc w,
      ExpressionJob_run (fun _ _ _ => Ok (VDict [("total", VInt 2)])) (fun v => Ok v) true
        j rc w
      = Ok (log (Called "done" (VDict [("total", VInt 2)]) "success") w).
Proof.
  destruct (expression_tool_job_run cat_init_job
              (fun _ _ _ => Ok (VDict [("total", VInt 2)])) (fun v => Ok v) true
              sum_tool [] "done" (sample_context false None) _ eq_refl) as [_ Hrun].
  exact (Hrun (VStr "$({total: 2})") _ (VDict [("total", VInt 2)])
           (VDict [("total", VInt 2)]) eq_refl eq_refl eq_refl eq_refl).
Defined.

(** ** Jobs and the cache *)

(** Nothing is cached yet. *)
Definition empty_world : World := {|
  file_contents := ∅;
  directories := ∅;
  manager := ∅;
  events := []
|}.

(** The first run of [cat] with the cache: what [job] yields, and the world
    it leaves. *)
Definition cat_miss : list yielded * World :=
  Eval vm_compute in
    match cat_job (Some (Callback "done")) empty_world with
    | Ok miss => miss
    | Raise _ => ([], empty_world)
    end.

(** The world after the job of the first run has reported [success]. *)
Definition succeeded_world : World :=
  Eval vm_compute in
    match cat_miss with
    | ([YieldJob j], w) =>
        match JobBase.output_callback j with
        | Some wrapped =>
            match call wrapped (VDict []) "success" w with
            | Ok w' => w'
            | Raise _ => empty_world
            end
        | None => empty_world
        end
    | _ => empty_world
    end.


(** Once the job of the first run has reported [success], the next run
    yields a [CallbackJob] for the directory of the key. *)
Lemma cache_reuse_after_success_witness :
  exists j w1 wrapped w2,
    cat_job (Some (Callback "done")) empty_world = Ok ([YieldJob j], w1) /\
    JobBase.output_callback j = Some wrapped /\
    call wrapped (VDict []) "success" w1 = Ok w2 /\
    exists jc w3,
      cat_job None w2 = Ok ([YieldCallbackJob jc], w3) /\
      CallbackJob.outdir jc = "/cache/0123456789abcdef0123456789abcdef".
Proof.
  assert (cat_job (Some (Callback "done")) empty_world = Ok cat_miss) as Hmiss.
  { vm_compute; exact eq_refl. }
  unfold cat_miss in Hmiss.
  destruct (cache_reuse_after_success (H := posix) last_requirement_or_hint cat_init_job
              (fun s => s) (fun s => s) datum_arg stage_files sample_stat
              sample_json_dumps sample_md5 posix_quote "/var/spool/cwl" 10
              (fun _ _ builder j => Ok (builder, j)) (fun _ _ j => Ok j)
              cat_tool [("f", VDict input_file)] (Some (Callback "done"))
              (sample_context false (Some "/cache")) empty_world _
              "/cache" "cat" cat_cachebuilder cat_keydict _
              eq_refl ltac:(discriminate) eq_refl eq_refl
              ltac:(vm_compute; exact eq_refl) ltac:(vm_compute; exact eq_refl)
              eq_refl Hmiss)
    as (wrapped & Hcb & Hnext).
  injection Hcb as <-.
  eexists _, _, _, succeeded_world. split; [exact Hmiss|]. split; [reflexivity|].
  assert (call (update_status_output_callback (Some (Callback "done"))
                  "/cache/0123456789abcdef0123456789abcdef.status")
            (VDict []) "success" (snd cat_miss) = Ok succeeded_world) as Hcall.
  { vm_compute; exact eq_refl. }
  split; [exact Hcall|].
  destruct (Hnext _ _ _ Hcall) as [Hsuccess _].
  destruct (Hsuccess eq_refl None) as (jc & w3 & Hjob & Hout & _).
  exists jc, w3. split; [exact Hjob|exact Hout].
Defined.



(** ** The initial work directory *)

(** A work directory with a literal [config.json] and the input file under
    the name [renamed.txt]. *)
Definition workdir_requirement : requirement :=
  {| class := "InitialWorkDirRequirement";
     fields :=
       [("listing",
         VList [VDict [("entryname", VStr "config.json"); ("entry", VStr "{}")];
                VDict [("entryname", VStr "renamed.txt"); ("entry", VDict input_file);
                       ("writable", VBool true)]])] |}.

(** The literal and the renamed input are both in the staged listing. *)
Lemma initial_listing_dirents_witness :
  exists items,
    initial_listing (fun _ ex _ => Ok ex) (fun _ ex => Ok ex) (sample_builder [])
      workdir_requirement = Ok (VList items) /\
    In (VDict [("class", VStr "File"); ("basename", VStr "config.json");
               ("contents", VStr "{}"); ("writable", VBool false)]) items /\
    In (VDict [("class", VStr "File"); ("location", VStr "file:///data/in.txt");
               ("basename", VStr "renamed.txt"); ("writable", VBool true)]) items /\
    ~ In VNone items.
Proof.
  destruct (initial_listing (fun _ ex _ => Ok ex) (fun _ ex => Ok ex) (sample_builder [])
              workdir_requirement) as [ls|e] eqn:Hls; [|discriminate Hls].
  destruct (initial_listing_dirents (fun _ ex _ => Ok ex) (fun _ ex => Ok ex)
              (sample_builder []) workdir_requirement _ ls eq_refl Hls)
    as (items & -> & Hdirent & Hnever).
  exists items. split; [reflexivity|]. split; [|split].
  - apply (Hdirent [("entryname", VStr "config.json"); ("entry", VStr "{}")] (VStr "{}")
             (VStr "config.json")); [by left|reflexivity|reflexivity|reflexivity].
  - apply (proj2 (Hdirent [("entryname", VStr "renamed.txt"); ("entry", VDict input_file);
                           ("writable", VBool true)] (VDict input_file)
                    (VStr "renamed.txt") (or_intror (or_introl eq_refl)) eq_refl eq_refl)
             input_file eq_refl eq_refl).
  - intros Hin. apply (Hnever) in Hin as [Hnone _]; [done|].
    intros t [<-|[<-|[]]]; eexists; by split.
Defined.

(** Staging that work directory keeps the one file of the mapper. *)
Lemma initial_workdir_same_files_witness :
  exists builder' generatefiles' pathmap',
    initial_workdir (H := posix) last_requirement_or_hint (fun _ ex _ => Ok ex) 10
      (fun _ ex => Ok ex) (sample_tool [] [workdir_requirement] []) (sample_builder [])
      staged_input [("class", VStr "Directory"); ("listing", VList []); ("basename", VStr "")]
    = Ok (builder', generatefiles') /\
    Builder.pathmapper builder' = Some pathmap' /\
    same_files staged_input pathmap' /\
    Builder.outdir builder' = "/out".
Proof.
  destruct (initial_workdir (H := posix) last_requirement_or_hint (fun _ ex _ => Ok ex) 10
              (fun _ ex => Ok ex) (sample_tool [] [workdir_requirement] [])
              (sample_builder []) staged_input
              [("class", VStr "Directory"); ("listing", VList []); ("basename", VStr "")])
    as [[builder' generatefiles']|e] eqn:Hi; [|discriminate Hi].
  destruct (initial_workdir_same_files (H := posix) last_requirement_or_hint
              (fun _ ex _ => Ok ex) 10 (fun _ ex => Ok ex)
              (sample_tool [] [workdir_requirement] []) (sample_builder []) builder'
              staged_input _ generatefiles' eq_refl Hi)
    as ((pathmap' & Hpm & Hsame) & Hout & _).
  exists builder', generatefiles', pathmap'.
  split; [reflexivity|]. split; [exact Hpm|]. split; [exact Hsame|exact Hout].
Defined.

(** ** Record outputs *)

Definition result_field : dict :=
  [("name", VStr "log"); ("type", VStr "File");
   ("outputBinding", VDict [("glob", VStr "result.txt")])].

Definition record_port : dict :=
  [("id", VStr "summary");
   ("type", VDict [("type", VStr "record"); ("fields", VList [VDict result_field])])].

(** The collection of one port of a job that left [/host/out]. *)
Definition sample_collect (schema : dict) : res value :=
  collect_output (H := posix) (fun s => s) (fun _ ex _ => Ok ex) byte_order
    (fun basename pattern => basename +:+ pattern) 10 (fun _ _ msg => msg) (fun _ => "")
    (fun _ d _ => Ok d) (fun _ _ => Ok "") sample_sha1 schema (sample_builder [])
    "/host/out" host_fs true.

(** The record [summary] has the file of its field [log] under [log]. *)
Lemma collect_output_record_witness :
  exists out x,
    sample_collect record_port = Ok (VDict out) /\
    dict_get "log" out = Some x /\
    sample_collect result_field = Ok x.
Proof.
  destruct (sample_collect record_port) as [v|e] eqn:Hc; [|by vm_compute in Hc].
  destruct (collect_output_record (H := posix) (fun s => s) (fun _ ex _ => Ok ex) byte_order
              (fun basename pattern => basename +:+ pattern) 10 (fun _ _ msg => msg)
              (fun _ => "") (fun _ d _ => Ok d) (fun _ _ => Ok "") sample_sha1
              record_port (sample_builder []) "/host/out" host_fs true _
              [VDict result_field] v eq_refl eq_refl eq_refl Hc)
    as [[Hbinding _]|(out & -> & _ & Hvalues)]; [discriminate Hbinding|].
  destruct (Hvalues [] result_field [] "log" eq_refl eq_refl) as (x & Hx & Hfield).
  { by intros f' name' []. }
  exists out, x. split; [reflexivity|]. split; [exact Hx|exact Hfield].
Defined.
